(** * python-bitcoin-utils: the transaction digest engine of
    [bitcoinutils/transactions.py]

    A shallow embedding of [TxInput], [TxOutput], [TxWitnessInput] and
    [Transaction] with their wire serialisation, the parser [from_raw], the
    identifiers [get_txid] / [get_wtxid] and the three signature digests
    (legacy, segwit v0, taproot), followed by the properties of the
    specification that were checked against them.

    Python integers are [Z]; [bytes] values are lists of [Byte.byte]; [str]
    values are [string].  A Python exception is a value [Raise e] of the
    [result] type and every fallible statement is sequenced in the [result]
    monad.  The second half of the file models the object store (attribute
    assignment on shared objects) to settle what the digests mutate. *)

From Stdlib Require Import ZArith List String Ascii Bool Lia.
From Stdlib.Strings Require Import Byte.
From stdpp Require Import gmap.
Import ListNotations.

#[local] Open Scope Z_scope.
#[local] Open Scope list_scope.

(** ** Python primitives *)

Module Py.

Abbreviation bytes := (list Byte.byte).

(** The exceptions the modelled statements can raise. *)
Inductive exn : Type :=
| IndexError          (* list or bytes index out of range *)
| ValueError          (* raise ValueError(...), bytes([x]) out of range *)
| StructError         (* struct.error: argument out of range *)
| BinasciiError       (* unhexlify on odd-length or non-hex text *)
| OverflowError       (* int.to_bytes: int too big or negative *)
| UnicodeEncodeError  (* chr(n).encode() on a surrogate *)
| TypeError           (* attribute of an object of the wrong class *)
| MalformedVarInt     (* vi_to_int on a buffer that is too short *)
| Exception.          (* raise Exception(...) *)

Inductive result (A : Type) : Type :=
| Ok (a : A)
| Raise (e : exn).
Arguments Ok {A} a.
Arguments Raise {A} e.

Definition bind {A B} (m : result A) (k : A -> result B) : result B :=
  match m with
  | Ok a => k a
  | Raise e => Raise e
  end.

Definition is_ok {A} (m : result A) : bool :=
  match m with Ok _ => true | Raise _ => false end.

(** [for x in xs: acc = body(acc, x)], stopping at the first exception. *)
Fixpoint for_each {A S} (xs : list A) (body : S -> A -> result S) (acc : S)
  : result S :=
  match xs with
  | [] => Ok acc
  | x :: xs' => bind (body acc x) (for_each xs' body)
  end.

(** [[f(x) for x in xs]] with a fallible [f]. *)
Fixpoint map_m {A B} (f : A -> result B) (xs : list A) : result (list B) :=
  match xs with
  | [] => Ok []
  | x :: xs' =>
      bind (f x) (fun y => bind (map_m f xs') (fun ys => Ok (y :: ys)))
  end.

Definition len {A} (l : list A) : Z := Z.of_nat (length l).

(** The position [l[i]] denotes: Python indexing, a negative index counting
    from the end; [IndexError] out of range. *)
Definition norm_index {A} (l : list A) (i : Z) : result nat :=
  let j := if i <? 0 then i + len l else i in
  if (j <? 0) || (len l <=? j) then Raise IndexError else Ok (Z.to_nat j).

(** [l[i]]. *)
Definition index {A} (l : list A) (i : Z) : result A :=
  bind (norm_index l i)
    (fun j => match l !! j with
              | Some x => Ok x
              | None => Raise IndexError
              end).

(** [l[a:b]] for non-negative bounds, clipped to the length as Python does. *)
Definition slice {A} (l : list A) (a b : Z) : list A :=
  let a' := Z.min (Z.max a 0) (len l) in
  let b' := Z.min (Z.max b 0) (len l) in
  firstn (Z.to_nat (b' - a')) (skipn (Z.to_nat a') l).

(** [range(n)] as the list of its values (empty for [n <= 0]). *)
Definition range (n : Z) : list Z := map Z.of_nat (seq 0 (Z.to_nat n)).

Definition byte_of_Z (z : Z) : Byte.byte :=
  match Byte.of_N (Z.to_N (z mod 256)) with
  | Some b => b
  | None => Byte.x00
  end.

Definition Z_of_byte (b : Byte.byte) : Z := Z.of_N (Byte.to_N b).

(** The [n] low-order bytes of [z], least significant first. *)
Fixpoint le_bytes (n : nat) (z : Z) : bytes :=
  match n with
  | O => []
  | S n' => byte_of_Z z :: le_bytes n' (z / 256)
  end.

(** [int.from_bytes(b, 'little')]. *)
Fixpoint from_le_bytes (b : bytes) : Z :=
  match b with
  | [] => 0
  | x :: b' => Z_of_byte x + 256 * from_le_bytes b'
  end.

(** The [n] low-order bytes of [z], most significant first. *)
Definition be_bytes (n : nat) (z : Z) : bytes := rev (le_bytes n z).

(** [a == b] on bytes. *)
Fixpoint bytes_eqb (a b : bytes) : bool :=
  match a, b with
  | [], [] => true
  | x :: a', y :: b' => Byte.eqb x y && bytes_eqb a' b'
  | _, _ => false
  end.

(** [bytes([x])]. *)
Definition bytes_of_int (x : Z) : result bytes :=
  if (0 <=? x) && (x <? 256) then Ok [byte_of_Z x] else Raise ValueError.

(** [x.to_bytes(n, 'little')] (unsigned). *)
Definition int_to_bytes (x : Z) (n : nat) : result bytes :=
  if (0 <=? x) && (x <? 256 ^ Z.of_nat n) then Ok (le_bytes n x)
  else Raise OverflowError.

(** [struct.pack] with the formats the module uses.  With the [<] prefix
    the sizes are the standard ones: [L] and [I] are 4 bytes, [q] and [Q]
    are 8 bytes, [i] is 4 bytes; [B] is one byte. *)
Definition pack_unsigned (n : nat) (x : Z) : result bytes :=
  if (0 <=? x) && (x <? 256 ^ Z.of_nat n) then Ok (le_bytes n x)
  else Raise StructError.

Definition pack_signed (n : nat) (x : Z) : result bytes :=
  if (- (256 ^ Z.of_nat n / 2) <=? x) && (x <? 256 ^ Z.of_nat n / 2)
  then Ok (le_bytes n x)
  else Raise StructError.

Definition pack_L := pack_unsigned 4.   (* struct.pack('<L', x) *)
Definition pack_I := pack_unsigned 4.   (* struct.pack('<I', x) *)
Definition pack_Q := pack_unsigned 8.   (* struct.pack('<Q', x) *)
Definition pack_B := pack_unsigned 1.   (* struct.pack('B', x)  *)
Definition pack_q := pack_signed 8.     (* struct.pack('<q', x) *)
Definition pack_i := pack_signed 4.     (* struct.pack('<i', x) *)

(** [chr(n).encode()]: the UTF-8 encoding of the code point [n]. *)
Definition chr_encode (n : Z) : result bytes :=
  if (n <? 0) || (1114111 <? n) then Raise ValueError
  else if n <? 128 then Ok [byte_of_Z n]
  else if n <? 2048 then
    Ok [byte_of_Z (Z.lor 192 (Z.shiftr n 6));
        byte_of_Z (Z.lor 128 (Z.land n 63))]
  else if (55296 <=? n) && (n <=? 57343) then Raise UnicodeEncodeError
  else if n <? 65536 then
    Ok [byte_of_Z (Z.lor 224 (Z.shiftr n 12));
        byte_of_Z (Z.lor 128 (Z.land (Z.shiftr n 6) 63));
        byte_of_Z (Z.lor 128 (Z.land n 63))]
  else
    Ok [byte_of_Z (Z.lor 240 (Z.shiftr n 18));
        byte_of_Z (Z.lor 128 (Z.land (Z.shiftr n 12) 63));
        byte_of_Z (Z.lor 128 (Z.land (Z.shiftr n 6) 63));
        byte_of_Z (Z.lor 128 (Z.land n 63))].

(** [str.encode()] on ASCII text. *)
Definition str_encode (s : string) : bytes :=
  map (fun c => byte_of_Z (Z.of_N (N_of_ascii c))) (list_ascii_of_string s).

(** Hexadecimal text. *)
Definition hex_value (c : ascii) : option Z :=
  let n := Z.of_N (N_of_ascii c) in
  if (48 <=? n) && (n <=? 57) then Some (n - 48)
  else if (97 <=? n) && (n <=? 102) then Some (n - 87)
  else if (65 <=? n) && (n <=? 70) then Some (n - 55)
  else None.

Definition hex_digit (v : Z) : ascii :=
  ascii_of_N (Z.to_N (if v <? 10 then v + 48 else v + 87)).

(** [binascii.unhexlify(s)]. *)
Fixpoint unhexlify (s : string) : result bytes :=
  match s with
  | EmptyString => Ok []
  | String hi (String lo s') =>
      match hex_value hi, hex_value lo with
      | Some h, Some l =>
          bind (unhexlify s') (fun b => Ok (byte_of_Z (16 * h + l) :: b))
      | _, _ => Raise BinasciiError
      end
  | String _ EmptyString => Raise BinasciiError
  end.

(** [b.hex()], and [hexlify(b).decode('utf-8')]: lower-case hex text. *)
Fixpoint hex (b : bytes) : string :=
  match b with
  | [] => EmptyString
  | x :: b' =>
      String (hex_digit (Z_of_byte x / 16))
        (String (hex_digit (Z_of_byte x mod 16)) (hex b'))
  end.

End Py.

Export Py.

Declare Scope py_scope.
Notation "'let*' x ':=' m 'in' k" := (Py.bind m (fun x => k))
  (at level 10, x pattern, m at level 100, k at level 200) : py_scope.
#[local] Open Scope py_scope.

(** ** Floats (IEEE 754 binary64), as far as [get_vsize] uses them *)

(** Every float of [get_vsize] is a multiple of 1/4; such a float is
    represented by its number of quarters. *)
Module PyFloat.

(** The nearest multiple of 1/4 with a 53-bit significand, ties to even:
    the rounding of every binary64 operation. *)
Definition round53 (q : Z) : Z :=
  let m := Z.abs q in
  let s := Z.log2 m - 52 in
  if s <=? 0 then q
  else
    let unit := 2 ^ s in
    let lo := m / unit in
    let r := m mod unit in
    let half := unit / 2 in
    let up := (half <? r) || ((r =? half) && Z.odd lo) in
    Z.sgn q * ((if up then lo + 1 else lo) * unit).

(** The float nearest to [q] quarters; a result of magnitude [2 ^ 1024] or
    more is [OverflowError] (on the conversion of an int, on [/], or later
    on [math.ceil] of an infinity). *)
Definition to_float (q : Z) : result Z :=
  let r := round53 q in
  if 2 ^ 1026 <=? Z.abs r then Raise OverflowError else Ok r.

(** [a / 4] on an int [a]: true division, correctly rounded. *)
Definition int_div_4 (a : Z) : result Z := to_float a.

(** [n + x] for an int [n] and a float [x]: [n] is converted first. *)
Definition int_add_float (n x : Z) : result Z :=
  let* f := to_float (4 * n) in
  to_float (f + x).

(** [math.ceil(x)], an int. *)
Definition ceil (x : Z) : Z := - ((- x) / 4).

End PyFloat.

(** ** hashlib.sha256 (FIPS 180-4) *)

Module SHA256.

Definition w32 (x : Z) : Z := x mod 2 ^ 32.
Definition add32 (x y : Z) : Z := w32 (x + y).
Definition rotr (n x : Z) : Z :=
  Z.lor (Z.shiftr x n) (w32 (Z.shiftl x (32 - n))).
Definition Ch (x y z : Z) : Z :=
  Z.lxor (Z.land x y) (Z.land (Z.lxor x (2 ^ 32 - 1)) z).
Definition Maj (x y z : Z) : Z :=
  Z.lxor (Z.lxor (Z.land x y) (Z.land x z)) (Z.land y z).
Definition Sigma0 (x : Z) : Z :=
  Z.lxor (Z.lxor (rotr 2 x) (rotr 13 x)) (rotr 22 x).
Definition Sigma1 (x : Z) : Z :=
  Z.lxor (Z.lxor (rotr 6 x) (rotr 11 x)) (rotr 25 x).
Definition sigma0 (x : Z) : Z :=
  Z.lxor (Z.lxor (rotr 7 x) (rotr 18 x)) (Z.shiftr x 3).
Definition sigma1 (x : Z) : Z :=
  Z.lxor (Z.lxor (rotr 17 x) (rotr 19 x)) (Z.shiftr x 10).

(** The round constants are the first 32 bits of the fractional parts of
    the cube roots of the first 64 primes, and the initial hash value those
    of the square roots of the first 8 (FIPS 180-4, sections 4.2.2 and
    5.3.3); both tables are computed. *)
Definition is_prime (n : nat) : bool :=
  forallb (fun d => negb (Nat.eqb (Nat.modulo n d) 0)) (seq 2 (n - 2)).

Definition primes : list Z :=
  map Z.of_nat (filter is_prime (seq 2 310)).

(** The largest [r] below [2 ^ (bit + 1)] with [r ^ k <= n], bit by bit. *)
Fixpoint root_bits (k n : Z) (bit : nat) (r : Z) : Z :=
  let r' := r + 2 ^ Z.of_nat bit in
  let r := if r' ^ k <=? n then r' else r in
  match bit with
  | O => r
  | S bit' => root_bits k n bit' r
  end.

Definition frac_root (k p : Z) : Z :=
  w32 (root_bits k (p * 2 ^ (32 * k)) 40 0).

Definition K : list Z := Eval vm_compute in map (frac_root 3) primes.

Definition H0 : list Z :=
  Eval vm_compute in map (frac_root 2) (firstn 8 primes).

(** Message padding: one bit, zeros up to 56 mod 64, the bit length as a
    64-bit big-endian integer. *)
Definition pad (msg : bytes) : bytes :=
  let l := len msg in
  let k := (55 - l) mod 64 in
  msg ++ [Byte.x80] ++ repeat Byte.x00 (Z.to_nat k) ++ be_bytes 8 (8 * l).

(** Big-endian 32-bit words of a byte string. *)
Fixpoint words (fuel : nat) (b : bytes) : list Z :=
  match fuel, b with
  | S fuel', b0 :: b1 :: b2 :: b3 :: b' =>
      (((Z_of_byte b0 * 256 + Z_of_byte b1) * 256 + Z_of_byte b2) * 256
       + Z_of_byte b3) :: words fuel' b'
  | _, _ => []
  end.

Definition at_ (l : list Z) (i : nat) : Z := nth i l 0.

(** One round; the window [w] holds the sixteen schedule words from the
    current one on. *)
Definition round (k : Z) (w st : list Z) : list Z :=
  let a := at_ st 0 in let b := at_ st 1 in
  let c := at_ st 2 in let d := at_ st 3 in
  let e := at_ st 4 in let f := at_ st 5 in
  let g := at_ st 6 in let h := at_ st 7 in
  let t1 :=
    add32 (add32 (add32 (add32 h (Sigma1 e)) (Ch e f g)) k) (at_ w 0) in
  let t2 := add32 (Sigma0 a) (Maj a b c) in
  [add32 t1 t2; a; b; c; add32 d t1; e; f; g].

Definition next_word (w : list Z) : Z :=
  add32 (add32 (add32 (sigma1 (at_ w 14)) (at_ w 9)) (sigma0 (at_ w 1)))
    (at_ w 0).

Fixpoint rounds (ks : list Z) (w st : list Z) : list Z :=
  match ks with
  | [] => st
  | k :: ks' => rounds ks' (tl w ++ [next_word w]) (round k w st)
  end.

Definition compress (h : list Z) (block : list Z) : list Z :=
  let st := rounds K block h in
  map (fun p => add32 (fst p) (snd p)) (combine h st).

Fixpoint blocks (fuel : nat) (h : list Z) (ws : list Z) : list Z :=
  match fuel, ws with
  | _, [] => h
  | O, _ => h
  | S fuel', _ => blocks fuel' (compress h (firstn 16 ws)) (skipn 16 ws)
  end.

(** [hashlib.sha256(msg).digest()]. *)
Definition sha256 (msg : bytes) : bytes :=
  let p := pad msg in
  let ws := words (length p) p in
  flat_map (be_bytes 4) (blocks (length ws) H0 ws).

End SHA256.

Definition sha256 := SHA256.sha256.

(** [hashlib.sha256(hashlib.sha256(b).digest()).digest()]. *)
Definition sha256d (b : bytes) : bytes := sha256 (sha256 b).


(** ** Collaborators that are not part of [transactions.py] *)

(** Modelled from the spec: [bitcoinutils/constants.py] is absent; the values
    are those of section 6, "Constants consumed". *)
Module Constants.

Definition DEFAULT_TX_VERSION : bytes := [Byte.x02; Byte.x00; Byte.x00; Byte.x00].
Definition DEFAULT_TX_LOCKTIME : bytes := [Byte.x00; Byte.x00; Byte.x00; Byte.x00].
Definition DEFAULT_TX_SEQUENCE : bytes := [Byte.xff; Byte.xff; Byte.xff; Byte.xff].
Definition EMPTY_TX_SEQUENCE : bytes := [Byte.x00; Byte.x00; Byte.x00; Byte.x00].
Definition NEGATIVE_SATOSHI : Z := -1.
Definition SIGHASH_ALL : Z := 1.
Definition SIGHASH_NONE : Z := 2.
Definition SIGHASH_SINGLE : Z := 3.
Definition SIGHASH_ANYONECANPAY : Z := 128.
Definition TAPROOT_SIGHASH_ALL : Z := 0.
Definition LEAF_VERSION_TAPSCRIPT : Z := 192.
Definition ABSOLUTE_TIMELOCK_SEQUENCE : bytes :=
  [Byte.xfe; Byte.xff; Byte.xff; Byte.xff].
Definition REPLACE_BY_FEE_SEQUENCE : bytes :=
  [Byte.xfd; Byte.xff; Byte.xff; Byte.xff].

(** Modelled from the spec: the three kinds of sequence of section 3,
    which the source compares [seq_type] with by [==]; [TYPE_OTHER] stands
    for any other value a caller passes. *)
Inductive seq_type : Type :=
| TYPE_ABSOLUTE_TIMELOCK
| TYPE_RELATIVE_TIMELOCK
| TYPE_REPLACE_BY_FEE
| TYPE_OTHER.

End Constants.

Export Constants.

(** Modelled from the spec: [bitcoinutils/utils.py] is absent; the VarInt
    codec follows section 4.1 and the tagged hash section 4.2. *)
Module Utils.

(** Section 4.1: one byte below [0xFD], else a marker and 2, 4 or 8
    little-endian bytes. *)
Definition encode_varint (n : Z) : bytes :=
  if n <? 253 then [byte_of_Z n]
  else if n <=? 65535 then Byte.xfd :: le_bytes 2 n
  else if n <=? 4294967295 then Byte.xfe :: le_bytes 4 n
  else Byte.xff :: le_bytes 8 n.

(** Section 4.5 item 5, "VarInt length and item bytes". *)
Definition prepend_varint (data : bytes) : bytes :=
  encode_varint (len data) ++ data.

(** Section 4.1: decoding returns [(value, bytes_consumed)] and fails with
    [MalformedVarInt] when the buffer is too short for the indicated width;
    minimal encoding is not enforced. *)
Definition vi_to_int (byteint : bytes) : result (Z * Z) :=
  match byteint with
  | [] => Raise MalformedVarInt
  | b0 :: rest =>
      let ni := Z_of_byte b0 in
      if ni <? 253 then Ok (ni, 1)
      else
        let size := if ni =? 253 then 2%nat
                    else if ni =? 254 then 4%nat else 8%nat in
        if (length rest <? size)%nat then Raise MalformedVarInt
        else Ok (from_le_bytes (firstn size rest), Z.of_nat size + 1)
  end.

(** Section 4.2: [SHA256(SHA256(tag) ‖ SHA256(tag) ‖ data)]; the source
    calls [tagged_hash(data, tag).digest()]. *)
Definition tagged_hash (data : bytes) (tag : string) : bytes :=
  let tag_digest := sha256 (str_encode tag) in
  sha256 (tag_digest ++ tag_digest ++ data).

End Utils.

Export Utils.

(** Modelled from the spec: [bitcoinutils/script.py] is absent.  Sections 1
    and 6 treat a script as an opaque producer of a canonical byte string,
    with [from_bytes (to_bytes s) = s]; a [Script] is represented by that
    byte string and [Script([])] by the empty one. *)
Module Script.

Record t : Type := mk { raw : bytes }.

(** [Script([])]. *)
Definition empty : t := mk [].

Definition to_bytes (s : t) : bytes := raw s.

(** [s.to_hex()]: the bytes as hexadecimal text. *)
Definition to_hex (s : t) : string := hex (to_bytes s).

Definition from_raw (b : bytes) (has_segwit : bool) : t := mk b.

End Script.

(** ** The value types of [transactions.py] *)

Module TxInput.

Record t : Type := mk
  { txid : string;          (* hex text, display orientation *)
    txout_index : Z;
    script_sig : Script.t;
    sequence : bytes }.

Definition set_script_sig (s : Script.t) (txin : t) : t :=
  mk (txid txin) (txout_index txin) s (sequence txin).

Definition set_sequence (q : bytes) (txin : t) : t :=
  mk (txid txin) (txout_index txin) (script_sig txin) q.

(** [TxInput.to_bytes], lines 69-87. *)
Definition to_bytes (self : t) : result bytes :=
  let* txid_raw := unhexlify (txid self) in
  let txid_bytes := rev txid_raw in
  let* txout_bytes := pack_L (txout_index self) in
  let script_sig_bytes := Script.to_bytes (script_sig self) in
  Ok (txid_bytes ++ txout_bytes ++ encode_varint (len script_sig_bytes)
        ++ script_sig_bytes ++ sequence self).

(** [TxInput.from_raw], lines 101-135; the raw transaction is given as
    bytes and the result is the input with the advanced cursor. *)
Definition from_raw (txinputraw : bytes) (cursor : Z) (has_segwit : bool)
  : result (t * Z) :=
  let inp_hash := rev (slice txinputraw cursor (cursor + 32)) in
  if len inp_hash =? 0 then Raise Exception
  else
    let output_n := rev (slice txinputraw (cursor + 32) (cursor + 36)) in
    let cursor := cursor + 36 in
    let* vi := vi_to_int (slice txinputraw cursor (cursor + 9)) in
    let '(unlocking_script_size, size) := vi in
    let cursor := cursor + size in
    let unlocking_script :=
      slice txinputraw cursor (cursor + unlocking_script_size) in
    let cursor := cursor + unlocking_script_size in
    let sequence_number := slice txinputraw cursor (cursor + 4) in
    let cursor := cursor + 4 in
    (* int(output_n.hex(), 16) raises ValueError on empty text *)
    if len output_n =? 0 then Raise ValueError
    else
      Ok (mk (hex inp_hash) (from_le_bytes (rev output_n))
             (Script.from_raw unlocking_script has_segwit) sequence_number,
          cursor).

(** [TxInput.copy], lines 138-143. *)
Definition copy (txin : t) : t :=
  mk (txid txin) (txout_index txin) (script_sig txin) (sequence txin).

End TxInput.

Module TxWitnessInput.

Record t : Type := mk { stack : list string }.

(** [TxWitnessInput.to_bytes], lines 168-176. *)
Definition to_bytes (self : t) : result bytes :=
  for_each (stack self)
    (fun stack_bytes item =>
       let* item_raw := unhexlify item in
       Ok (stack_bytes ++ prepend_varint item_raw))
    [].

(** [TxWitnessInput.copy], lines 178-182. *)
Definition copy (txwin : t) : t := mk (stack txwin).

End TxWitnessInput.

Module TxOutput.

Record t : Type := mk { amount : Z; script_pubkey : Script.t }.

(** [TxOutput.to_bytes], lines 224-233. *)
Definition to_bytes (self : t) : result bytes :=
  let* amount_bytes := pack_q (amount self) in
  let script_bytes := Script.to_bytes (script_pubkey self) in
  Ok (amount_bytes ++ encode_varint (len script_bytes) ++ script_bytes).

(** [TxOutput.from_raw], lines 236-263. *)
Definition from_raw (txoutputraw : bytes) (cursor : Z) (has_segwit : bool)
  : result (t * Z) :=
  let value := from_le_bytes (slice txoutputraw cursor (cursor + 8)) in
  let cursor := cursor + 8 in
  let* vi := vi_to_int (slice txoutputraw cursor (cursor + 9)) in
  let '(lock_script_size, size) := vi in
  let cursor := cursor + size in
  let lock_script := slice txoutputraw cursor (cursor + lock_script_size) in
  let cursor := cursor + lock_script_size in
  Ok (mk value (Script.from_raw lock_script has_segwit), cursor).

(** [TxOutput.copy], lines 277-281. *)
Definition copy (txout : t) : t := mk (amount txout) (script_pubkey txout).

End TxOutput.

(** [Sequence], lines 284-352.  [value] is [None] by default. *)
Module Sequence.

Record t : Type := mk
  { seq_type : Constants.seq_type;
    value : option Z;
    is_type_block : bool }.

(** [x == TYPE_...]. *)
Definition type_eqb (a b : Constants.seq_type) : bool :=
  match a, b with
  | TYPE_ABSOLUTE_TIMELOCK, TYPE_ABSOLUTE_TIMELOCK
  | TYPE_RELATIVE_TIMELOCK, TYPE_RELATIVE_TIMELOCK
  | TYPE_REPLACE_BY_FEE, TYPE_REPLACE_BY_FEE => true
  | _, _ => false
  end.

(** [Sequence.__init__], lines 312-317; comparing [None] with an int is a
    [TypeError]. *)
Definition init (seq_type : Constants.seq_type) (value : option Z)
    (is_type_block : bool) : result t :=
  let* out_of_range :=
    if type_eqb seq_type TYPE_RELATIVE_TIMELOCK then
      match value with
      | None => Raise TypeError
      | Some v => Ok ((v <? 1) || (65535 <? v))
      end
    else Ok false in
  if out_of_range then Raise ValueError
  else Ok (mk seq_type value is_type_block).

(** [for_input_sequence], lines 319-337; no [return] is reached for a
    type that is none of the three, and the call yields [None]. *)
Definition for_input_sequence (self : t) : result (option bytes) :=
  if type_eqb (seq_type self) TYPE_ABSOLUTE_TIMELOCK then
    Ok (Some ABSOLUTE_TIMELOCK_SEQUENCE)
  else if type_eqb (seq_type self) TYPE_REPLACE_BY_FEE then
    Ok (Some REPLACE_BY_FEE_SEQUENCE)
  else if type_eqb (seq_type self) TYPE_RELATIVE_TIMELOCK then
    let seq := 0 in
    let seq :=
      if negb (is_type_block self) then Z.lor seq (Z.shiftl 1 22) else seq in
    match value self with
    | None => Raise TypeError
    | Some v =>
        let seq := Z.lor seq v in
        let* seq_bytes := int_to_bytes seq 4 in
        Ok (Some seq_bytes)
    end
  else Ok None.

(** [for_script], lines 341-352. *)
Definition for_script (self : t) : result (option Z) :=
  if type_eqb (seq_type self) TYPE_REPLACE_BY_FEE then Raise ValueError
  else
    let script_integer := value self in
    if type_eqb (seq_type self) TYPE_RELATIVE_TIMELOCK
       && negb (is_type_block self) then
      match script_integer with
      | None => Raise TypeError
      | Some v => Ok (Some (Z.lor v (Z.shiftl 1 22)))
      end
    else Ok script_integer.

End Sequence.

(** [Locktime], lines 355-382. *)
Module Locktime.

Record t : Type := mk { value : Z }.

(** [for_transaction], lines 378-382. *)
Definition for_transaction (self : t) : result bytes :=
  let* locktime_bytes := int_to_bytes (value self) 4 in
  Ok locktime_bytes.

End Locktime.

Module Transaction.

Record t : Type := mk
  { inputs : list TxInput.t;
    outputs : list TxOutput.t;
    locktime : bytes;
    version : bytes;
    has_segwit : bool;
    witnesses : list TxWitnessInput.t }.

(** [Transaction(inputs=..., outputs=..., has_segwit=..., witnesses=...)]:
    the constructor call of [from_raw], lines 527-530, with the defaults of
    [__init__] (lines 434-457) for [locktime] and [version]. *)
Definition init (ins : list TxInput.t) (outs : list TxOutput.t)
    (segwit : bool) (wits : list TxWitnessInput.t) : t :=
  mk ins outs DEFAULT_TX_LOCKTIME DEFAULT_TX_VERSION segwit wits.

(** [Transaction.to_bytes], lines 933-961. *)
Definition to_bytes (self : t) (has_segwit : bool) : result bytes :=
  let data := version self in
  let data := if has_segwit then (data ++ [Byte.x00]) ++ [Byte.x01] else data in
  let txin_count_bytes := encode_varint (len (inputs self)) in
  let txout_count_bytes := encode_varint (len (outputs self)) in
  let data := data ++ txin_count_bytes in
  let* data :=
    for_each (inputs self)
      (fun data txin =>
         let* b := TxInput.to_bytes txin in Ok (data ++ b)) data in
  let data := data ++ txout_count_bytes in
  let* data :=
    for_each (outputs self)
      (fun data txout =>
         let* b := TxOutput.to_bytes txout in Ok (data ++ b)) data in
  let* data :=
    if has_segwit then
      for_each (witnesses self)
        (fun data witness =>
           let* witnesses_count_bytes :=
             chr_encode (len (TxWitnessInput.stack witness)) in
           let data := data ++ witnesses_count_bytes in
           let* b := TxWitnessInput.to_bytes witness in
           Ok (data ++ b)) data
    else Ok data in
  Ok (data ++ locktime self).

(** The three loops of [from_raw]. *)
Fixpoint read_inputs (n : nat) (rawtx : bytes) (cursor : Z)
    (has_segwit : bool) (inputs : list TxInput.t)
  : result (list TxInput.t * Z) :=
  match n with
  | O => Ok (inputs, cursor)
  | S n' =>
      let* r := TxInput.from_raw rawtx cursor has_segwit in
      let '(inp, cursor) := r in
      read_inputs n' rawtx cursor has_segwit (inputs ++ [inp])
  end.

Fixpoint read_outputs (n : nat) (rawtx : bytes) (cursor : Z)
    (has_segwit : bool) (outputs : list TxOutput.t)
  : result (list TxOutput.t * Z) :=
  match n with
  | O => Ok (outputs, cursor)
  | S n' =>
      let* r := TxOutput.from_raw rawtx cursor has_segwit in
      let '(output, cursor) := r in
      read_outputs n' rawtx cursor has_segwit (outputs ++ [output])
  end.

Fixpoint read_witness_items (m : nat) (rawtx : bytes) (cursor : Z)
    (witnesses_tmp : list string) : result (list string * Z) :=
  match m with
  | O => Ok (witnesses_tmp, cursor)
  | S m' =>
      let* vi := vi_to_int (slice rawtx cursor (cursor + 9)) in
      let '(item_size, size) := vi in
      let witness :=
        if item_size =? 0 then [Byte.x00]
        else slice rawtx (cursor + size) (cursor + item_size + size) in
      let cursor := cursor + (item_size + size) in
      read_witness_items m' rawtx cursor (witnesses_tmp ++ [hex witness])
  end.

Fixpoint read_witnesses (n : nat) (rawtx : bytes) (cursor : Z)
    (witnesses : list TxWitnessInput.t)
  : result (list TxWitnessInput.t * Z) :=
  match n with
  | O => Ok (witnesses, cursor)
  | S n' =>
      let* vi := vi_to_int (slice rawtx cursor (cursor + 9)) in
      let '(n_items, size) := vi in
      let cursor := cursor + size in
      let* r := read_witness_items (Z.to_nat n_items) rawtx cursor [] in
      let '(witnesses_tmp, cursor) := r in
      read_witnesses n' rawtx cursor
        (witnesses ++ [TxWitnessInput.mk witnesses_tmp])
  end.

(** [Transaction.from_raw], lines 460-530.  [version] is read and not
    used again, and nothing is read after the witnesses, as in the source. *)
Definition from_raw (rawtx : bytes) : result t :=
  let version := rev (slice rawtx 0 4) in
  let has_segwit := false in
  let cursor := 4 in
  let '(has_segwit, cursor) :=
    if bytes_eqb (slice rawtx 4 5) [Byte.x00] then
      let flag := slice rawtx 5 6 in
      (if bytes_eqb flag [Byte.x01] then true else has_segwit, cursor + 2)
    else (has_segwit, cursor) in
  let* vi := vi_to_int (slice rawtx cursor (cursor + 9)) in
  let '(n_inputs, size) := vi in
  let cursor := cursor + size in
  let* r := read_inputs (Z.to_nat n_inputs) rawtx cursor has_segwit [] in
  let '(inputs, cursor) := r in
  let* vi := vi_to_int (slice rawtx cursor (cursor + 9)) in
  let '(n_outputs, size) := vi in
  let cursor := cursor + size in
  let* r := read_outputs (Z.to_nat n_outputs) rawtx cursor has_segwit [] in
  let '(outputs, cursor) := r in
  let* r :=
    if has_segwit then read_witnesses (length inputs) rawtx cursor []
    else Ok ([], cursor) in
  let '(witnesses, cursor) := r in
  Ok (init inputs outputs has_segwit witnesses).

(** [Transaction.copy], lines 548-555. *)
Definition copy (tx : t) : t :=
  let ins := map TxInput.copy (inputs tx) in
  let outs := map TxOutput.copy (outputs tx) in
  let wits := map TxWitnessInput.copy (witnesses tx) in
  mk ins outs (locktime tx) (version tx) (has_segwit tx) wits.

(** [get_txid], lines 964-970. *)
Definition get_txid (self : t) : result string :=
  let* data := to_bytes self false in
  let hash := sha256d data in
  Ok (hex (rev hash)).

(** [get_hash], lines 979-985, and [get_wtxid], lines 973-976. *)
Definition get_hash (self : t) : result string :=
  let* data := to_bytes self (has_segwit self) in
  let hash := sha256d data in
  Ok (hex (rev hash)).

Definition get_wtxid (self : t) : result string := get_hash self.

(** [get_size], lines 988-991. *)
Definition get_size (self : t) : result Z :=
  let* data := to_bytes self (has_segwit self) in Ok (len data).

(** [get_vsize], lines 994-1024.  [vsize] is a float: [/] is true
    division and the sum of an int and a float is a float. *)
Definition get_vsize (self : t) : result Z :=
  if negb (has_segwit self) then get_size self
  else
    let marker_size := 2 in
    let* data :=
      for_each (witnesses self)
        (fun data witness =>
           let* witnesses_count_bytes :=
             chr_encode (len (TxWitnessInput.stack witness)) in
           let data := data ++ witnesses_count_bytes in
           let* b := TxWitnessInput.to_bytes witness in
           Ok (data ++ b)) [] in
    let wit_size := len data in
    let* total := get_size self in
    let size := total - (marker_size + wit_size) in
    let* quarter := PyFloat.int_div_4 (marker_size + wit_size) in
    let* vsize := PyFloat.int_add_float size quarter in
    Ok (PyFloat.ceil vsize).

(** [to_hex], lines 1027-1030, and [serialize], lines 1033-1036. *)
Definition to_hex (self : t) : result string :=
  let* data := to_bytes self (has_segwit self) in Ok (hex data).

Definition serialize (self : t) : result string := to_hex self.

(** *** Legacy digest, lines 558-657 *)

(** Lines 612-614 and 633-635: zero the sequence of every input whose
    position differs from [txin_index]. *)
Definition zero_other_sequences (ins : list TxInput.t) (txin_index : Z)
  : list TxInput.t :=
  fold_left
    (fun ins i =>
       if i =? txin_index then ins
       else alter (TxInput.set_sequence EMPTY_TX_SEQUENCE) (Z.to_nat i) ins)
    (range (len ins)) ins.

(** Lines 626-629: the placeholders followed by the signed output. *)
Definition single_outputs (txin_index : Z) (txout : TxOutput.t)
  : list TxOutput.t :=
  fold_left
    (fun outs _ => outs ++ [TxOutput.mk NEGATIVE_SATOSHI Script.empty])
    (range txin_index) [] ++ [txout].

(** Lines 606-635: [SIGHASH_NONE] and [SIGHASH_SINGLE]. *)
Definition apply_sighash_type (ins : list TxInput.t) (outs : list TxOutput.t)
    (txin_index sighash : Z) : result (list TxInput.t * list TxOutput.t) :=
  if Z.land sighash 31 =? SIGHASH_NONE then
    Ok (zero_other_sequences ins txin_index, [])
  else if Z.land sighash 31 =? SIGHASH_SINGLE then
    if len outs <=? txin_index then Raise ValueError
    else
      let* txout := index outs txin_index in
      let outs := single_outputs txin_index txout in
      Ok (zero_other_sequences ins txin_index, outs)
  else Ok (ins, outs).

(** Lines 638-641: [SIGHASH_ANYONECANPAY]. *)
Definition apply_anyone_can_pay (ins : list TxInput.t)
    (txin_index sighash : Z) : result (list TxInput.t) :=
  if negb (Z.land sighash SIGHASH_ANYONECANPAY =? 0) then
    let* txin := index ins txin_index in Ok [txin]
  else Ok ins.

(** Lines 581-641: the temporary transaction that is serialised. *)
Definition digest_tmp_tx (self : t) (txin_index : Z) (script : Script.t)
    (sighash : Z) : result t :=
  let tmp_tx := copy self in
  let ins := map (TxInput.set_script_sig Script.empty) (inputs tmp_tx) in
  let* j := norm_index ins txin_index in
  let ins := alter (TxInput.set_script_sig script) j ins in
  let outs := outputs tmp_tx in
  let* io := apply_sighash_type ins outs txin_index sighash in
  let '(ins, outs) := io in
  let* ins := apply_anyone_can_pay ins txin_index sighash in
  Ok (mk ins outs (locktime tmp_tx) (version tmp_tx) (has_segwit tmp_tx)
        (witnesses tmp_tx)).

(** Lines 643-657. *)
Definition get_transaction_digest (self : t) (txin_index : Z)
    (script : Script.t) (sighash : Z) : result bytes :=
  let* tmp_tx := digest_tmp_tx self txin_index script sighash in
  let* tx_for_signing := to_bytes tmp_tx false in
  let* sighash_bytes := pack_i sighash in
  let tx_for_signing := tx_for_signing ++ sighash_bytes in
  let tx_digest := sha256d tx_for_signing in
  Ok tx_digest.

(** *** Segwit v0 digest (BIP-143), lines 660-764 *)

(** [reverse(unhexlify(txid)) + struct.pack('<L', txout_index)], lines
    706-707 and 742-743. *)
Definition segwit_outpoint (txin : TxInput.t) : result bytes :=
  let* txid_raw := unhexlify (TxInput.txid txin) in
  let* index_bytes := pack_L (TxInput.txout_index txin) in
  Ok (rev txid_raw ++ index_bytes).

(** Lines 692 and 702-708. *)
Definition segwit_hash_prevouts (tmp_tx : t) (anyone_can_pay : bool)
  : result bytes :=
  let hash_prevouts := repeat Byte.x00 32 in
  if negb anyone_can_pay then
    let hash_prevouts := [] in
    let* hash_prevouts :=
      for_each (inputs tmp_tx)
        (fun hash_prevouts txin =>
           let* o := segwit_outpoint txin in Ok (hash_prevouts ++ o))
        hash_prevouts in
    Ok (sha256d hash_prevouts)
  else Ok hash_prevouts.

(** Lines 693 and 711-715. *)
Definition segwit_hash_sequence (tmp_tx : t) (anyone_can_pay sign_all : bool)
  : result bytes :=
  let hash_sequence := repeat Byte.x00 32 in
  if negb anyone_can_pay && sign_all then
    let hash_sequence := [] in
    let* hash_sequence :=
      for_each (inputs tmp_tx)
        (fun hash_sequence txin =>
           Ok (hash_sequence ++ TxInput.sequence txin))
        hash_sequence in
    Ok (sha256d hash_sequence)
  else Ok hash_sequence.

(** [struct.pack('<q', amount) + struct.pack('B', len(script)) + script],
    lines 721-723 and 728-730. *)
Definition segwit_output (txout : TxOutput.t) : result bytes :=
  let* amount_bytes := pack_q (TxOutput.amount txout) in
  let script_bytes := Script.to_bytes (TxOutput.script_pubkey txout) in
  let* len_byte := pack_B (len script_bytes) in
  Ok (amount_bytes ++ len_byte ++ script_bytes).

(** Lines 694 and 717-731. *)
Definition segwit_hash_outputs (tmp_tx : t) (txin_index : Z)
    (basic_sig_hash_type : Z) (sign_all : bool) : result bytes :=
  let hash_outputs := repeat Byte.x00 32 in
  if sign_all then
    let hash_outputs := [] in
    let* hash_outputs :=
      for_each (outputs tmp_tx)
        (fun hash_outputs txout =>
           let* o := segwit_output txout in Ok (hash_outputs ++ o))
        hash_outputs in
    Ok (sha256d hash_outputs)
  else if (basic_sig_hash_type =? SIGHASH_SINGLE)
          && (txin_index <? len (outputs tmp_tx)) then
    let* txout := index (outputs tmp_tx) txin_index in
    let* hash_outputs := segwit_output txout in
    Ok (sha256d hash_outputs)
  else Ok hash_outputs.

(** Lines 691-762: the bytes [tx_for_signing] that are hashed, for the
    clone [tmp_tx] of [self]. *)
Definition segwit_preimage_on (tmp_tx self : t) (txin_index : Z)
    (script : Script.t) (amount : Z) (sighash : Z) : result bytes :=
  let basic_sig_hash_type := Z.land sighash 31 in
  let anyone_can_pay := Z.land sighash 240 =? SIGHASH_ANYONECANPAY in
  let sign_all :=
    negb (basic_sig_hash_type =? SIGHASH_SINGLE)
    && negb (basic_sig_hash_type =? SIGHASH_NONE) in
  let* hash_prevouts := segwit_hash_prevouts tmp_tx anyone_can_pay in
  let* hash_sequence := segwit_hash_sequence tmp_tx anyone_can_pay sign_all in
  let* hash_outputs :=
    segwit_hash_outputs tmp_tx txin_index basic_sig_hash_type sign_all in
  let tx_for_signing := version self in
  let tx_for_signing := tx_for_signing ++ (hash_prevouts ++ hash_sequence) in
  let* txin := index (inputs self) txin_index in
  let* outpoint := segwit_outpoint txin in
  let tx_for_signing := tx_for_signing ++ outpoint in
  let* script_len := pack_B (len (Script.to_bytes script)) in
  let tx_for_signing := tx_for_signing ++ script_len in
  let tx_for_signing := tx_for_signing ++ Script.to_bytes script in
  let* amount_bytes := pack_q amount in
  let tx_for_signing := tx_for_signing ++ amount_bytes in
  let tx_for_signing := tx_for_signing ++ TxInput.sequence txin in
  let tx_for_signing := tx_for_signing ++ hash_outputs in
  let tx_for_signing := tx_for_signing ++ locktime self in
  let* sighash_bytes := pack_i sighash in
  let tx_for_signing := tx_for_signing ++ sighash_bytes in
  Ok tx_for_signing.

(** Line 689 and the above: [tmp_tx = Transaction.copy(self)]. *)
Definition segwit_preimage (self : t) (txin_index : Z) (script : Script.t)
    (amount : Z) (sighash : Z) : result bytes :=
  let tmp_tx := copy self in
  segwit_preimage_on tmp_tx self txin_index script amount sighash.

(** Line 764. *)
Definition get_transaction_segwit_digest (self : t) (txin_index : Z)
    (script : Script.t) (amount : Z) (sighash : Z) : result bytes :=
  let* tx_for_signing := segwit_preimage self txin_index script amount sighash in
  Ok (sha256d tx_for_signing).

(** *** Taproot digest (BIP-341), lines 770-929 *)

(** [reverse(unhexlify(txid)) + struct.pack('<I', txout_index)], lines
    840-841 and 887-888. *)
Definition taproot_outpoint (txin : TxInput.t) : result bytes :=
  let* txid_raw := unhexlify (TxInput.txid txin) in
  let* index_bytes := pack_I (TxInput.txout_index txin) in
  Ok (rev txid_raw ++ index_bytes).

(** [bytes([script_len]) + unhexlify(s)] for [s = script.to_hex()], lines
    853-855 and 892-894. *)
Definition taproot_script_pubkey (s : Script.t) : result bytes :=
  let s := Script.to_hex s in
  let script_len := Z.of_nat (String.length s) / 2 in
  let* len_byte := bytes_of_int script_len in
  let* s_raw := unhexlify s in
  Ok (len_byte ++ s_raw).

(** [struct.pack('<Q', amount) + struct.pack('B', len(script)) + script],
    lines 869-873 and 908-911. *)
Definition taproot_output (txout : TxOutput.t) : result bytes :=
  let* amount_bytes := pack_Q (TxOutput.amount txout) in
  let script_bytes := Script.to_bytes (TxOutput.script_pubkey txout) in
  let* len_byte := pack_B (len script_bytes) in
  Ok (amount_bytes ++ len_byte ++ script_bytes).

(** Lines 836-863: the four hashes over all inputs, appended to
    [tx_for_signing]. *)
Definition taproot_tx_data (tmp_tx : t) (script_pubkeys : list Script.t)
    (amounts : list Z) (tx_for_signing : bytes) : result bytes :=
  let* hash_prevouts :=
    for_each (inputs tmp_tx)
      (fun hash_prevouts txin =>
         let* o := taproot_outpoint txin in Ok (hash_prevouts ++ o)) [] in
  let hash_prevouts := sha256 hash_prevouts in
  let tx_for_signing := tx_for_signing ++ hash_prevouts in
  let* hash_amounts :=
    for_each amounts
      (fun hash_amounts a =>
         let* b := int_to_bytes a 8 in Ok (hash_amounts ++ b)) [] in
  let hash_amounts := sha256 hash_amounts in
  let tx_for_signing := tx_for_signing ++ hash_amounts in
  let* hash_script_pubkeys :=
    for_each script_pubkeys
      (fun hash_script_pubkeys s =>
         let* b := taproot_script_pubkey s in Ok (hash_script_pubkeys ++ b))
      [] in
  let hash_script_pubkeys := sha256 hash_script_pubkeys in
  let tx_for_signing := tx_for_signing ++ hash_script_pubkeys in
  let* hash_sequences :=
    for_each (inputs tmp_tx)
      (fun hash_sequences txin =>
         Ok (hash_sequences ++ TxInput.sequence txin)) [] in
  let hash_sequences := sha256 hash_sequences in
  Ok (tx_for_signing ++ hash_sequences).

(** Lines 866-875. *)
Definition taproot_all_outputs (tmp_tx : t) (tx_for_signing : bytes)
  : result bytes :=
  let* hash_outputs :=
    for_each (outputs tmp_tx)
      (fun hash_outputs txout =>
         let* o := taproot_output txout in Ok (hash_outputs ++ o)) [] in
  let hash_outputs := sha256 hash_outputs in
  Ok (tx_for_signing ++ hash_outputs).

(** Lines 883-899: the data about this input. *)
Definition taproot_input_data (tmp_tx : t) (txin_index : Z)
    (script_pubkeys : list Script.t) (amounts : list Z)
    (anyone_can_pay : bool) (tx_for_signing : bytes) : result bytes :=
  if anyone_can_pay then
    let* txin := index (inputs tmp_tx) txin_index in
    let* o := taproot_outpoint txin in
    let tx_for_signing := tx_for_signing ++ o in
    let* a := index amounts txin_index in
    let* amount_bytes := int_to_bytes a 8 in
    let tx_for_signing := tx_for_signing ++ amount_bytes in
    let* script_pubkey := index script_pubkeys txin_index in
    let* spk := taproot_script_pubkey script_pubkey in
    let tx_for_signing := tx_for_signing ++ spk in
    Ok (tx_for_signing ++ TxInput.sequence txin)
  else
    let* index_bytes := int_to_bytes txin_index 4 in
    Ok (tx_for_signing ++ index_bytes).

(** Lines 905-912: the data about this output. *)
Definition taproot_single_output (tmp_tx : t) (txin_index : Z)
    (tx_for_signing : bytes) : result bytes :=
  let* txout := index (outputs tmp_tx) txin_index in
  let* hash_output := taproot_output txout in
  Ok (tx_for_signing ++ sha256 hash_output).

(** Lines 914-926: the script-path extension.  The parameter [leaf_ver] is
    rebound on line 917 before it is read. *)
Definition taproot_extension (script : Script.t) (leaf_ver : Z)
    (tx_for_signing : bytes) : result bytes :=
  let leaf_ver := LEAF_VERSION_TAPSCRIPT in
  let* ver_byte := bytes_of_int leaf_ver in
  let tx_for_signing :=
    tx_for_signing
    ++ tagged_hash (ver_byte ++ prepend_varint (Script.to_bytes script))
         "TapLeaf" in
  let* key_version := bytes_of_int 0 in
  let tx_for_signing := tx_for_signing ++ key_version in
  Ok (tx_for_signing ++ [Byte.xff; Byte.xff; Byte.xff; Byte.xff]).

(** Lines 809-899: epoch, hash type, version, locktime, the data about the
    transaction and the data about this input, for the clone [tmp_tx]. *)
Definition taproot_head_on (tmp_tx self : t) (txin_index : Z)
    (script_pubkeys : list Script.t) (amounts : list Z) (ext_flag : Z)
    (sighash : Z) : result bytes :=
  let sighash_none := Z.land sighash 3 =? SIGHASH_NONE in
  let sighash_single := Z.land sighash 3 =? SIGHASH_SINGLE in
  let anyone_can_pay := Z.land sighash 128 =? SIGHASH_ANYONECANPAY in
  let* tx_for_signing := bytes_of_int 0 in
  let* sighash_byte := bytes_of_int sighash in
  let tx_for_signing := tx_for_signing ++ sighash_byte in
  let tx_for_signing := tx_for_signing ++ version self in
  let tx_for_signing := tx_for_signing ++ locktime self in
  let* tx_for_signing :=
    if negb anyone_can_pay then
      taproot_tx_data tmp_tx script_pubkeys amounts tx_for_signing
    else Ok tx_for_signing in
  let* tx_for_signing :=
    if negb (sighash_none || sighash_single) then
      taproot_all_outputs tmp_tx tx_for_signing
    else Ok tx_for_signing in
  let spend_type := ext_flag * 2 + 0 in
  let* spend_byte := bytes_of_int spend_type in
  let tx_for_signing := tx_for_signing ++ spend_byte in
  taproot_input_data tmp_tx txin_index script_pubkeys amounts
    anyone_can_pay tx_for_signing.

(** Lines 809-926: the bytes [tx_for_signing] that are tag-hashed, for the
    clone [tmp_tx] of [self]. *)
Definition taproot_preimage_on (tmp_tx self : t) (txin_index : Z)
    (script_pubkeys : list Script.t) (amounts : list Z) (ext_flag : Z)
    (script : Script.t) (leaf_ver : Z) (sighash : Z) : result bytes :=
  let sighash_single := Z.land sighash 3 =? SIGHASH_SINGLE in
  let* tx_for_signing :=
    taproot_head_on tmp_tx self txin_index script_pubkeys amounts ext_flag
      sighash in
  let* tx_for_signing :=
    if sighash_single then
      taproot_single_output tmp_tx txin_index tx_for_signing
    else Ok tx_for_signing in
  let* tx_for_signing :=
    if ext_flag =? 1 then taproot_extension script leaf_ver tx_for_signing
    else Ok tx_for_signing in
  Ok tx_for_signing.

(** Line 807 and the above: [tmp_tx = Transaction.copy(self)]. *)
Definition taproot_head (self : t) (txin_index : Z)
    (script_pubkeys : list Script.t) (amounts : list Z) (ext_flag : Z)
    (sighash : Z) : result bytes :=
  taproot_head_on (copy self) self txin_index script_pubkeys amounts ext_flag
    sighash.

Definition taproot_preimage (self : t) (txin_index : Z)
    (script_pubkeys : list Script.t) (amounts : list Z) (ext_flag : Z)
    (script : Script.t) (leaf_ver : Z) (sighash : Z) : result bytes :=
  let tmp_tx := copy self in
  taproot_preimage_on tmp_tx self txin_index script_pubkeys amounts ext_flag
    script leaf_ver sighash.

(** Line 929. *)
Definition get_transaction_taproot_digest (self : t) (txin_index : Z)
    (script_pubkeys : list Script.t) (amounts : list Z) (ext_flag : Z)
    (script : Script.t) (leaf_ver : Z) (sighash : Z) : result bytes :=
  let* tx_for_signing :=
    taproot_preimage self txin_index script_pubkeys amounts ext_flag script
      leaf_ver sighash in
  Ok (tagged_hash tx_for_signing "TapSighash").

End Transaction.

(** ** The data-model invariants of the specification (section 3) *)

Module Wf.

(** A [txid] is hex text that decodes to exactly 32 bytes. *)
Definition txid_ok (s : string) : bool :=
  match unhexlify s with
  | Ok b => (length b =? 32)%nat
  | Raise _ => false
  end.

Definition u8 (z : Z) : bool := (0 <=? z) && (z <? 256).
Definition u32 (z : Z) : bool := (0 <=? z) && (z <? 4294967296).
Definition u64 (z : Z) : bool := (0 <=? z) && (z <? 18446744073709551616).
Definition i32 (z : Z) : bool := (-2147483648 <=? z) && (z <? 2147483648).
Definition i64 (z : Z) : bool :=
  (-9223372036854775808 <=? z) && (z <? 9223372036854775808).

(** A script whose length fits the one-byte prefix of the BIP-143 and
    BIP-341 preimages. *)
Definition short_script (s : Script.t) : bool :=
  len (Script.to_bytes s) <? 256.

(** [txid] of 32 bytes and [txout_index] an unsigned 32-bit integer. *)
Definition txin_ok (x : TxInput.t) : bool :=
  txid_ok (TxInput.txid x) && u32 (TxInput.txout_index x).

(** [amount] a signed 64-bit integer, for the legacy and segwit forms. *)
Definition txout_ok (x : TxOutput.t) : bool :=
  i64 (TxOutput.amount x) && short_script (TxOutput.script_pubkey x).

(** [amount] non-negative, as the taproot form packs it unsigned. *)
Definition txout_unsigned_ok (x : TxOutput.t) : bool :=
  u64 (TxOutput.amount x) && short_script (TxOutput.script_pubkey x).

(** The 32 bytes of a [txid] in wire order (reversed). *)
Definition txid_wire (x : TxInput.t) : bytes :=
  match unhexlify (TxInput.txid x) with
  | Ok b => rev b
  | Raise _ => []
  end.

(** An outpoint on the wire: reversed txid and [u32le] index. *)
Definition outpoint (x : TxInput.t) : bytes :=
  txid_wire x ++ le_bytes 4 (TxInput.txout_index x).

(** An output in the BIP-143 and BIP-341 hashes: amount in 8 little-endian
    bytes, one length byte, script. *)
Definition output (x : TxOutput.t) : bytes :=
  le_bytes 8 (TxOutput.amount x)
  ++ [byte_of_Z (len (Script.to_bytes (TxOutput.script_pubkey x)))]
  ++ Script.to_bytes (TxOutput.script_pubkey x).

End Wf.

(** ** The segwit v0 preimage as section 4.8 of the specification words it *)

Module Bip143.

Definition zeros32 : bytes := repeat Byte.x00 32.

Definition hashPrevouts (t : Transaction.t) (anyone : bool) : bytes :=
  if anyone then zeros32
  else sha256d (flat_map Wf.outpoint (Transaction.inputs t)).

Definition hashSequence (t : Transaction.t) (anyone sign_all : bool) : bytes :=
  if anyone || negb sign_all then zeros32
  else sha256d (flat_map TxInput.sequence (Transaction.inputs t)).

Definition hashOutputs (t : Transaction.t) (i basic : Z) (sign_all : bool)
  : bytes :=
  if sign_all then sha256d (flat_map Wf.output (Transaction.outputs t))
  else if (basic =? SIGHASH_SINGLE) && (i <? len (Transaction.outputs t)) then
    match Transaction.outputs t !! Z.to_nat i with
    | Some o => sha256d (Wf.output o)
    | None => zeros32
    end
  else zeros32.

Definition preimage (t : Transaction.t) (txin : TxInput.t) (i : Z)
    (s : Script.t) (a : Z) (sighash : Z) : bytes :=
  let basic := Z.land sighash 31 in
  let anyone := Z.land sighash 240 =? 128 in
  let sign_all :=
    negb (basic =? SIGHASH_SINGLE) && negb (basic =? SIGHASH_NONE) in
  Transaction.version t
  ++ hashPrevouts t anyone
  ++ hashSequence t anyone sign_all
  ++ Wf.outpoint txin
  ++ [byte_of_Z (len (Script.to_bytes s))]
  ++ Script.to_bytes s
  ++ le_bytes 8 a
  ++ TxInput.sequence txin
  ++ hashOutputs t i basic sign_all
  ++ Transaction.locktime t
  ++ le_bytes 4 sighash.

End Bip143.

(** ** The head of the taproot preimage as section 4.9 of the specification
    words it, without ANYONECANPAY *)

Module Bip341.

(** A previous output's script with its one-byte length. *)
Definition script_pubkey (s : Script.t) : bytes :=
  [byte_of_Z (len (Script.to_bytes s))] ++ Script.to_bytes s.

Definition sha_prevouts (t : Transaction.t) : bytes :=
  sha256 (flat_map Wf.outpoint (Transaction.inputs t)).

Definition sha_amounts (amounts : list Z) : bytes :=
  sha256 (flat_map (le_bytes 8) amounts).

Definition sha_scriptpubkeys (script_pubkeys : list Script.t) : bytes :=
  sha256 (flat_map script_pubkey script_pubkeys).

Definition sha_sequences (t : Transaction.t) : bytes :=
  sha256 (flat_map TxInput.sequence (Transaction.inputs t)).

Definition sha_outputs (t : Transaction.t) : bytes :=
  sha256 (flat_map Wf.output (Transaction.outputs t)).

(** Epoch, hash type, version, locktime, the four hashes over the inputs,
    the hash of all outputs unless [NONE] or [SINGLE], the spend type and
    the input index. *)
Definition head (t : Transaction.t) (i : Z) (script_pubkeys : list Script.t)
    (amounts : list Z) (ext_flag sighash : Z) : bytes :=
  let output_type := Z.land sighash 3 in
  [Byte.x00] ++ [byte_of_Z sighash]
  ++ Transaction.version t ++ Transaction.locktime t
  ++ sha_prevouts t ++ sha_amounts amounts
  ++ sha_scriptpubkeys script_pubkeys ++ sha_sequences t
  ++ (if (output_type =? SIGHASH_NONE) || (output_type =? SIGHASH_SINGLE)
      then [] else sha_outputs t)
  ++ [byte_of_Z (2 * ext_flag)]
  ++ le_bytes 4 i.

End Bip341.

(** ** Concrete transactions used to evaluate the model *)

Module Examples.

Definition unhex (s : string) : bytes :=
  match unhexlify s with Ok b => b | Raise _ => [] end.

(** A pay-to-pubkey-hash script. *)
Definition p2pkh (hash160 : string) : Script.t :=
  Script.mk (unhex ("76a914" ++ hash160 ++ "88ac")).

(** The unsigned transaction of the BIP-143 "native P2WPKH" example: version
    1, two inputs, two outputs, locktime 17. *)
Definition tx : Transaction.t :=
  Transaction.mk
    [TxInput.mk
       "9f96ade4b41d5433f4eda31e1738ec2b36f6e7d1420d94a6af99801a88f7f7ff"
       0 Script.empty (unhex "eeffffff");
     TxInput.mk
       "8ac60eb9575db5b2d987e29f301b5b819ea83a5c6579d282d189cc04b8e151ef"
       1 Script.empty (unhex "ffffffff")]
    [TxOutput.mk 112340000 (p2pkh "8280b37df378db99f66f85c95a783a76ac7a6d59");
     TxOutput.mk 223450000 (p2pkh "3bde42dbee7e4dbe6a21b2d50ce2f0167faa8159")]
    (unhex "11000000") (unhex "01000000") false [].

Definition script_code : Script.t :=
  p2pkh "1d0f172a0ecb48aeee3a1fdf0c3e1f2c6ba1ecfc".

(** The same transaction carrying witnesses. *)
Definition tx_with (wits : list TxWitnessInput.t) : Transaction.t :=
  Transaction.mk (Transaction.inputs tx) (Transaction.outputs tx)
    (Transaction.locktime tx) (Transaction.version tx) true wits.

(** A one-input, one-output segwit transaction whose witness stack holds
    [n] items, each the single byte [0x01]. *)
Definition tx_stack (n : nat) : Transaction.t :=
  Transaction.mk
    [TxInput.mk
       "9f96ade4b41d5433f4eda31e1738ec2b36f6e7d1420d94a6af99801a88f7f7ff"
       0 Script.empty DEFAULT_TX_SEQUENCE]
    [TxOutput.mk 50000 script_code]
    DEFAULT_TX_LOCKTIME DEFAULT_TX_VERSION true
    [TxWitnessInput.mk (repeat "01"%string n)].

(** Previous outputs for a taproot spend of [tx]: two 34-byte scripts. *)
Definition prevout_script : Script.t :=
  Script.mk
    (unhex "5120a60869f0dbcf1dc659c9cecbaf8050135ea9e8cdc487053f1dc6880949dc684c").

End Examples.

(** ** The object store: what the digests do to shared objects

    A [TxInput], [TxOutput], [TxWitnessInput] or [Transaction] is a Python
    object with identity, held by reference in lists and attributes, and an
    attribute assignment changes it for every holder of the reference.
    Integers, [bytes], [str] and [Script] values are never assigned to by
    the module and are kept as values inside the objects. *)

Module Heap.

Definition loc := positive.

(** The attributes of a [Transaction] object; the three lists are held by
    reference. *)
Record tx_obj : Type := TxObj
  { o_inputs : loc;
    o_outputs : loc;
    o_locktime : bytes;
    o_version : bytes;
    o_has_segwit : bool;
    o_witnesses : loc }.

Inductive obj : Type :=
| OTxInput (v : TxInput.t)
| OTxOutput (v : TxOutput.t)
| OTxWitnessInput (stack : loc)      (* [stack] refers to a list of [str] *)
| OStrList (items : list string)
| OList (items : list loc)           (* a list of object references *)
| OTransaction (o : tx_obj).

Abbreviation store := (gmap loc obj).

(** Computations that read and write the store and may raise. *)
Definition M (A : Type) : Type := store -> result A * store.

Definition ret {A} (a : A) : M A := fun st => (Ok a, st).

Definition raise {A} (e : exn) : M A := fun st => (Raise e, st).

Definition lift {A} (r : result A) : M A := fun st => (r, st).

Definition mbind {A B} (m : M A) (k : A -> M B) : M B :=
  fun st =>
    match m st with
    | (Ok a, st') => k a st'
    | (Raise e, st') => (Raise e, st')
    end.

(** A new object. *)
Definition alloc (o : obj) : M loc :=
  fun st => let l := fresh (dom st) in (Ok l, <[l := o]> st).

(** Overwrite the object at [l]. *)
Definition put (l : loc) (o : obj) : M unit :=
  fun st => (Ok tt, <[l := o]> st).

(** Reading an object as an instance of a class; an object of another
    class has none of the attributes that are read. *)
Definition get_txinput (l : loc) : M TxInput.t :=
  fun st => match st !! l with
            | Some (OTxInput v) => (Ok v, st)
            | _ => (Raise TypeError, st)
            end.

Definition get_txoutput (l : loc) : M TxOutput.t :=
  fun st => match st !! l with
            | Some (OTxOutput v) => (Ok v, st)
            | _ => (Raise TypeError, st)
            end.

Definition get_stack (l : loc) : M loc :=
  fun st => match st !! l with
            | Some (OTxWitnessInput s) => (Ok s, st)
            | _ => (Raise TypeError, st)
            end.

Definition get_strlist (l : loc) : M (list string) :=
  fun st => match st !! l with
            | Some (OStrList items) => (Ok items, st)
            | _ => (Raise TypeError, st)
            end.

Definition get_list (l : loc) : M (list loc) :=
  fun st => match st !! l with
            | Some (OList items) => (Ok items, st)
            | _ => (Raise TypeError, st)
            end.

Definition get_tx (l : loc) : M tx_obj :=
  fun st => match st !! l with
            | Some (OTransaction o) => (Ok o, st)
            | _ => (Raise TypeError, st)
            end.

End Heap.

Declare Scope heap_scope.
Notation "'let!' x ':=' m 'in' k" := (Heap.mbind m (fun x => k))
  (at level 10, x pattern, m at level 100, k at level 200) : heap_scope.
#[local] Open Scope heap_scope.

Module HeapTx.

Import Heap.

(** [for x in xs: body(x)]. *)
Fixpoint for_m {A} (xs : list A) (body : A -> M unit) : M unit :=
  match xs with
  | [] => ret tt
  | x :: xs' => let! _ := body x in for_m xs' body
  end.

(** [[f(x) for x in xs]]. *)
Fixpoint map_M {A B} (f : A -> M B) (xs : list A) : M (list B) :=
  match xs with
  | [] => ret []
  | x :: xs' =>
      let! y := f x in
      let! ys := map_M f xs' in
      ret (y :: ys)
  end.

(** [tx.inputs], [tx.outputs]. *)
Definition tx_inputs (tx : loc) : M loc :=
  let! o := get_tx tx in ret (o_inputs o).

Definition tx_outputs (tx : loc) : M loc :=
  let! o := get_tx tx in ret (o_outputs o).

(** [tx.inputs = l], [tx.outputs = l]. *)
Definition set_tx_inputs (tx l : loc) : M unit :=
  let! o := get_tx tx in
  put tx (OTransaction
            (TxObj l (o_outputs o) (o_locktime o) (o_version o)
               (o_has_segwit o) (o_witnesses o))).

Definition set_tx_outputs (tx l : loc) : M unit :=
  let! o := get_tx tx in
  put tx (OTransaction
            (TxObj (o_inputs o) l (o_locktime o) (o_version o)
               (o_has_segwit o) (o_witnesses o))).

(** [txin.script_sig = s], [txin.sequence = q]. *)
Definition set_script_sig (txin : loc) (s : Script.t) : M unit :=
  let! v := get_txinput txin in
  put txin (OTxInput (TxInput.set_script_sig s v)).

Definition set_sequence (txin : loc) (q : bytes) : M unit :=
  let! v := get_txinput txin in
  put txin (OTxInput (TxInput.set_sequence q v)).

(** [l[i]], [len(l)] and [l.append(x)] on a list object. *)
Definition list_index (l : loc) (i : Z) : M loc :=
  let! items := get_list l in lift (index items i).

Definition list_len (l : loc) : M Z :=
  let! items := get_list l in ret (len items).

Definition list_append (l x : loc) : M unit :=
  let! items := get_list l in put l (OList (items ++ [x])).

(** [TxInput.copy], lines 138-143: a new object with the same attributes. *)
Definition TxInput_copy (txin : loc) : M loc :=
  let! v := get_txinput txin in alloc (OTxInput (TxInput.copy v)).

(** [TxOutput.copy], lines 277-281. *)
Definition TxOutput_copy (txout : loc) : M loc :=
  let! v := get_txoutput txout in alloc (OTxOutput (TxOutput.copy v)).

(** [TxWitnessInput.copy], lines 178-182: a new object that holds the
    same [stack] list. *)
Definition TxWitnessInput_copy (txwin : loc) : M loc :=
  let! s := get_stack txwin in alloc (OTxWitnessInput s).

(** [Transaction.copy], lines 548-555: three new lists of copies and a
    new transaction object. *)
Definition Transaction_copy (tx : loc) : M loc :=
  let! o := get_tx tx in
  let! items := get_list (o_inputs o) in
  let! ins := map_M TxInput_copy items in
  let! ins := alloc (OList ins) in
  let! items := get_list (o_outputs o) in
  let! outs := map_M TxOutput_copy items in
  let! outs := alloc (OList outs) in
  let! items := get_list (o_witnesses o) in
  let! wits := map_M TxWitnessInput_copy items in
  let! wits := alloc (OList wits) in
  alloc (OTransaction
           (TxObj ins outs (o_locktime o) (o_version o) (o_has_segwit o)
              wits)).

(** The value of a witness object and of a transaction object: what the
    serialisers and the digests read from them. *)
Definition load_witness (txwin : loc) : M TxWitnessInput.t :=
  let! s := get_stack txwin in
  let! items := get_strlist s in
  ret (TxWitnessInput.mk items).

Definition load_tx (tx : loc) : M Transaction.t :=
  let! o := get_tx tx in
  let! items := get_list (o_inputs o) in
  let! ins := map_M get_txinput items in
  let! items := get_list (o_outputs o) in
  let! outs := map_M get_txoutput items in
  let! items := get_list (o_witnesses o) in
  let! wits := map_M load_witness items in
  ret (Transaction.mk ins outs (o_locktime o) (o_version o) (o_has_segwit o)
         wits).

(** What [to_bytes(False)] and the segwit and taproot digests read of a
    transaction object: every attribute but [witnesses]. *)
Definition load_body (tx : loc) : M Transaction.t :=
  let! o := get_tx tx in
  let! items := get_list (o_inputs o) in
  let! ins := map_M get_txinput items in
  let! items := get_list (o_outputs o) in
  let! outs := map_M get_txoutput items in
  ret (Transaction.mk ins outs (o_locktime o) (o_version o) (o_has_segwit o)
         []).

(** Lines 612-614 and 633-635. *)
Definition zero_other_sequences (tmp_tx : loc) (txin_index : Z) : M unit :=
  let! ins := tx_inputs tmp_tx in
  let! n := list_len ins in
  for_m (range n)
    (fun i =>
       if i =? txin_index then ret tt
       else
         let! ins := tx_inputs tmp_tx in
         let! txin := list_index ins i in
         set_sequence txin EMPTY_TX_SEQUENCE).

(** Lines 585-586: [for txin in tmp_tx.inputs: txin.script_sig = Script([])]. *)
Definition clear_script_sigs (tmp_tx : loc) : M unit :=
  let! ins := tx_inputs tmp_tx in
  let! items := get_list ins in
  for_m items (fun txin => set_script_sig txin Script.empty).

(** Line 599: [tmp_tx.inputs[txin_index].script_sig = script]. *)
Definition set_signed_script (tmp_tx : loc) (txin_index : Z)
    (script : Script.t) : M unit :=
  let! ins := tx_inputs tmp_tx in
  let! txin := list_index ins txin_index in
  set_script_sig txin script.

(** Lines 627-629: the placeholders and the signed output, appended to
    the new list of outputs. *)
Definition append_single_outputs (tmp_tx : loc) (txin_index : Z)
    (txout : loc) : M unit :=
  let! _ :=
    for_m (range txin_index)
      (fun _ =>
         let! outs := tx_outputs tmp_tx in
         let! placeholder :=
           alloc (OTxOutput (TxOutput.mk NEGATIVE_SATOSHI Script.empty)) in
         list_append outs placeholder) in
  let! outs := tx_outputs tmp_tx in
  list_append outs txout.

(** Lines 606-635: [SIGHASH_NONE] and [SIGHASH_SINGLE]. *)
Definition apply_sighash_type (tmp_tx : loc) (txin_index sighash : Z)
  : M unit :=
  if Z.land sighash 31 =? SIGHASH_NONE then
    let! new := alloc (OList []) in
    let! _ := set_tx_outputs tmp_tx new in
    zero_other_sequences tmp_tx txin_index
  else if Z.land sighash 31 =? SIGHASH_SINGLE then
    let! outs := tx_outputs tmp_tx in
    let! n := list_len outs in
    if n <=? txin_index then raise ValueError
    else
      let! outs := tx_outputs tmp_tx in
      let! txout := list_index outs txin_index in
      let! new := alloc (OList []) in
      let! _ := set_tx_outputs tmp_tx new in
      let! _ := append_single_outputs tmp_tx txin_index txout in
      zero_other_sequences tmp_tx txin_index
  else ret tt.

(** Lines 638-641: [tmp_tx.inputs = [tmp_tx.inputs[txin_index]]]. *)
Definition apply_anyone_can_pay (tmp_tx : loc) (txin_index sighash : Z)
  : M unit :=
  if negb (Z.land sighash SIGHASH_ANYONECANPAY =? 0) then
    let! ins := tx_inputs tmp_tx in
    let! txin := list_index ins txin_index in
    let! new := alloc (OList [txin]) in
    set_tx_inputs tmp_tx new
  else ret tt.

(** [get_transaction_digest], lines 558-657, statement by statement. *)
Definition get_transaction_digest (self : loc) (txin_index : Z)
    (script : Script.t) (sighash : Z) : M bytes :=
  let! tmp_tx := Transaction_copy self in
  let! _ := clear_script_sigs tmp_tx in
  let! _ := set_signed_script tmp_tx txin_index script in
  let! _ := apply_sighash_type tmp_tx txin_index sighash in
  let! _ := apply_anyone_can_pay tmp_tx txin_index sighash in
  let! tmp := load_body tmp_tx in
  let! tx_for_signing := lift (Transaction.to_bytes tmp false) in
  let! sighash_bytes := lift (pack_i sighash) in
  let tx_for_signing := tx_for_signing ++ sighash_bytes in
  ret (sha256d tx_for_signing).

(** [get_transaction_segwit_digest], lines 660-764: the clone, then reads
    of the clone and of [self] only. *)
Definition get_transaction_segwit_digest (self : loc) (txin_index : Z)
    (script : Script.t) (amount : Z) (sighash : Z) : M bytes :=
  let! tmp_tx := Transaction_copy self in
  let! tmp := load_body tmp_tx in
  let! this := load_body self in
  let! tx_for_signing :=
    lift (Transaction.segwit_preimage_on tmp this txin_index script amount
            sighash) in
  ret (sha256d tx_for_signing).

(** [get_transaction_taproot_digest], lines 770-929: likewise. *)
Definition get_transaction_taproot_digest (self : loc) (txin_index : Z)
    (script_pubkeys : list Script.t) (amounts : list Z) (ext_flag : Z)
    (script : Script.t) (leaf_ver : Z) (sighash : Z) : M bytes :=
  let! tmp_tx := Transaction_copy self in
  let! tmp := load_body tmp_tx in
  let! this := load_body self in
  let! tx_for_signing :=
    lift (Transaction.taproot_preimage_on tmp this txin_index script_pubkeys
            amounts ext_flag script leaf_ver sighash) in
  ret (tagged_hash tx_for_signing "TapSighash").

(** A transaction value placed in a store as fresh objects: the way a
    caller builds one. *)
Definition new_witness (w : TxWitnessInput.t) : M loc :=
  let! s := alloc (OStrList (TxWitnessInput.stack w)) in
  alloc (OTxWitnessInput s).

Definition new_tx (t : Transaction.t) : M loc :=
  let! ins := map_M (fun v => alloc (OTxInput v)) (Transaction.inputs t) in
  let! ins := alloc (OList ins) in
  let! outs := map_M (fun v => alloc (OTxOutput v)) (Transaction.outputs t) in
  let! outs := alloc (OList outs) in
  let! wits := map_M new_witness (Transaction.witnesses t) in
  let! wits := alloc (OList wits) in
  alloc (OTransaction
           (TxObj ins outs (Transaction.locktime t) (Transaction.version t)
              (Transaction.has_segwit t) wits)).

End HeapTx.

(** ** The frame of a call: what is left as it was *)

Module Frame.

Import Heap.

(** A location that did not exist in the store [st0] of the call. *)
Definition fresh_loc (st0 : store) (l : loc) : Prop := st0 !! l = None.

(** The references through which the digests write lead from new objects
    to new objects only. *)
Definition obj_fresh (st0 : store) (o : obj) : Prop :=
  match o with
  | OList items => Forall (fresh_loc st0) items
  | OTransaction o => fresh_loc st0 (o_inputs o) /\ fresh_loc st0 (o_outputs o)
  | _ => True
  end.

(** Every object of the initial store is as it was, and new objects refer
    to new objects. *)
Definition inv (st0 st : store) : Prop :=
  st0 ⊆ st
  /\ forall l o, fresh_loc st0 l -> st !! l = Some o -> obj_fresh st0 o.

(** [m] keeps the invariant, returning or raising, and its result
    satisfies [P]. *)
Definition spec (st0 : store) {A} (m : M A) (P : A -> Prop) : Prop :=
  forall st, inv st0 st ->
    match m st with
    | (Ok a, st') => inv st0 st' /\ P a
    | (Raise _, st') => inv st0 st'
    end.

(** [m] writes nothing, and what it returns does not change when objects
    are added to the store. *)
Definition reads {A} (m : M A) : Prop :=
  forall st,
    snd (m st) = st
    /\ forall st' a, st ⊆ st' -> fst (m st) = Ok a -> fst (m st') = Ok a.

(** The outcome [out] of a call made in store [st] left every object of
    [st] as it was, and with them the value of the transaction [self]. *)
Definition unchanged (st : store) (self : loc) {A} (out : result A * store)
  : Prop :=
  (forall l o, st !! l = Some o -> snd out !! l = Some o)
  /\ forall v, fst (HeapTx.load_tx self st) = Ok v ->
               fst (HeapTx.load_tx self (snd out)) = Ok v.

End Frame.

(** ** Transaction objects and their values *)

Module Clone.

Import Heap.

(** The list objects of a transaction object and their items. *)
Record shape : Type := Shape
  { li : loc; lo : loc; ils : list loc; ols : list loc }.

(** The transaction object [tx] holds the list objects [li] and [lo],
    distinct, whose items are input objects of values [inputs v] and output
    objects of values [outputs v]; [locktime], [version] and [has_segwit]
    are those of [v].  (The witnesses of [v] are left open.) *)
Definition holds (st : store) (tx : loc) (sh : shape) (v : Transaction.t)
  : Prop :=
  (exists lw,
      st !! tx
      = Some (OTransaction
                (TxObj (li sh) (lo sh) (Transaction.locktime v)
                   (Transaction.version v) (Transaction.has_segwit v) lw)))
  /\ st !! li sh = Some (OList (ils sh))
  /\ st !! lo sh = Some (OList (ols sh))
  /\ li sh <> lo sh
  /\ Forall2 (fun l x => st !! l = Some (OTxInput x)) (ils sh)
       (Transaction.inputs v)
  /\ Forall2 (fun l y => st !! l = Some (OTxOutput y)) (ols sh)
       (Transaction.outputs v).

(** A transaction object none of whose input objects is shared between two
    positions: what [Transaction.copy] returns. *)
Definition unshared (st : store) (tx : loc) (sh : shape) (v : Transaction.t)
  : Prop :=
  holds st tx sh v /\ NoDup (ils sh).

(** [v] with another list of inputs, of outputs. *)
Definition with_inputs (xs : list TxInput.t) (v : Transaction.t)
  : Transaction.t :=
  Transaction.mk xs (Transaction.outputs v) (Transaction.locktime v)
    (Transaction.version v) (Transaction.has_segwit v)
    (Transaction.witnesses v).

Definition with_outputs (ys : list TxOutput.t) (v : Transaction.t)
  : Transaction.t :=
  Transaction.mk (Transaction.inputs v) ys (Transaction.locktime v)
    (Transaction.version v) (Transaction.has_segwit v)
    (Transaction.witnesses v).

(** Every output object of [st] is in [st'] with the same value. *)
Definition kept (st st' : store) : Prop :=
  forall l y, st !! l = Some (OTxOutput y) -> st' !! l = Some (OTxOutput y).

(** [v] as [load_body] reads it. *)
Definition body (v : Transaction.t) : Transaction.t :=
  Transaction.mk (Transaction.inputs v) (Transaction.outputs v)
    (Transaction.locktime v) (Transaction.version v)
    (Transaction.has_segwit v) [].

End Clone.

(** The example transaction as objects of an empty store. *)
Module StoreExamples.

Definition built : result Heap.loc * Heap.store :=
  HeapTx.new_tx Examples.tx ∅.

Definition store : Heap.store := snd built.

Definition self : Heap.loc :=
  match fst built with
  | Ok l => l
  | Raise _ => 1%positive
  end.

End StoreExamples.

(** ** The wire form, field by field, and the transactions that
    [from_raw] reads back *)

Module Wire.

(** One entry of the witness section: the count of the stack items (line
    957) and the items (line 959). *)
Definition witness_entry (w : TxWitnessInput.t) : result bytes :=
  let* n := chr_encode (len (TxWitnessInput.stack w)) in
  let* b := TxWitnessInput.to_bytes w in
  Ok (n ++ b).

(** The witness section of [to_bytes], which [get_vsize] builds again. *)
Definition witness_section (wits : list TxWitnessInput.t) : result bytes :=
  let* bs := map_m witness_entry wits in Ok (concat bs).

(** An input and an output on the wire. *)
Definition txin (x : TxInput.t) : bytes :=
  Wf.txid_wire x ++ le_bytes 4 (TxInput.txout_index x)
  ++ encode_varint (len (Script.to_bytes (TxInput.script_sig x)))
  ++ Script.to_bytes (TxInput.script_sig x) ++ TxInput.sequence x.

Definition txout (y : TxOutput.t) : bytes :=
  le_bytes 8 (TxOutput.amount y)
  ++ encode_varint (len (Script.to_bytes (TxOutput.script_pubkey y)))
  ++ Script.to_bytes (TxOutput.script_pubkey y).

(** A witness item with its length, and a witness with its count of
    items in one byte. *)
Definition item (s : string) : bytes :=
  match unhexlify s with
  | Ok b => prepend_varint b
  | Raise _ => []
  end.

Definition witness (w : TxWitnessInput.t) : bytes :=
  [byte_of_Z (len (TxWitnessInput.stack w))]
  ++ flat_map item (TxWitnessInput.stack w).

(** Hex text as [bytes.hex()] writes it: lower case. *)
Definition canonical_hex (s : string) : bool :=
  match unhexlify s with
  | Ok b => String.eqb (hex b) s
  | Raise _ => false
  end.

(** An input that [to_bytes] writes in the layout [from_raw] reads: a
    txid of 32 bytes, an index of 32 bits, a sequence of 4 bytes. *)
Definition txin_ok (x : TxInput.t) : bool :=
  Wf.txin_ok x
  && (length (TxInput.sequence x) =? 4)%nat
  && Wf.u64 (len (Script.to_bytes (TxInput.script_sig x))).

(** An output that [to_bytes] writes: an amount of 64 bits, signed. *)
Definition txout_ok (y : TxOutput.t) : bool :=
  Wf.i64 (TxOutput.amount y)
  && Wf.u64 (len (Script.to_bytes (TxOutput.script_pubkey y))).

(** A witness item that [to_bytes] writes: hex text. *)
Definition item_ok (item : string) : bool :=
  match unhexlify item with
  | Ok b => Wf.u64 (len b)
  | Raise _ => false
  end.

(** A witness whose count of items is written in one byte: fewer than
    128 items. *)
Definition witness_ok (w : TxWitnessInput.t) : bool :=
  (len (TxWitnessInput.stack w) <? 128)
  && forallb item_ok (TxWitnessInput.stack w).

(** A transaction that [to_bytes(has_segwit)] writes in the layout
    [from_raw] reads: a version of 4 bytes, at least one input and, in
    the segwit form, one witness for each input. *)
Definition tx_ok (t : Transaction.t) (has_segwit : bool) : bool :=
  (length (Transaction.version t) =? 4)%nat
  && (1 <=? len (Transaction.inputs t))
  && Wf.u64 (len (Transaction.inputs t))
  && Wf.u64 (len (Transaction.outputs t))
  && forallb txin_ok (Transaction.inputs t)
  && forallb txout_ok (Transaction.outputs t)
  && (if has_segwit then
        (length (Transaction.witnesses t)
         =? length (Transaction.inputs t))%nat
        && forallb witness_ok (Transaction.witnesses t)
      else true).

(** What is read back of an input, an output and a witness item: the
    txid in lower case, the amount as an unsigned integer, the item in
    lower case and [00] for an empty item (line 519). *)
Definition read_txin (x : TxInput.t) : TxInput.t :=
  TxInput.mk (hex (rev (Wf.txid_wire x))) (TxInput.txout_index x)
    (TxInput.script_sig x) (TxInput.sequence x).

Definition read_txout (y : TxOutput.t) : TxOutput.t :=
  TxOutput.mk (TxOutput.amount y mod 18446744073709551616)
    (TxOutput.script_pubkey y).

Definition read_item (item : string) : string :=
  match unhexlify item with
  | Ok [] => "00"
  | Ok b => hex b
  | Raise _ => item
  end.

Definition read_witness (w : TxWitnessInput.t) : TxWitnessInput.t :=
  TxWitnessInput.mk (map read_item (TxWitnessInput.stack w)).

(** What [from_raw] returns for the bytes of [t]: [version] and [locktime]
    are the defaults of the constructor. *)
Definition parsed (t : Transaction.t) (has_segwit : bool) : Transaction.t :=
  Transaction.init (map read_txin (Transaction.inputs t))
    (map read_txout (Transaction.outputs t)) has_segwit
    (if has_segwit then map read_witness (Transaction.witnesses t) else []).

(** A transaction that is read back as it is: lower-case txids, amounts
    that are not negative, witness items in lower case and not empty. *)
Definition canonical_item (item : string) : bool :=
  canonical_hex item && negb (String.eqb item "").

Definition canonical (t : Transaction.t) (has_segwit : bool) : bool :=
  forallb (fun x => canonical_hex (TxInput.txid x)) (Transaction.inputs t)
  && forallb (fun y => 0 <=? TxOutput.amount y) (Transaction.outputs t)
  && (if has_segwit then
        forallb (fun w => forallb canonical_item (TxWitnessInput.stack w))
          (Transaction.witnesses t)
      else true).

(** [t] without what a signature adds: every [script_sig] empty, no
    witness. *)
Definition unsigned (t : Transaction.t) : Transaction.t :=
  Transaction.mk
    (map (TxInput.set_script_sig Script.empty) (Transaction.inputs t))
    (Transaction.outputs t) (Transaction.locktime t) (Transaction.version t)
    false [].

End Wire.

(** Closed arithmetic and boolean side conditions, by evaluation. *)
Ltac by_evaluation :=
  vm_compute; first [reflexivity | repeat split; congruence].

(** * Properties *)

(** ** Python primitives *)

Section PyLemmas.

Context {A B S : Type}.

Lemma bind_ok (m : result A) (k : A -> result B) (b : B) :
  Py.bind m k = Ok b -> exists a, m = Ok a /\ k a = Ok b.
Proof. destruct m as [a|e]; simpl; [eauto | discriminate]. Qed.

Lemma len_nonneg (l : list A) : 0 <= len l.
Proof. unfold len. lia. Qed.

Lemma len_app (l1 l2 : list A) : len (l1 ++ l2) = len l1 + len l2.
Proof. unfold len. rewrite length_app. lia. Qed.

Lemma norm_index_ok (l : list A) (i : Z) :
  0 <= i < len l -> norm_index l i = Ok (Z.to_nat i).
Proof.
  intros Hi. unfold norm_index.
  destruct (i <? 0) eqn:E1; [lia|].
  destruct (i <? 0) eqn:E2; [lia|].
  destruct (len l <=? i) eqn:E3; [lia|]. reflexivity.
Qed.

Lemma norm_index_oob (l : list A) (i : Z) :
  len l <= i -> norm_index l i = Raise IndexError.
Proof.
  intros Hi. pose proof (len_nonneg l). unfold norm_index.
  destruct (i <? 0) eqn:E1; [lia|].
  destruct (i <? 0) eqn:E2; [lia|].
  destruct (len l <=? i) eqn:E3; [reflexivity | lia].
Qed.

Lemma index_ok (l : list A) (i : Z) (x : A) :
  0 <= i -> l !! Z.to_nat i = Some x -> index l i = Ok x.
Proof.
  intros Hi Hx. unfold index.
  rewrite norm_index_ok; [simpl; now rewrite Hx|].
  apply lookup_lt_Some in Hx. unfold len. lia.
Qed.


Lemma index_in_range (l : list A) (i : Z) :
  0 <= i < len l -> exists x, l !! Z.to_nat i = Some x /\ index l i = Ok x.
Proof.
  intros Hi. destruct (lookup_lt_is_Some_2 l (Z.to_nat i)) as [x Hx].
  - unfold len in Hi. lia.
  - exists x. split; [exact Hx | apply index_ok; [lia | exact Hx]].
Qed.

Lemma index_oob (l : list A) (i : Z) :
  len l <= i -> index l i = Raise IndexError.
Proof. intros Hi. unfold index. now rewrite norm_index_oob. Qed.

(** A loop that only appends is the concatenation of what it appends. *)
Lemma for_each_append (f : A -> result bytes) (xs : list A) (acc : bytes) :
  for_each xs (fun acc x => let* b := f x in Ok (acc ++ b)) acc
  = let* bs := map_m f xs in Ok (acc ++ concat bs).
Proof.
  revert acc. induction xs as [|x xs IH]; intros acc; simpl.
  - now rewrite app_nil_r.
  - destruct (f x) as [b|e]; simpl; [|reflexivity].
    rewrite IH. destruct (map_m f xs) as [bs|e]; simpl; [|reflexivity].
    now rewrite app_assoc.
Qed.

Lemma for_each_append_total (f : A -> bytes) (xs : list A) (acc : bytes) :
  for_each xs (fun acc x => Ok (acc ++ f x)) acc
  = Ok (acc ++ flat_map f xs).
Proof.
  revert acc. induction xs as [|x xs IH]; intros acc; simpl.
  - now rewrite app_nil_r.
  - rewrite IH. now rewrite app_assoc.
Qed.

Lemma map_m_ok (f : A -> result B) (g : A -> B) (xs : list A) :
  Forall (fun x => f x = Ok (g x)) xs -> map_m f xs = Ok (map g xs).
Proof.
  induction 1 as [|x xs Hx _ IH]; simpl; [reflexivity|].
  now rewrite Hx, IH.
Qed.

End PyLemmas.

Lemma le_bytes_length (n : nat) (z : Z) : length (le_bytes n z) = n.
Proof. revert z. induction n as [|n IH]; intros z; simpl; [|rewrite IH]; reflexivity. Qed.

Lemma pack_unsigned_ok (n : nat) (x : Z) :
  0 <= x < 256 ^ Z.of_nat n -> pack_unsigned n x = Ok (le_bytes n x).
Proof.
  intros Hx. unfold pack_unsigned.
  destruct (0 <=? x) eqn:E1; [|lia].
  destruct (x <? 256 ^ Z.of_nat n) eqn:E2; [reflexivity | lia].
Qed.

Lemma pack_unsigned_inv (n : nat) (x : Z) (b : bytes) :
  pack_unsigned n x = Ok b -> b = le_bytes n x /\ 0 <= x < 256 ^ Z.of_nat n.
Proof.
  unfold pack_unsigned.
  destruct (0 <=? x) eqn:E1; simpl; [|discriminate].
  destruct (x <? 256 ^ Z.of_nat n) eqn:E2; [|discriminate].
  intros [= <-]. split; [reflexivity | lia].
Qed.

Lemma pack_signed_ok (n : nat) (x : Z) :
  - (256 ^ Z.of_nat n / 2) <= x < 256 ^ Z.of_nat n / 2 ->
  pack_signed n x = Ok (le_bytes n x).
Proof.
  intros Hx. unfold pack_signed.
  destruct (- (256 ^ Z.of_nat n / 2) <=? x) eqn:E1; [|lia].
  destruct (x <? 256 ^ Z.of_nat n / 2) eqn:E2; [reflexivity | lia].
Qed.

Lemma int_to_bytes_ok (n : nat) (x : Z) :
  0 <= x < 256 ^ Z.of_nat n -> int_to_bytes x n = Ok (le_bytes n x).
Proof.
  intros Hx. unfold int_to_bytes.
  destruct (0 <=? x) eqn:E1; [|lia].
  destruct (x <? 256 ^ Z.of_nat n) eqn:E2; [reflexivity | lia].
Qed.

Lemma bytes_of_int_ok (x : Z) :
  0 <= x < 256 -> bytes_of_int x = Ok [byte_of_Z x].
Proof.
  intros Hx. unfold bytes_of_int.
  destruct (0 <=? x) eqn:E1; [|lia].
  destruct (x <? 256) eqn:E2; [reflexivity | lia].
Qed.

(** The digest of [hashlib.sha256] is 32 bytes long. *)
Lemma rounds_length (ks w st : list Z) :
  ks <> [] \/ length st = 8%nat -> length (SHA256.rounds ks w st) = 8%nat.
Proof.
  revert w st. induction ks as [|k ks IH]; intros w st H; simpl.
  - destruct H as [H|H]; [congruence | exact H].
  - apply IH. right. reflexivity.
Qed.

Lemma compress_length (h block : list Z) :
  length h = 8%nat -> length (SHA256.compress h block) = 8%nat.
Proof.
  intros Hh. unfold SHA256.compress.
  rewrite length_map, length_combine, Hh, rounds_length; [reflexivity|].
  left. discriminate.
Qed.

Lemma blocks_length (fuel : nat) (h ws : list Z) :
  length h = 8%nat -> length (SHA256.blocks fuel h ws) = 8%nat.
Proof.
  revert h ws. induction fuel as [|fuel IH]; intros h ws Hh.
  - destruct ws; exact Hh.
  - destruct ws as [|x ws]; [exact Hh|].
    cbn [SHA256.blocks]. apply IH. now apply compress_length.
Qed.

Lemma sha256_length (msg : bytes) : length (sha256 msg) = 32%nat.
Proof.
  unfold sha256, SHA256.sha256.
  pose proof (blocks_length
                (length (SHA256.words (length (SHA256.pad msg)) (SHA256.pad msg)))
                SHA256.H0
                (SHA256.words (length (SHA256.pad msg)) (SHA256.pad msg))
                eq_refl) as H.
  destruct (SHA256.blocks _ _ _) as [|a [|b [|c [|d [|e [|f [|g [|h [|]]]]]]]]];
    try discriminate H.
  reflexivity.
Qed.

Lemma sha256d_length (msg : bytes) : length (sha256d msg) = 32%nat.
Proof. apply sha256_length. Qed.

(** [unhexlify] inverts [hex], and [hex] doubles the length. *)
Lemma Z_of_byte_range (b : Byte.byte) : 0 <= Z_of_byte b < 256.
Proof. destruct b; vm_compute; split; congruence. Qed.

Lemma byte_of_Z_of_byte (b : Byte.byte) : byte_of_Z (Z_of_byte b) = b.
Proof. destruct b; reflexivity. Qed.

Lemma hex_digit_value (v : Z) :
  0 <= v < 16 -> hex_value (hex_digit v) = Some v.
Proof.
  intros Hv.
  assert (v = 0 \/ v = 1 \/ v = 2 \/ v = 3 \/ v = 4 \/ v = 5 \/ v = 6 \/ v = 7
          \/ v = 8 \/ v = 9 \/ v = 10 \/ v = 11 \/ v = 12 \/ v = 13 \/ v = 14
          \/ v = 15) as H by lia.
  repeat (destruct H as [->|H]; [reflexivity|]). subst v. reflexivity.
Qed.

Lemma unhexlify_hex (b : bytes) : unhexlify (hex b) = Ok b.
Proof.
  induction b as [|x b IH]; [reflexivity|].
  cbn [hex unhexlify].
  pose proof (Z_of_byte_range x) as Hx.
  rewrite !hex_digit_value.
  - rewrite IH. cbn [Py.bind]. f_equal. f_equal.
    rewrite <- (byte_of_Z_of_byte x) at 3. f_equal.
    pose proof (Z.div_mod (Z_of_byte x) 16). lia.
  - apply Z.mod_pos_bound. lia.
  - split; [apply Z.div_pos; lia | apply Z.div_lt_upper_bound; lia].
Qed.

Lemma hex_length (b : bytes) : String.length (hex b) = (2 * length b)%nat.
Proof. induction b as [|x b IH]; simpl; [reflexivity | rewrite IH; lia]. Qed.

(** ** Copies are equal to their originals (as values) *)

Lemma TxInput_copy_id (x : TxInput.t) : TxInput.copy x = x.
Proof. now destruct x. Qed.

Lemma TxOutput_copy_id (x : TxOutput.t) : TxOutput.copy x = x.
Proof. now destruct x. Qed.

Lemma TxWitnessInput_copy_id (x : TxWitnessInput.t) : TxWitnessInput.copy x = x.
Proof. now destruct x. Qed.

Lemma map_id_ext {A} (f : A -> A) (l : list A) :
  (forall x, f x = x) -> map f l = l.
Proof. intros H. induction l as [|x l IH]; simpl; [|rewrite H, IH]; reflexivity. Qed.

Lemma Transaction_copy_id (tx : Transaction.t) : Transaction.copy tx = tx.
Proof.
  destruct tx. unfold Transaction.copy. simpl.
  rewrite (map_id_ext _ _ TxInput_copy_id), (map_id_ext _ _ TxOutput_copy_id),
    (map_id_ext _ _ TxWitnessInput_copy_id).
  reflexivity.
Qed.

(** ** The legacy digest *)

Import Transaction.




Lemma zero_fold_lookup (i : Z) (n : nat) (ins : list TxInput.t) (k : nat) :
  fold_left
    (fun ins j =>
       if j =? i then ins
       else alter (TxInput.set_sequence EMPTY_TX_SEQUENCE) (Z.to_nat j) ins)
    (map Z.of_nat (seq 0 n)) ins !! k
  = if decide ((k < n)%nat /\ Z.of_nat k <> i)
    then TxInput.set_sequence EMPTY_TX_SEQUENCE <$> ins !! k
    else ins !! k.
Proof.
  induction n as [|n IH].
  - cbn [seq map fold_left]. case_decide as H; [lia | reflexivity].
  - rewrite seq_S, map_app, fold_left_app. cbn [map fold_left Nat.add].
    destruct (Z.of_nat n =? i) eqn:E.
    + rewrite IH. apply Z.eqb_eq in E.
      repeat case_decide; try reflexivity; lia.
    + apply Z.eqb_neq in E. rewrite Nat2Z.id.
      destruct (decide (n = k)) as [->|Hne].
      * rewrite list_lookup_alter, IH.
        repeat case_decide; try reflexivity; lia.
      * rewrite list_lookup_alter_ne by exact Hne. rewrite IH.
        repeat case_decide; try reflexivity; lia.
Qed.

Lemma zero_other_sequences_lookup (ins : list TxInput.t) (i : Z) (k : nat) :
  zero_other_sequences ins i !! k
  = if decide (Z.of_nat k = i) then ins !! k
    else TxInput.set_sequence EMPTY_TX_SEQUENCE <$> ins !! k.
Proof.
  unfold zero_other_sequences, range, len. rewrite Nat2Z.id, zero_fold_lookup.
  repeat case_decide; try reflexivity; try lia.
  destruct (ins !! k) eqn:E; [|reflexivity].
  apply lookup_lt_Some in E. lia.
Qed.


Lemma lookup_map {A B} (f : A -> B) (l : list A) (k : nat) :
  map f l !! k = f <$> l !! k.
Proof.
  revert k. induction l as [|x l IH]; intros [|k]; simpl; try reflexivity.
  apply IH.
Qed.


(** ** Identifiers *)

(** The serialisation without witnesses reads no witness at all. *)
Lemma to_bytes_false_witnesses (t t' : Transaction.t) :
  version t = version t' -> inputs t = inputs t' -> outputs t = outputs t' ->
  locktime t = locktime t' ->
  to_bytes t false = to_bytes t' false.
Proof.
  intros Hv Hi Ho Hl. unfold to_bytes. now rewrite Hv, Hi, Ho, Hl.
Qed.

(** C8: the txid does not depend on the witnesses: two transactions with the
    same version, inputs, outputs, locktime and [has_segwit] flag have the
    same [get_txid], whatever their witness stacks. *)
Theorem txid_independent_of_witnesses (t t' : Transaction.t) :
  version t = version t' ->
  inputs t = inputs t' ->
  outputs t = outputs t' ->
  locktime t = locktime t' ->
  has_segwit t = has_segwit t' ->
  get_txid t = get_txid t'.
Proof.
  intros Hv Hi Ho Hl _. unfold get_txid.
  now rewrite (to_bytes_false_witnesses t t' Hv Hi Ho Hl).
Qed.

(** ** The segwit v0 digest *)

Lemma andb_true_l_r (a b : bool) : a && b = true -> a = true /\ b = true.
Proof. destruct a, b; simpl; intros H; split; congruence. Qed.

Lemma txid_ok_inv (s : string) :
  Wf.txid_ok s = true -> exists b, unhexlify s = Ok b /\ length b = 32%nat.
Proof.
  unfold Wf.txid_ok. destruct (unhexlify s) as [b|e]; [|discriminate].
  intros H. exists b. split; [reflexivity | now apply Nat.eqb_eq].
Qed.

Lemma u32_inv (z : Z) : Wf.u32 z = true -> 0 <= z < 256 ^ Z.of_nat 4.
Proof. unfold Wf.u32. change (256 ^ Z.of_nat 4) with 4294967296. lia. Qed.

Lemma u8_inv (z : Z) : Wf.u8 z = true -> 0 <= z < 256.
Proof. unfold Wf.u8. lia. Qed.

Lemma u64_inv (z : Z) : Wf.u64 z = true -> 0 <= z < 256 ^ Z.of_nat 8.
Proof.
  unfold Wf.u64. change (256 ^ Z.of_nat 8) with 18446744073709551616. lia.
Qed.

Lemma i32_inv (z : Z) :
  Wf.i32 z = true -> - (256 ^ Z.of_nat 4 / 2) <= z < 256 ^ Z.of_nat 4 / 2.
Proof.
  unfold Wf.i32. change (256 ^ Z.of_nat 4 / 2) with 2147483648. lia.
Qed.

Lemma i64_inv (z : Z) :
  Wf.i64 z = true -> - (256 ^ Z.of_nat 8 / 2) <= z < 256 ^ Z.of_nat 8 / 2.
Proof.
  unfold Wf.i64. change (256 ^ Z.of_nat 8 / 2) with 9223372036854775808. lia.
Qed.

Lemma short_script_inv (s : Script.t) :
  Wf.short_script s = true ->
  0 <= len (Script.to_bytes s) < 256 ^ Z.of_nat 1.
Proof.
  unfold Wf.short_script. pose proof (len_nonneg (Script.to_bytes s)).
  change (256 ^ Z.of_nat 1) with 256. lia.
Qed.

Lemma le_bytes_1 (z : Z) : le_bytes 1 z = [byte_of_Z z].
Proof. reflexivity. Qed.

(** The outpoint of a well-formed input is 36 bytes: the 32 bytes of the
    txid reversed and the index as [u32le]. *)
Lemma segwit_outpoint_ok (x : TxInput.t) :
  Wf.txin_ok x = true ->
  segwit_outpoint x = Ok (Wf.outpoint x) /\ length (Wf.outpoint x) = 36%nat.
Proof.
  unfold Wf.txin_ok. intros H. apply andb_true_l_r in H as [Ht Hi].
  apply txid_ok_inv in Ht as (b & Hb & Hlen). apply u32_inv in Hi.
  unfold segwit_outpoint, Wf.outpoint, Wf.txid_wire, pack_L.
  rewrite Hb, (pack_unsigned_ok 4 _ Hi). cbn [Py.bind].
  split; [reflexivity|].
  now rewrite length_app, length_rev, le_bytes_length, Hlen.
Qed.

Lemma segwit_output_ok (x : TxOutput.t) :
  Wf.txout_ok x = true -> segwit_output x = Ok (Wf.output x).
Proof.
  unfold Wf.txout_ok. intros H. apply andb_true_l_r in H as [Ha Hs].
  apply i64_inv in Ha. apply short_script_inv in Hs.
  unfold segwit_output, Wf.output, pack_q, pack_B.
  rewrite (pack_signed_ok 8 _ Ha), (pack_unsigned_ok 1 _ Hs). reflexivity.
Qed.

Lemma forallb_Forall {A} (p : A -> bool) (l : list A) :
  forallb p l = true -> Forall (fun x => p x = true) l.
Proof.
  induction l as [|x l IH]; simpl; intros H; constructor;
    apply andb_true_l_r in H as [H1 H2]; auto.
Qed.

Lemma map_m_total {A} (f : A -> result bytes) (g : A -> bytes) (l : list A) :
  Forall (fun x => f x = Ok (g x)) l ->
  for_each l (fun acc x => let* b := f x in Ok (acc ++ b)) []
  = Ok (flat_map g l).
Proof.
  intros H. rewrite for_each_append, (map_m_ok f g l H). cbn [Py.bind app].
  now rewrite flat_map_concat_map.
Qed.

Lemma segwit_hash_prevouts_ok (t : Transaction.t) (anyone : bool) :
  forallb Wf.txin_ok (inputs t) = true ->
  segwit_hash_prevouts t anyone = Ok (Bip143.hashPrevouts t anyone).
Proof.
  intros H. unfold segwit_hash_prevouts, Bip143.hashPrevouts.
  destruct anyone; cbn [negb]; [reflexivity|].
  rewrite (map_m_total segwit_outpoint Wf.outpoint); [reflexivity|].
  apply forallb_Forall in H. eapply Forall_impl; [exact H|].
  intros x Hx. now apply segwit_outpoint_ok.
Qed.

Lemma segwit_hash_sequence_ok (t : Transaction.t) (anyone sign_all : bool) :
  segwit_hash_sequence t anyone sign_all
  = Ok (Bip143.hashSequence t anyone sign_all).
Proof.
  unfold segwit_hash_sequence, Bip143.hashSequence.
  destruct anyone, sign_all; cbn [negb andb orb]; try reflexivity.
  now rewrite for_each_append_total.
Qed.

Lemma segwit_hash_outputs_ok (t : Transaction.t) (i basic : Z)
    (sign_all : bool) :
  forallb Wf.txout_ok (outputs t) = true ->
  0 <= i ->
  segwit_hash_outputs t i basic sign_all
  = Ok (Bip143.hashOutputs t i basic sign_all).
Proof.
  intros H Hi. apply forallb_Forall in H.
  unfold segwit_hash_outputs, Bip143.hashOutputs.
  destruct sign_all.
  - rewrite (map_m_total segwit_output Wf.output); [reflexivity|].
    eapply Forall_impl; [exact H|]. intros x Hx. now apply segwit_output_ok.
  - destruct ((basic =? SIGHASH_SINGLE) && (i <? len (outputs t))) eqn:E;
      [|reflexivity].
    apply andb_true_l_r in E as [_ E]. apply Z.ltb_lt in E.
    destruct (index_in_range (outputs t) i) as (o & Ho & Ho'); [lia|].
    rewrite Ho', Ho. cbn [Py.bind].
    rewrite segwit_output_ok; [reflexivity|].
    exact (Forall_lookup_1 _ _ _ _ H Ho).
Qed.

(** Under the invariants of the data model, the bytes hashed by the segwit
    digest are the preimage of section 4.8. *)
Lemma segwit_preimage_spec (t : Transaction.t) (i : Z) (s : Script.t)
    (a sighash : Z) (txin : TxInput.t) :
  forallb Wf.txin_ok (inputs t) = true ->
  forallb Wf.txout_ok (outputs t) = true ->
  0 <= i -> inputs t !! Z.to_nat i = Some txin ->
  Wf.short_script s = true -> Wf.i64 a = true -> Wf.i32 sighash = true ->
  segwit_preimage t i s a sighash = Ok (Bip143.preimage t txin i s a sighash).
Proof.
  intros Hins Houts Hi Htxin Hs Ha Hsh.
  unfold segwit_preimage, segwit_preimage_on. rewrite Transaction_copy_id.
  rewrite (segwit_hash_prevouts_ok _ _ Hins), segwit_hash_sequence_ok,
    (segwit_hash_outputs_ok _ _ _ _ Houts Hi). cbn [Py.bind].
  rewrite (index_ok _ _ _ Hi Htxin). cbn [Py.bind].
  assert (Hok : Wf.txin_ok txin = true).
  { apply forallb_Forall in Hins. exact (Forall_lookup_1 _ _ _ _ Hins Htxin). }
  destruct (segwit_outpoint_ok _ Hok) as [-> _]. cbn [Py.bind].
  unfold pack_B, pack_q, pack_i.
  rewrite (pack_unsigned_ok 1 _ (short_script_inv _ Hs)),
    (pack_signed_ok 8 _ (i64_inv _ Ha)), (pack_signed_ok 4 _ (i32_inv _ Hsh)).
  cbn [Py.bind]. unfold Bip143.preimage. rewrite le_bytes_1.
  repeat rewrite <- app_assoc. reflexivity.
Qed.

Lemma from_le_bytes_le_bytes (n : nat) (z : Z) :
  0 <= z < 256 ^ Z.of_nat n -> from_le_bytes (le_bytes n z) = z.
Proof.
  revert z. induction n as [|n IH]; intros z Hz.
  - change (256 ^ Z.of_nat 0) with 1 in Hz. simpl. lia.
  - cbn [le_bytes from_le_bytes].
    rewrite Nat2Z.inj_succ, Z.pow_succ_r in Hz by lia.
    rewrite IH by (split; [apply Z.div_pos; lia | apply Z.div_lt_upper_bound; lia]).
    unfold byte_of_Z, Z_of_byte.
    pose proof (Z.mod_pos_bound z 256 ltac:(lia)) as Hm.
    destruct (Byte.of_N (Z.to_N (z mod 256))) as [b|] eqn:E.
    + apply Byte.to_of_N in E. rewrite E, Z2N.id by lia.
      pose proof (Z.div_mod z 256). lia.
    + apply Byte.of_N_None_iff in E. lia.
Qed.

Lemma txid_wire_length (x : TxInput.t) :
  Wf.txin_ok x = true -> length (Wf.txid_wire x) = 32%nat.
Proof.
  unfold Wf.txin_ok. intros H. apply andb_true_l_r in H as [Ht _].
  apply txid_ok_inv in Ht as (b & Hb & Hlen).
  unfold Wf.txid_wire. now rewrite Hb, length_rev.
Qed.

(** C2: in the segwit v0 digest the outpoint index is written as exactly
    four bytes, unsigned little-endian, in the per-input outpoint section
    of the preimage (36 bytes: the reversed 32-byte txid and the index) and
    in every outpoint of the [hashPrevouts] concatenation.  The preimage is
    given in full: the 36 bytes of the outpoint are followed at once by the
    length byte of the script code, and [hashPrevouts] is the double
    SHA-256 of the 36-byte outpoints of the inputs. *)
Theorem segwit_outpoint_index_u32le (t : Transaction.t) (i : Z)
    (s : Script.t) (a sighash : Z) (txin : TxInput.t) :
  forallb Wf.txin_ok (inputs t) = true ->
  forallb Wf.txout_ok (outputs t) = true ->
  0 <= i -> inputs t !! Z.to_nat i = Some txin ->
  Wf.short_script s = true -> Wf.i64 a = true -> Wf.i32 sighash = true ->
  let outpoint :=
    fun x => Wf.txid_wire x ++ le_bytes 4 (TxInput.txout_index x) in
  let basic := Z.land sighash 31 in
  let anyone := Z.land sighash 240 =? 128 in
  let sign_all :=
    negb (basic =? SIGHASH_SINGLE) && negb (basic =? SIGHASH_NONE) in
  let hashPrevouts :=
    if anyone then repeat Byte.x00 32
    else sha256d (flat_map outpoint (inputs t)) in
  let hashSequence := Bip143.hashSequence t anyone sign_all in
  let preimage :=
    version t ++ hashPrevouts ++ hashSequence
    ++ outpoint txin
    ++ [byte_of_Z (len (Script.to_bytes s))] ++ Script.to_bytes s
    ++ le_bytes 8 a
    ++ TxInput.sequence txin
    ++ Bip143.hashOutputs t i basic sign_all
    ++ locktime t
    ++ le_bytes 4 sighash in
  segwit_preimage t i s a sighash = Ok preimage
  /\ get_transaction_segwit_digest t i s a sighash = Ok (sha256d preimage)
  /\ length hashPrevouts = 32%nat
  /\ length hashSequence = 32%nat
  /\ length (outpoint txin) = 36%nat
  /\ Forall
       (fun x =>
          length (Wf.txid_wire x) = 32%nat
          /\ length (le_bytes 4 (TxInput.txout_index x)) = 4%nat
          /\ from_le_bytes (le_bytes 4 (TxInput.txout_index x))
             = TxInput.txout_index x
          /\ length (outpoint x) = 36%nat)
       (inputs t).
Proof.
  intros Hins Houts Hi Htxin Hs Ha Hsh outpoint basic anyone sign_all
    hashPrevouts hashSequence preimage.
  pose proof (segwit_preimage_spec t i s a sighash txin
                Hins Houts Hi Htxin Hs Ha Hsh) as Hp.
  assert (Hpre : segwit_preimage t i s a sighash = Ok preimage) by exact Hp.
  assert (Hall : Forall
            (fun x =>
               length (Wf.txid_wire x) = 32%nat
               /\ length (le_bytes 4 (TxInput.txout_index x)) = 4%nat
               /\ from_le_bytes (le_bytes 4 (TxInput.txout_index x))
                  = TxInput.txout_index x
               /\ length (outpoint x) = 36%nat)
            (inputs t)).
  { apply forallb_Forall in Hins. eapply Forall_impl; [exact Hins|].
    intros x Hx. cbv beta. unfold outpoint.
    pose proof (txid_wire_length x Hx) as Hw.
    unfold Wf.txin_ok in Hx. apply andb_true_l_r in Hx as [_ Hu].
    apply u32_inv in Hu.
    rewrite length_app, le_bytes_length, Hw, (from_le_bytes_le_bytes 4 _ Hu).
    repeat split; reflexivity. }
  split; [exact Hpre|].
  split; [unfold get_transaction_segwit_digest; now rewrite Hpre|].
  split.
  { unfold hashPrevouts. destruct anyone;
      [reflexivity | apply sha256d_length]. }
  split.
  { unfold hashSequence, Bip143.hashSequence. destruct (_ || _);
      [reflexivity | apply sha256d_length]. }
  split; [|exact Hall].
  exact (proj2 (proj2 (proj2 (Forall_lookup_1 _ _ _ _ Hall Htxin)))).
Qed.

(** C3: with [SIGHASH_SINGLE] and an input index at or past the number of
    outputs, the segwit v0 digest does not fail: it is the double SHA-256
    of a preimage whose [hashOutputs] field is 32 zero bytes. *)
Theorem segwit_single_out_of_range_zero_hash (t : Transaction.t) (i : Z)
    (s : Script.t) (a sighash : Z) (txin : TxInput.t) :
  forallb Wf.txin_ok (inputs t) = true ->
  len (outputs t) <= i -> inputs t !! Z.to_nat i = Some txin ->
  Wf.short_script s = true -> Wf.i64 a = true -> Wf.i32 sighash = true ->
  Z.land sighash 31 = SIGHASH_SINGLE ->
  exists hashPrevouts hashSequence,
    length hashPrevouts = 32%nat /\ length hashSequence = 32%nat
    /\ segwit_preimage t i s a sighash
       = Ok (version t ++ hashPrevouts ++ hashSequence
             ++ Wf.outpoint txin
             ++ [byte_of_Z (len (Script.to_bytes s))] ++ Script.to_bytes s
             ++ le_bytes 8 a
             ++ TxInput.sequence txin
             ++ repeat Byte.x00 32
             ++ locktime t
             ++ le_bytes 4 sighash)
    /\ get_transaction_segwit_digest t i s a sighash
       = Ok (sha256d
               (version t ++ hashPrevouts ++ hashSequence
                ++ Wf.outpoint txin
                ++ [byte_of_Z (len (Script.to_bytes s))] ++ Script.to_bytes s
                ++ le_bytes 8 a
                ++ TxInput.sequence txin
                ++ repeat Byte.x00 32
                ++ locktime t
                ++ le_bytes 4 sighash)).
Proof.
  intros Hins Hi Htxin Hs Ha Hsh Hsingle.
  pose proof (len_nonneg (outputs t)) as Hlen.
  assert (Hpre : segwit_preimage t i s a sighash
                 = Ok (version t
                       ++ Bip143.hashPrevouts t (Z.land sighash 240 =? 128)
                       ++ Bip143.zeros32
                       ++ Wf.outpoint txin
                       ++ [byte_of_Z (len (Script.to_bytes s))]
                       ++ Script.to_bytes s
                       ++ le_bytes 8 a
                       ++ TxInput.sequence txin
                       ++ repeat Byte.x00 32
                       ++ locktime t
                       ++ le_bytes 4 sighash)).
  { unfold segwit_preimage, segwit_preimage_on. rewrite Transaction_copy_id, Hsingle.
    rewrite (segwit_hash_prevouts_ok _ _ Hins), segwit_hash_sequence_ok.
    cbn [Py.bind]. unfold segwit_hash_outputs.
    change (SIGHASH_SINGLE =? SIGHASH_SINGLE) with true.
    change (SIGHASH_SINGLE =? SIGHASH_NONE) with false.
    cbn [negb andb].
    destruct (i <? len (outputs t)) eqn:E; [lia|]. cbn [andb Py.bind].
    assert (Hi0 : 0 <= i) by lia.
    rewrite (index_ok _ _ _ Hi0 Htxin). cbn [Py.bind].
    assert (Hok : Wf.txin_ok txin = true).
    { apply forallb_Forall in Hins. exact (Forall_lookup_1 _ _ _ _ Hins Htxin). }
    destruct (segwit_outpoint_ok _ Hok) as [-> _]. cbn [Py.bind].
    unfold pack_B, pack_q, pack_i.
    rewrite (pack_unsigned_ok 1 _ (short_script_inv _ Hs)),
      (pack_signed_ok 8 _ (i64_inv _ Ha)), (pack_signed_ok 4 _ (i32_inv _ Hsh)).
    cbn [Py.bind]. rewrite le_bytes_1.
    unfold Bip143.hashSequence. rewrite orb_true_r.
    repeat rewrite <- app_assoc. reflexivity. }
  eexists _, _. split; [|split; [|split; [exact Hpre|]]].
  - unfold Bip143.hashPrevouts. destruct (_ =? _);
      [reflexivity | apply sha256d_length].
  - reflexivity.
  - unfold get_transaction_segwit_digest. now rewrite Hpre.
Qed.

(** ** The taproot digest *)

Lemma taproot_outpoint_ok (x : TxInput.t) :
  Wf.txin_ok x = true -> taproot_outpoint x = Ok (Wf.outpoint x).
Proof. intros H. exact (proj1 (segwit_outpoint_ok x H)). Qed.

Lemma taproot_script_pubkey_ok (s : Script.t) :
  Wf.short_script s = true ->
  taproot_script_pubkey s = Ok (Bip341.script_pubkey s).
Proof.
  intros H. apply short_script_inv in H. change (256 ^ Z.of_nat 1) with 256 in H.
  unfold taproot_script_pubkey, Script.to_hex, Bip341.script_pubkey.
  rewrite hex_length, unhexlify_hex.
  replace (Z.of_nat (2 * length (Script.to_bytes s)) / 2)
    with (len (Script.to_bytes s)).
  - now rewrite (bytes_of_int_ok _ H).
  - unfold len. rewrite Nat2Z.inj_mul, Z.mul_comm. symmetry.
    apply Z.div_mul. discriminate.
Qed.

Lemma taproot_output_ok (x : TxOutput.t) :
  Wf.txout_unsigned_ok x = true -> taproot_output x = Ok (Wf.output x).
Proof.
  unfold Wf.txout_unsigned_ok. intros H. apply andb_true_l_r in H as [Ha Hs].
  apply u64_inv in Ha. apply short_script_inv in Hs.
  unfold taproot_output, Wf.output, pack_Q, pack_B.
  rewrite (pack_unsigned_ok 8 _ Ha), (pack_unsigned_ok 1 _ Hs). reflexivity.
Qed.

Lemma taproot_tx_data_ok (t : Transaction.t) (spks : list Script.t)
    (amts : list Z) (acc : bytes) :
  forallb Wf.txin_ok (inputs t) = true ->
  forallb Wf.short_script spks = true ->
  forallb Wf.u64 amts = true ->
  taproot_tx_data t spks amts acc
  = Ok (acc ++ Bip341.sha_prevouts t ++ Bip341.sha_amounts amts
        ++ Bip341.sha_scriptpubkeys spks ++ Bip341.sha_sequences t).
Proof.
  intros Hins Hspks Hamts. unfold taproot_tx_data.
  rewrite (map_m_total taproot_outpoint Wf.outpoint).
  2:{ apply forallb_Forall in Hins. eapply Forall_impl; [exact Hins|].
      intros x Hx. now apply taproot_outpoint_ok. }
  cbn [Py.bind].
  rewrite (map_m_total (fun a => int_to_bytes a 8) (le_bytes 8)).
  2:{ apply forallb_Forall in Hamts. eapply Forall_impl; [exact Hamts|].
      intros x Hx. apply int_to_bytes_ok. now apply u64_inv. }
  cbn [Py.bind].
  rewrite (map_m_total taproot_script_pubkey Bip341.script_pubkey).
  2:{ apply forallb_Forall in Hspks. eapply Forall_impl; [exact Hspks|].
      intros x Hx. now apply taproot_script_pubkey_ok. }
  cbn [Py.bind]. rewrite for_each_append_total. cbn [Py.bind app].
  unfold Bip341.sha_prevouts, Bip341.sha_amounts, Bip341.sha_scriptpubkeys,
    Bip341.sha_sequences.
  repeat rewrite <- app_assoc. reflexivity.
Qed.

Lemma taproot_all_outputs_ok (t : Transaction.t) (acc : bytes) :
  forallb Wf.txout_unsigned_ok (outputs t) = true ->
  taproot_all_outputs t acc = Ok (acc ++ Bip341.sha_outputs t).
Proof.
  intros H. unfold taproot_all_outputs.
  rewrite (map_m_total taproot_output Wf.output); [reflexivity|].
  apply forallb_Forall in H. eapply Forall_impl; [exact H|].
  intros x Hx. now apply taproot_output_ok.
Qed.

(** Without ANYONECANPAY the head of the preimage is produced for lists of
    previous amounts and scripts of any length. *)
Lemma taproot_head_ok (t : Transaction.t) (i : Z) (spks : list Script.t)
    (amts : list Z) (ext_flag sighash : Z) :
  forallb Wf.txin_ok (inputs t) = true ->
  forallb Wf.txout_unsigned_ok (outputs t) = true ->
  forallb Wf.short_script spks = true ->
  forallb Wf.u64 amts = true ->
  Wf.u8 sighash = true -> Z.land sighash 128 <> 128 ->
  Wf.u8 (2 * ext_flag) = true -> Wf.u32 i = true ->
  taproot_head t i spks amts ext_flag sighash
  = Ok (Bip341.head t i spks amts ext_flag sighash).
Proof.
  intros Hins Houts Hspks Hamts Hsh Hacp Hext Hi.
  apply u8_inv in Hsh, Hext. apply u32_inv in Hi.
  unfold taproot_head, taproot_head_on. rewrite Transaction_copy_id.
  change (bytes_of_int 0) with (Ok [Byte.x00]).
  rewrite (bytes_of_int_ok _ Hsh). cbn [Py.bind].
  change SIGHASH_ANYONECANPAY with 128.
  destruct (Z.land sighash 128 =? 128) eqn:E; [lia|]. cbn [negb].
  rewrite (taproot_tx_data_ok _ _ _ _ Hins Hspks Hamts). cbn [Py.bind].
  replace (ext_flag * 2 + 0) with (2 * ext_flag) by lia.
  unfold Bip341.head.
  destruct ((Z.land sighash 3 =? SIGHASH_NONE)
            || (Z.land sighash 3 =? SIGHASH_SINGLE)); cbn [negb Py.bind].
  - rewrite (bytes_of_int_ok _ Hext). cbn [Py.bind]. unfold taproot_input_data.
    rewrite (int_to_bytes_ok 4 _ Hi). cbn [Py.bind].
    repeat rewrite <- app_assoc. reflexivity.
  - rewrite (taproot_all_outputs_ok _ _ Houts). cbn [Py.bind].
    rewrite (bytes_of_int_ok _ Hext). cbn [Py.bind]. unfold taproot_input_data.
    rewrite (int_to_bytes_ok 4 _ Hi). cbn [Py.bind].
    repeat rewrite <- app_assoc. reflexivity.
Qed.

Lemma taproot_extension_ok (script : Script.t) (leaf_ver : Z) (acc : bytes) :
  taproot_extension script leaf_ver acc
  = Ok (acc
        ++ tagged_hash
             ([byte_of_Z LEAF_VERSION_TAPSCRIPT]
              ++ prepend_varint (Script.to_bytes script)) "TapLeaf"
        ++ [Byte.x00] ++ [Byte.xff; Byte.xff; Byte.xff; Byte.xff]).
Proof.
  unfold taproot_extension. cbn [bytes_of_int Py.bind].
  change (bytes_of_int LEAF_VERSION_TAPSCRIPT)
    with (Ok [byte_of_Z LEAF_VERSION_TAPSCRIPT]).
  change (bytes_of_int 0) with (Ok [Byte.x00]). cbn [Py.bind].
  repeat rewrite <- app_assoc. reflexivity.
Qed.

Lemma taproot_preimage_unfold (t : Transaction.t) (i : Z)
    (spks : list Script.t) (amts : list Z) (ext_flag : Z) (s : Script.t)
    (leaf_ver sighash : Z) :
  taproot_preimage t i spks amts ext_flag s leaf_ver sighash
  = (let* tx_for_signing := taproot_head t i spks amts ext_flag sighash in
     let* tx_for_signing :=
       if Z.land sighash 3 =? SIGHASH_SINGLE
       then taproot_single_output (copy t) i tx_for_signing
       else Ok tx_for_signing in
     let* tx_for_signing :=
       if ext_flag =? 1 then taproot_extension s leaf_ver tx_for_signing
       else Ok tx_for_signing in
     Ok tx_for_signing).
Proof. reflexivity. Qed.

(** C4: the taproot digest does not read its [leaf_ver] argument: the
    TapLeaf commitment is built with [LEAF_VERSION_TAPSCRIPT] (0xC0)
    whatever leaf version the caller supplies, so two calls that differ
    only in [leaf_ver] give the same preimage and the same digest. *)
Theorem taproot_leaf_ver_ignored (t : Transaction.t) (i : Z)
    (spks : list Script.t) (amts : list Z) (ext_flag : Z) (s : Script.t)
    (leaf_ver leaf_ver' sighash : Z) :
  taproot_extension s leaf_ver = taproot_extension s LEAF_VERSION_TAPSCRIPT
  /\ taproot_preimage t i spks amts ext_flag s leaf_ver sighash
     = taproot_preimage t i spks amts ext_flag s leaf_ver' sighash
  /\ get_transaction_taproot_digest t i spks amts ext_flag s leaf_ver sighash
     = get_transaction_taproot_digest t i spks amts ext_flag s leaf_ver'
         sighash.
Proof. repeat split. Qed.

(** At a script-path spend of the example transaction with leaf version
    0xC2 the digest commits to the leaf hash of version 0xC0. *)
Example taproot_leaf_c2_commits_c0 :
  exists head,
    taproot_head Examples.tx 0
      [Examples.prevout_script; Examples.prevout_script] [600; 700] 1 0
    = Ok head
    /\ taproot_preimage Examples.tx 0
         [Examples.prevout_script; Examples.prevout_script] [600; 700] 1
         Examples.script_code 194 0
       = Ok (head
             ++ tagged_hash
                  ([Byte.xc0]
                   ++ prepend_varint (Script.to_bytes Examples.script_code))
                  "TapLeaf"
             ++ [Byte.x00] ++ [Byte.xff; Byte.xff; Byte.xff; Byte.xff]).
Proof.
  eexists. split;
    [apply taproot_head_ok; first [reflexivity | vm_compute; congruence]|].
  rewrite taproot_preimage_unfold.
  rewrite taproot_head_ok by first [reflexivity | vm_compute; congruence].
  change (Z.land 0 3 =? SIGHASH_SINGLE) with false.
  change (1 =? 1) with true. cbn [Py.bind].
  rewrite taproot_extension_ok. reflexivity.
Qed.

(** C10: with [SIGHASH_SINGLE] and an input index at or past the number of
    outputs the taproot digest never returns: once the head of the preimage
    is built, indexing the outputs raises [IndexError]. *)
Theorem taproot_single_out_of_range_raises (t : Transaction.t) (i : Z)
    (spks : list Script.t) (amts : list Z) (ext_flag : Z) (s : Script.t)
    (leaf_ver sighash : Z) :
  len (outputs t) <= i ->
  Z.land sighash 3 = SIGHASH_SINGLE ->
  is_ok (get_transaction_taproot_digest t i spks amts ext_flag s leaf_ver
           sighash) = false
  /\ forall head,
       taproot_head t i spks amts ext_flag sighash = Ok head ->
       taproot_single_output (copy t) i head = Raise IndexError
       /\ get_transaction_taproot_digest t i spks amts ext_flag s leaf_ver
            sighash = Raise IndexError.
Proof.
  intros Hi Hs.
  assert (Hso : forall head,
            taproot_single_output (copy t) i head = Raise IndexError).
  { intros head. unfold taproot_single_output.
    rewrite Transaction_copy_id, (index_oob _ _ Hi). reflexivity. }
  unfold get_transaction_taproot_digest. rewrite taproot_preimage_unfold, Hs.
  change (SIGHASH_SINGLE =? SIGHASH_SINGLE) with true. cbv iota.
  destruct (taproot_head t i spks amts ext_flag sighash) as [head|e];
    cbn [Py.bind].
  - rewrite Hso. cbn [Py.bind is_ok]. split; [reflexivity|].
    intros head' _. split; [apply Hso | reflexivity].
  - split; [reflexivity|]. intros head' H. discriminate H.
Qed.

(** C5, as amended: the taproot digest does not compare the number of
    previous amounts with the number of inputs.  Without ANYONECANPAY, for
    a well-formed transaction and previous amounts that are unsigned 64-bit
    integers, whatever their number, it returns a digest whose preimage
    starts with the head of section 4.9, in which all supplied amounts are
    hashed. *)
Theorem taproot_amounts_length_unchecked (t : Transaction.t) (i : Z)
    (spks : list Script.t) (amts : list Z) (ext_flag : Z) (s : Script.t)
    (leaf_ver sighash : Z) :
  forallb Wf.txin_ok (inputs t) = true ->
  forallb Wf.txout_unsigned_ok (outputs t) = true ->
  forallb Wf.short_script spks = true ->
  forallb Wf.u64 amts = true ->
  Wf.u8 sighash = true -> Z.land sighash 128 <> 128 ->
  Wf.u8 (2 * ext_flag) = true -> Wf.u32 i = true ->
  (Z.land sighash 3 = SIGHASH_SINGLE -> i < len (outputs t)) ->
  exists tail,
    taproot_preimage t i spks amts ext_flag s leaf_ver sighash
    = Ok (Bip341.head t i spks amts ext_flag sighash ++ tail)
    /\ get_transaction_taproot_digest t i spks amts ext_flag s leaf_ver
         sighash
       = Ok (tagged_hash (Bip341.head t i spks amts ext_flag sighash ++ tail)
               "TapSighash").
Proof.
  intros Hins Houts Hspks Hamts Hsh Hacp Hext Hi Hsingle.
  assert (Hpre : exists tail,
            taproot_preimage t i spks amts ext_flag s leaf_ver sighash
            = Ok (Bip341.head t i spks amts ext_flag sighash ++ tail)).
  { rewrite taproot_preimage_unfold.
    rewrite (taproot_head_ok _ _ _ _ _ _ Hins Houts Hspks Hamts Hsh Hacp Hext Hi).
    cbn [Py.bind]. rewrite Transaction_copy_id.
    assert (Hstep : exists tail1,
              (if Z.land sighash 3 =? SIGHASH_SINGLE
               then taproot_single_output t i
                      (Bip341.head t i spks amts ext_flag sighash)
               else Ok (Bip341.head t i spks amts ext_flag sighash))
              = Ok (Bip341.head t i spks amts ext_flag sighash ++ tail1)).
    { destruct (Z.land sighash 3 =? SIGHASH_SINGLE) eqn:E.
      - apply Z.eqb_eq in E. specialize (Hsingle E).
        apply u32_inv in Hi.
        destruct (index_in_range (outputs t) i) as (o & Ho & Ho'); [lia|].
        unfold taproot_single_output. rewrite Ho'. cbn [Py.bind].
        apply forallb_Forall in Houts.
        rewrite (taproot_output_ok o (Forall_lookup_1 _ _ _ _ Houts Ho)).
        cbn [Py.bind]. eexists. reflexivity.
      - exists []. now rewrite app_nil_r. }
    destruct Hstep as [tail1 ->]. cbn [Py.bind].
    destruct (ext_flag =? 1).
    - rewrite taproot_extension_ok. cbn [Py.bind].
      eexists. rewrite <- app_assoc. reflexivity.
    - cbn [Py.bind]. eexists. reflexivity. }
  destruct Hpre as [tail Hpre]. exists tail. split; [exact Hpre|].
  unfold get_transaction_taproot_digest. now rewrite Hpre.
Qed.

(** C5, as stated, fails: the example transaction has two inputs, and the
    digest is returned with no previous amount at all, and with three. *)
Lemma taproot_amounts_mismatch_returns_digest :
  len ([] : list Z) <> len (inputs Examples.tx)
  /\ is_ok (get_transaction_taproot_digest Examples.tx 0
              [Examples.prevout_script; Examples.prevout_script] []
              0 Script.empty LEAF_VERSION_TAPSCRIPT 0) = true
  /\ len [600; 700; 800] <> len (inputs Examples.tx)
  /\ is_ok (get_transaction_taproot_digest Examples.tx 0
              [Examples.prevout_script; Examples.prevout_script]
              [600; 700; 800]
              0 Script.empty LEAF_VERSION_TAPSCRIPT 0) = true.
Proof. vm_compute. repeat split; congruence. Qed.

(** ** Serialisation and parsing *)

(** Whatever the bytes, a parsed transaction carries the default version
    and locktime: [from_raw] passes neither to the constructor. *)
Lemma from_raw_defaults (rawtx : bytes) (t' : Transaction.t) :
  from_raw rawtx = Ok t' ->
  version t' = DEFAULT_TX_VERSION /\ locktime t' = DEFAULT_TX_LOCKTIME.
Proof.
  unfold from_raw.
  destruct (if bytes_eqb (slice rawtx 4 5) [Byte.x00] then _ else _)
    as [segwit cursor].
  intros H.
  apply bind_ok in H as ([n_inputs size] & _ & H).
  apply bind_ok in H as ([ins cursor1] & _ & H).
  apply bind_ok in H as ([n_outputs size'] & _ & H).
  apply bind_ok in H as ([outs cursor2] & _ & H).
  apply bind_ok in H as ([wits cursor3] & _ & H).
  injection H as <-. split; reflexivity.
Qed.

(** C6 fails on the example transaction (version 1, locktime 17): its
    serialisation parses, inputs and outputs are recovered, and the parsed
    transaction has version 2 and locktime 0. *)
Theorem from_raw_drops_version_and_locktime :
  exists raw t',
    to_bytes Examples.tx (has_segwit Examples.tx) = Ok raw
    /\ from_raw raw = Ok t'
    /\ inputs t' = inputs Examples.tx
    /\ outputs t' = outputs Examples.tx
    /\ witnesses t' = witnesses Examples.tx
    /\ has_segwit t' = has_segwit Examples.tx
    /\ version Examples.tx = [Byte.x01; Byte.x00; Byte.x00; Byte.x00]
    /\ version t' = [Byte.x02; Byte.x00; Byte.x00; Byte.x00]
    /\ locktime Examples.tx = [Byte.x11; Byte.x00; Byte.x00; Byte.x00]
    /\ locktime t' = [Byte.x00; Byte.x00; Byte.x00; Byte.x00]
    /\ t' <> Examples.tx.
Proof.
  eexists _, _. split; [vm_compute; reflexivity|].
  split; [vm_compute; reflexivity|].
  repeat (split; [vm_compute; reflexivity|]).
  vm_compute. congruence.
Qed.

(** Below 128 the witness stack count is one byte. *)
Lemma chr_encode_below_128 (n : Z) :
  0 <= n < 128 -> chr_encode n = Ok [byte_of_Z n].
Proof.
  intros Hn. unfold chr_encode.
  destruct (n <? 0) eqn:E1; [lia|]. destruct (1114111 <? n) eqn:E2; [lia|].
  destruct (n <? 128) eqn:E3; [reflexivity | lia].
Qed.

(** From 128 to 255 it is two bytes, the UTF-8 encoding of the count. *)
Lemma chr_encode_128_to_255 (n : Z) :
  128 <= n <= 255 ->
  chr_encode n
  = Ok [byte_of_Z (Z.lor 192 (Z.shiftr n 6));
        byte_of_Z (Z.lor 128 (Z.land n 63))].
Proof.
  intros Hn. unfold chr_encode.
  destruct (n <? 0) eqn:E1; [lia|]. destruct (1114111 <? n) eqn:E2; [lia|].
  destruct (n <? 128) eqn:E3; [lia|].
  destruct (n <? 2048) eqn:E4; [reflexivity | lia].
Qed.

(** C7 fails on a witness stack of 128 items: the serialisation with
    witnesses writes the count as the two bytes [C2 80], followed by the
    128 VarInt-prefixed items. *)
Theorem witness_count_128_is_two_bytes :
  exists inp out,
    TxInput.to_bytes (TxInput.mk
       "9f96ade4b41d5433f4eda31e1738ec2b36f6e7d1420d94a6af99801a88f7f7ff"
       0 Script.empty DEFAULT_TX_SEQUENCE) = Ok inp
    /\ TxOutput.to_bytes (TxOutput.mk 50000 Examples.script_code) = Ok out
    /\ len (TxWitnessInput.stack (TxWitnessInput.mk (repeat "01"%string 128)))
       = 128
    /\ to_bytes (Examples.tx_stack 128) true
       = Ok (DEFAULT_TX_VERSION ++ [Byte.x00; Byte.x01]
             ++ encode_varint 1 ++ inp
             ++ encode_varint 1 ++ out
             ++ [Byte.xc2; Byte.x80]
             ++ concat (repeat (encode_varint 1 ++ [Byte.x01]) 128)
             ++ DEFAULT_TX_LOCKTIME).
Proof.
  eexists _, _. split; [vm_compute; reflexivity|].
  split; [vm_compute; reflexivity|].
  split; vm_compute; reflexivity.
Qed.

(** With 127 items the count is the single byte [7F]. *)
Example witness_count_127_is_one_byte :
  exists inp out,
    TxInput.to_bytes (TxInput.mk
       "9f96ade4b41d5433f4eda31e1738ec2b36f6e7d1420d94a6af99801a88f7f7ff"
       0 Script.empty DEFAULT_TX_SEQUENCE) = Ok inp
    /\ TxOutput.to_bytes (TxOutput.mk 50000 Examples.script_code) = Ok out
    /\ to_bytes (Examples.tx_stack 127) true
       = Ok (DEFAULT_TX_VERSION ++ [Byte.x00; Byte.x01]
             ++ encode_varint 1 ++ inp
             ++ encode_varint 1 ++ out
             ++ [Byte.x7f]
             ++ concat (repeat (encode_varint 1 ++ [Byte.x01]) 127)
             ++ DEFAULT_TX_LOCKTIME).
Proof.
  eexists _, _. split; [vm_compute; reflexivity|].
  split; vm_compute; reflexivity.
Qed.

(** The parser reads that count as a VarInt (194 items): the serialisation
    of a stack of 128 items does not parse back. *)
Example witness_count_128_does_not_parse :
  exists raw,
    to_bytes (Examples.tx_stack 128) true = Ok raw
    /\ from_raw raw = Raise MalformedVarInt.
Proof.
  eexists. split; [vm_compute; reflexivity|].
  vm_compute. reflexivity.
Qed.

(** ** The theorems above at concrete inputs *)


(** [txid_independent_of_witnesses] at the example transaction without
    and with witnesses. *)
Lemma txid_independent_of_witnesses_witness :
  get_txid (Examples.tx_with [])
  = get_txid (Examples.tx_with
                [TxWitnessInput.mk ["3044"%string; "02"%string];
                 TxWitnessInput.mk []]).
Proof.
  apply txid_independent_of_witnesses; reflexivity.
Defined.

(** [segwit_outpoint_index_u32le] at the example transaction, input 1,
    [SIGHASH_ALL]: the outpoint is the reversed txid and [01 00 00 00], and
    the byte after it is the length, 25, of the script code. *)
Lemma segwit_outpoint_index_u32le_witness :
  let t := Examples.tx in
  let txin :=
    TxInput.mk
      "8ac60eb9575db5b2d987e29f301b5b819ea83a5c6579d282d189cc04b8e151ef"
      1 Script.empty (Examples.unhex "ffffffff") in
  let s := Examples.script_code in
  let outpoint :=
    fun x => Wf.txid_wire x ++ le_bytes 4 (TxInput.txout_index x) in
  let basic := Z.land 1 31 in
  let anyone := Z.land 1 240 =? 128 in
  let sign_all :=
    negb (basic =? SIGHASH_SINGLE) && negb (basic =? SIGHASH_NONE) in
  let hashPrevouts :=
    if anyone then repeat Byte.x00 32
    else sha256d (flat_map outpoint (inputs t)) in
  let hashSequence := Bip143.hashSequence t anyone sign_all in
  let preimage :=
    version t ++ hashPrevouts ++ hashSequence
    ++ outpoint txin
    ++ [byte_of_Z (len (Script.to_bytes s))] ++ Script.to_bytes s
    ++ le_bytes 8 600000000
    ++ TxInput.sequence txin
    ++ Bip143.hashOutputs t 1 basic sign_all
    ++ locktime t
    ++ le_bytes 4 1 in
  segwit_preimage t 1 s 600000000 1 = Ok preimage
  /\ length (outpoint txin) = 36%nat
  /\ outpoint txin
     = Examples.unhex
         "ef51e1b804cc89d182d279655c3aa89e815b1b309fe287d9b2b55d57b90ec68a"
       ++ [Byte.x01; Byte.x00; Byte.x00; Byte.x00]
  /\ [byte_of_Z (len (Script.to_bytes s))] = [Byte.x19].
Proof.
  intros t txin s outpoint basic anyone sign_all hashPrevouts hashSequence
    preimage.
  destruct (segwit_outpoint_index_u32le t 1 s 600000000 1 txin)
    as (Hp & _ & _ & _ & Ho & _); [by_evaluation .. |].
  split; [exact Hp|]. split; [exact Ho|].
  split; vm_compute; reflexivity.
Defined.

(** [segwit_single_out_of_range_zero_hash] at a transaction with two inputs
    and one output, input 1, [SIGHASH_SINGLE]. *)
Lemma segwit_single_out_of_range_zero_hash_witness :
  is_ok (get_transaction_segwit_digest
           (Transaction.mk (inputs Examples.tx)
              [TxOutput.mk 112340000 Examples.script_code]
              (locktime Examples.tx) (version Examples.tx) false [])
           1 Examples.script_code 600000000 3) = true.
Proof.
  destruct (segwit_single_out_of_range_zero_hash
              (Transaction.mk (inputs Examples.tx)
                 [TxOutput.mk 112340000 Examples.script_code]
                 (locktime Examples.tx) (version Examples.tx) false [])
              1 Examples.script_code 600000000 3
              (TxInput.mk
                 "8ac60eb9575db5b2d987e29f301b5b819ea83a5c6579d282d189cc04b8e151ef"
                 1 Script.empty (Examples.unhex "ffffffff")))
    as (hp & hs & _ & _ & _ & Hd); [by_evaluation .. |].
  rewrite Hd. reflexivity.
Defined.

(** [taproot_single_out_of_range_raises] at the example transaction (two
    outputs), input index 2, [SIGHASH_SINGLE]. *)
Lemma taproot_single_out_of_range_raises_witness :
  get_transaction_taproot_digest Examples.tx 2
    [Examples.prevout_script; Examples.prevout_script] [600; 700]
    0 Script.empty LEAF_VERSION_TAPSCRIPT 3
  = Raise IndexError.
Proof.
  destruct (taproot_single_out_of_range_raises Examples.tx 2
              [Examples.prevout_script; Examples.prevout_script] [600; 700]
              0 Script.empty LEAF_VERSION_TAPSCRIPT 3)
    as [_ H]; [by_evaluation | by_evaluation |].
  eapply H. apply taproot_head_ok; by_evaluation.
Defined.

(** [taproot_amounts_length_unchecked] at the example transaction (two
    inputs) with three previous amounts. *)
Lemma taproot_amounts_length_unchecked_witness :
  exists tail,
    get_transaction_taproot_digest Examples.tx 0
      [Examples.prevout_script; Examples.prevout_script] [600; 700; 800]
      0 Script.empty LEAF_VERSION_TAPSCRIPT 0
    = Ok (tagged_hash
            (Bip341.head Examples.tx 0
               [Examples.prevout_script; Examples.prevout_script]
               [600; 700; 800] 0 0 ++ tail)
            "TapSighash").
Proof.
  destruct (taproot_amounts_length_unchecked Examples.tx 0
              [Examples.prevout_script; Examples.prevout_script]
              [600; 700; 800] 0 Script.empty LEAF_VERSION_TAPSCRIPT 0)
    as (tail & _ & Hd);
    [by_evaluation .. | intros H; vm_compute in H; discriminate H |].
  exists tail. exact Hd.
Defined.

(** ** What the digests write: only objects they created *)

Section FrameRules.

Import Heap.

(** The store at the time of the call. *)
Variable st0 : store.

#[local] Abbreviation fresh_loc := (Frame.fresh_loc st0).
#[local] Abbreviation obj_fresh := (Frame.obj_fresh st0).
#[local] Abbreviation inv := (Frame.inv st0).
#[local] Abbreviation spec := (Frame.spec st0).

Lemma inv_init : inv st0.
Proof.
  split; [reflexivity|]. intros l o Hl Ho. unfold Frame.fresh_loc in Hl. congruence.
Qed.

Lemma inv_insert (st : store) (l : loc) (o : obj) :
  inv st -> fresh_loc l -> obj_fresh o -> inv (<[l := o]> st).
Proof.
  intros [Hsub Hfr] Hl Ho. split.
  - now apply insert_subseteq_r.
  - intros l' o' Hl' Hlk. destruct (decide (l = l')) as [->|Hne].
    + rewrite lookup_insert_eq in Hlk. now injection Hlk as <-.
    + rewrite lookup_insert_ne in Hlk by exact Hne. eauto.
Qed.

Lemma inv_unallocated_fresh (st : store) (l : loc) :
  inv st -> st !! l = None -> fresh_loc l.
Proof.
  intros [Hsub _] Hl. unfold Frame.fresh_loc.
  destruct (st0 !! l) as [o|] eqn:E; [|reflexivity].
  rewrite (lookup_weaken _ _ _ _ E Hsub) in Hl. discriminate.
Qed.

Lemma spec_ret {A} (a : A) (P : A -> Prop) : P a -> spec (ret a) P.
Proof. intros Ha st Hst. simpl. auto. Qed.

Lemma spec_raise {A} (e : exn) (P : A -> Prop) : spec (raise e) P.
Proof. intros st Hst. exact Hst. Qed.

Lemma spec_lift {A} (r : result A) : spec (lift r) (fun _ => True).
Proof. intros st Hst. destruct r; simpl; auto. Qed.

Lemma spec_bind {A B} (m : M A) (k : A -> M B) (P : A -> Prop)
    (Q : B -> Prop) :
  spec m P -> (forall a, P a -> spec (k a) Q) -> spec (mbind m k) Q.
Proof.
  intros Hm Hk st Hst. unfold mbind. specialize (Hm st Hst).
  destruct (m st) as [[a|e] st']; [|exact Hm].
  destruct Hm as [Hst' Ha]. exact (Hk a Ha st' Hst').
Qed.

Lemma spec_weaken {A} (m : M A) (P Q : A -> Prop) :
  spec m P -> (forall a, P a -> Q a) -> spec m Q.
Proof.
  intros Hm HPQ st Hst. specialize (Hm st Hst).
  destruct (m st) as [[a|e] st']; [|exact Hm].
  destruct Hm as [Hst' Ha]. auto.
Qed.

Lemma spec_alloc (o : obj) : obj_fresh o -> spec (alloc o) fresh_loc.
Proof.
  intros Ho st Hst. unfold alloc.
  assert (Hl : fresh_loc (fresh (dom st))).
  { apply (inv_unallocated_fresh st); [exact Hst|].
    apply not_elem_of_dom, is_fresh. }
  split; [now apply inv_insert | exact Hl].
Qed.

Lemma spec_put (l : loc) (o : obj) :
  fresh_loc l -> obj_fresh o -> spec (put l o) (fun _ => True).
Proof. intros Hl Ho st Hst. split; [now apply inv_insert | exact I]. Qed.

(** Reads: of any object, and of a new object. *)
Lemma spec_get_txinput (l : loc) : spec (get_txinput l) (fun _ => True).
Proof.
  intros st Hst. unfold get_txinput.
  destruct (st !! l) as [[]|]; simpl; auto.
Qed.

Lemma spec_get_txoutput (l : loc) : spec (get_txoutput l) (fun _ => True).
Proof.
  intros st Hst. unfold get_txoutput.
  destruct (st !! l) as [[]|]; simpl; auto.
Qed.

Lemma spec_get_stack (l : loc) : spec (get_stack l) (fun _ => True).
Proof.
  intros st Hst. unfold get_stack.
  destruct (st !! l) as [[]|]; simpl; auto.
Qed.

Lemma spec_get_strlist (l : loc) : spec (get_strlist l) (fun _ => True).
Proof.
  intros st Hst. unfold get_strlist.
  destruct (st !! l) as [[]|]; simpl; auto.
Qed.

Lemma spec_get_list (l : loc) : spec (get_list l) (fun _ => True).
Proof.
  intros st Hst. unfold get_list.
  destruct (st !! l) as [[]|]; simpl; auto.
Qed.

Lemma spec_get_tx (l : loc) : spec (get_tx l) (fun _ => True).
Proof.
  intros st Hst. unfold get_tx.
  destruct (st !! l) as [[]|]; simpl; auto.
Qed.

Lemma spec_get_list_fresh (l : loc) :
  fresh_loc l -> spec (get_list l) (Forall fresh_loc).
Proof.
  intros Hl st Hst. unfold get_list.
  destruct (st !! l) as [[]|] eqn:E; simpl; auto.
  split; [exact Hst|]. exact (proj2 Hst l _ Hl E).
Qed.

Lemma spec_get_tx_fresh (l : loc) :
  fresh_loc l ->
  spec (get_tx l)
    (fun o => fresh_loc (o_inputs o) /\ fresh_loc (o_outputs o)).
Proof.
  intros Hl st Hst. unfold get_tx.
  destruct (st !! l) as [[]|] eqn:E; simpl; auto.
  split; [exact Hst|]. exact (proj2 Hst l _ Hl E).
Qed.

(** Loops. *)
Lemma spec_for_m {A} (xs : list A) (body : A -> M unit) :
  Forall (fun x => spec (body x) (fun _ => True)) xs ->
  spec (HeapTx.for_m xs body) (fun _ => True).
Proof.
  induction 1 as [|x xs Hx _ IH]; cbn [HeapTx.for_m].
  - now apply spec_ret.
  - eapply spec_bind; [exact Hx|]. intros _ _. exact IH.
Qed.

Lemma spec_map_M {A B} (f : A -> M B) (P : B -> Prop) (xs : list A) :
  Forall (fun x => spec (f x) P) xs ->
  spec (HeapTx.map_M f xs) (Forall P).
Proof.
  induction 1 as [|x xs Hx _ IH]; cbn [HeapTx.map_M].
  - apply spec_ret. constructor.
  - eapply spec_bind; [exact Hx|]. intros y Hy.
    eapply spec_bind; [exact IH|]. intros ys Hys.
    apply spec_ret. now constructor.
Qed.

Lemma Forall_all {A} (P : A -> Prop) (xs : list A) :
  (forall x, P x) -> Forall P xs.
Proof. intros H. induction xs; constructor; auto. Qed.

(** The operations on new objects. *)
Lemma spec_tx_inputs (tx : loc) :
  fresh_loc tx -> spec (HeapTx.tx_inputs tx) fresh_loc.
Proof.
  intros Htx. eapply spec_bind; [now apply spec_get_tx_fresh|].
  intros o [Hi _]. now apply spec_ret.
Qed.

Lemma spec_tx_outputs (tx : loc) :
  fresh_loc tx -> spec (HeapTx.tx_outputs tx) fresh_loc.
Proof.
  intros Htx. eapply spec_bind; [now apply spec_get_tx_fresh|].
  intros o [_ Ho]. now apply spec_ret.
Qed.

Lemma spec_set_tx_inputs (tx l : loc) :
  fresh_loc tx -> fresh_loc l ->
  spec (HeapTx.set_tx_inputs tx l) (fun _ => True).
Proof.
  intros Htx Hl. eapply spec_bind; [now apply spec_get_tx_fresh|].
  intros o [_ Ho]. apply spec_put; [exact Htx | split; assumption].
Qed.

Lemma spec_set_tx_outputs (tx l : loc) :
  fresh_loc tx -> fresh_loc l ->
  spec (HeapTx.set_tx_outputs tx l) (fun _ => True).
Proof.
  intros Htx Hl. eapply spec_bind; [now apply spec_get_tx_fresh|].
  intros o [Hi _]. apply spec_put; [exact Htx | split; assumption].
Qed.

Lemma spec_set_script_sig (txin : loc) (s : Script.t) :
  fresh_loc txin -> spec (HeapTx.set_script_sig txin s) (fun _ => True).
Proof.
  intros Hl. eapply spec_bind; [apply spec_get_txinput|].
  intros v _. apply spec_put; [exact Hl | exact I].
Qed.

Lemma spec_set_sequence (txin : loc) (q : bytes) :
  fresh_loc txin -> spec (HeapTx.set_sequence txin q) (fun _ => True).
Proof.
  intros Hl. eapply spec_bind; [apply spec_get_txinput|].
  intros v _. apply spec_put; [exact Hl | exact I].
Qed.

Lemma index_Forall {A} (P : A -> Prop) (l : list A) (i : Z) (x : A) :
  Forall P l -> index l i = Ok x -> P x.
Proof.
  intros HP. unfold index.
  destruct (norm_index l i) as [j|e]; cbn [Py.bind]; [|discriminate].
  destruct (l !! j) as [y|] eqn:E; [|discriminate].
  intros [= <-]. exact (Forall_lookup_1 _ _ _ _ HP E).
Qed.

Lemma spec_list_index (l : loc) (i : Z) :
  fresh_loc l -> spec (HeapTx.list_index l i) fresh_loc.
Proof.
  intros Hl. eapply spec_bind; [now apply spec_get_list_fresh|].
  intros items Hitems st Hst. unfold lift.
  destruct (index items i) as [x|e] eqn:E; [|exact Hst].
  split; [exact Hst | exact (index_Forall _ _ _ _ Hitems E)].
Qed.

Lemma spec_list_len (l : loc) : spec (HeapTx.list_len l) (fun _ => True).
Proof.
  eapply spec_bind; [apply spec_get_list|]. intros items _.
  now apply spec_ret.
Qed.

Lemma spec_list_append (l x : loc) :
  fresh_loc l -> fresh_loc x ->
  spec (HeapTx.list_append l x) (fun _ => True).
Proof.
  intros Hl Hx. eapply spec_bind; [now apply spec_get_list_fresh|].
  intros items Hitems. apply spec_put; [exact Hl|].
  apply Forall_app. split; [exact Hitems | now constructor].
Qed.

(** Copies are new objects. *)
Lemma spec_TxInput_copy (txin : loc) :
  spec (HeapTx.TxInput_copy txin) fresh_loc.
Proof.
  eapply spec_bind; [apply spec_get_txinput|]. intros v _.
  now apply spec_alloc.
Qed.

Lemma spec_TxOutput_copy (txout : loc) :
  spec (HeapTx.TxOutput_copy txout) fresh_loc.
Proof.
  eapply spec_bind; [apply spec_get_txoutput|]. intros v _.
  now apply spec_alloc.
Qed.

Lemma spec_TxWitnessInput_copy (txwin : loc) :
  spec (HeapTx.TxWitnessInput_copy txwin) fresh_loc.
Proof.
  eapply spec_bind; [apply spec_get_stack|]. intros v _.
  now apply spec_alloc.
Qed.

Lemma spec_Transaction_copy (tx : loc) :
  spec (HeapTx.Transaction_copy tx) fresh_loc.
Proof.
  unfold HeapTx.Transaction_copy.
  eapply spec_bind; [apply spec_get_tx|]. intros o _.
  eapply spec_bind; [apply spec_get_list|]. intros items _.
  eapply spec_bind;
    [apply spec_map_M, Forall_all, spec_TxInput_copy|]. intros ins Hins.
  eapply spec_bind; [now apply spec_alloc|]. intros lins Hlins.
  eapply spec_bind; [apply spec_get_list|]. intros items' _.
  eapply spec_bind;
    [apply spec_map_M, Forall_all, spec_TxOutput_copy|]. intros outs Houts.
  eapply spec_bind; [now apply spec_alloc|]. intros louts Hlouts.
  eapply spec_bind; [apply spec_get_list|]. intros items'' _.
  eapply spec_bind;
    [apply spec_map_M, Forall_all, spec_TxWitnessInput_copy|].
  intros wits Hwits.
  eapply spec_bind; [now apply spec_alloc|]. intros lwits Hlwits.
  apply spec_alloc. split; assumption.
Qed.

(** Reading the value of a transaction writes nothing. *)
Lemma spec_load_witness (l : loc) :
  spec (HeapTx.load_witness l) (fun _ => True).
Proof.
  eapply spec_bind; [apply spec_get_stack|]. intros s _.
  eapply spec_bind; [apply spec_get_strlist|]. intros items _.
  now apply spec_ret.
Qed.

Lemma spec_load_tx (l : loc) : spec (HeapTx.load_tx l) (fun _ => True).
Proof.
  unfold HeapTx.load_tx.
  eapply spec_bind; [apply spec_get_tx|]. intros o _.
  eapply spec_bind; [apply spec_get_list|]. intros items _.
  eapply spec_bind;
    [apply spec_map_M, Forall_all, spec_get_txinput|]. intros ins _.
  eapply spec_bind; [apply spec_get_list|]. intros items' _.
  eapply spec_bind;
    [apply spec_map_M, Forall_all, spec_get_txoutput|]. intros outs _.
  eapply spec_bind; [apply spec_get_list|]. intros items'' _.
  eapply spec_bind;
    [apply spec_map_M, Forall_all, spec_load_witness|]. intros wits _.
  now apply spec_ret.
Qed.

Lemma spec_zero_other_sequences (tmp_tx : loc) (i : Z) :
  fresh_loc tmp_tx ->
  spec (HeapTx.zero_other_sequences tmp_tx i) (fun _ => True).
Proof.
  intros Htmp. unfold HeapTx.zero_other_sequences.
  eapply spec_bind; [now apply spec_tx_inputs|]. intros ins Hins.
  eapply spec_bind; [apply spec_list_len|]. intros n _.
  apply spec_for_m, Forall_all. intros j.
  destruct (j =? i); [now apply spec_ret|].
  eapply spec_bind; [now apply spec_tx_inputs|]. intros ins' Hins'.
  eapply spec_bind; [now apply spec_list_index|]. intros txin Htxin.
  now apply spec_set_sequence.
Qed.

Lemma spec_load_body (l : loc) : spec (HeapTx.load_body l) (fun _ => True).
Proof.
  unfold HeapTx.load_body.
  eapply spec_bind; [apply spec_get_tx|]. intros o _.
  eapply spec_bind; [apply spec_get_list|]. intros items _.
  eapply spec_bind;
    [apply spec_map_M, Forall_all, spec_get_txinput|]. intros ins _.
  eapply spec_bind; [apply spec_get_list|]. intros items' _.
  eapply spec_bind;
    [apply spec_map_M, Forall_all, spec_get_txoutput|]. intros outs _.
  now apply spec_ret.
Qed.

Lemma spec_clear_script_sigs (tmp : loc) :
  fresh_loc tmp -> spec (HeapTx.clear_script_sigs tmp) (fun _ => True).
Proof.
  intros Htmp. unfold HeapTx.clear_script_sigs.
  eapply spec_bind; [now apply spec_tx_inputs|]. intros ins Hins.
  eapply spec_bind; [now apply spec_get_list_fresh|]. intros items Hitems.
  apply spec_for_m. eapply Forall_impl; [exact Hitems|].
  intros txin Htxin. now apply spec_set_script_sig.
Qed.

Lemma spec_set_signed_script (tmp : loc) (i : Z) (s : Script.t) :
  fresh_loc tmp -> spec (HeapTx.set_signed_script tmp i s) (fun _ => True).
Proof.
  intros Htmp. unfold HeapTx.set_signed_script.
  eapply spec_bind; [now apply spec_tx_inputs|]. intros ins Hins.
  eapply spec_bind; [now apply spec_list_index|]. intros txin Htxin.
  now apply spec_set_script_sig.
Qed.

Lemma spec_append_single_outputs (tmp : loc) (i : Z) (txout : loc) :
  fresh_loc tmp -> fresh_loc txout ->
  spec (HeapTx.append_single_outputs tmp i txout) (fun _ => True).
Proof.
  intros Htmp Htxout. unfold HeapTx.append_single_outputs.
  eapply spec_bind.
  { apply spec_for_m, Forall_all. intros _.
    eapply spec_bind; [now apply spec_tx_outputs|]. intros outs Houts.
    eapply spec_bind; [now apply spec_alloc|]. intros ph Hph.
    now apply spec_list_append. }
  intros _ _.
  eapply spec_bind; [now apply spec_tx_outputs|]. intros outs Houts.
  now apply spec_list_append.
Qed.

Lemma spec_apply_sighash_type (tmp : loc) (i sighash : Z) :
  fresh_loc tmp -> spec (HeapTx.apply_sighash_type tmp i sighash) (fun _ => True).
Proof.
  intros Htmp. unfold HeapTx.apply_sighash_type.
  destruct (Z.land sighash 31 =? SIGHASH_NONE).
  - eapply spec_bind; [now apply spec_alloc; constructor|]. intros new Hnew.
    eapply spec_bind; [now apply spec_set_tx_outputs|]. intros _ _.
    now apply spec_zero_other_sequences.
  - destruct (Z.land sighash 31 =? SIGHASH_SINGLE); [|now apply spec_ret].
    eapply spec_bind; [now apply spec_tx_outputs|]. intros outs Houts.
    eapply spec_bind; [apply spec_list_len|]. intros n _.
    destruct (n <=? i); [apply spec_raise|].
    eapply spec_bind; [now apply spec_tx_outputs|]. intros outs' Houts'.
    eapply spec_bind; [now apply spec_list_index|]. intros txout Htxout.
    eapply spec_bind; [now apply spec_alloc; constructor|]. intros new Hnew.
    eapply spec_bind; [now apply spec_set_tx_outputs|]. intros _ _.
    eapply spec_bind; [now apply spec_append_single_outputs|]. intros _ _.
    now apply spec_zero_other_sequences.
Qed.

Lemma spec_apply_anyone_can_pay (tmp : loc) (i sighash : Z) :
  fresh_loc tmp ->
  spec (HeapTx.apply_anyone_can_pay tmp i sighash) (fun _ => True).
Proof.
  intros Htmp. unfold HeapTx.apply_anyone_can_pay.
  destruct (negb _); [|now apply spec_ret].
  eapply spec_bind; [now apply spec_tx_inputs|]. intros ins Hins.
  eapply spec_bind; [now apply spec_list_index|]. intros txin Htxin.
  eapply spec_bind; [apply spec_alloc; now repeat constructor|].
  intros new Hnew. now apply spec_set_tx_inputs.
Qed.

(** The three digests keep the invariant. *)
Lemma spec_get_transaction_digest (self : loc) (i : Z) (s : Script.t)
    (sighash : Z) :
  spec (HeapTx.get_transaction_digest self i s sighash) (fun _ => True).
Proof.
  unfold HeapTx.get_transaction_digest.
  eapply spec_bind; [apply spec_Transaction_copy|]. intros tmp Htmp.
  eapply spec_bind; [now apply spec_clear_script_sigs|]. intros _ _.
  eapply spec_bind; [now apply spec_set_signed_script|]. intros _ _.
  eapply spec_bind; [now apply spec_apply_sighash_type|]. intros _ _.
  eapply spec_bind; [now apply spec_apply_anyone_can_pay|]. intros _ _.
  eapply spec_bind; [apply spec_load_body|]. intros tmpv _.
  eapply spec_bind; [apply spec_lift|]. intros b _.
  eapply spec_bind; [apply spec_lift|]. intros h _.
  now apply spec_ret.
Qed.

Lemma spec_get_transaction_segwit_digest (self : loc) (i : Z)
    (s : Script.t) (a sighash : Z) :
  spec (HeapTx.get_transaction_segwit_digest self i s a sighash)
    (fun _ => True).
Proof.
  unfold HeapTx.get_transaction_segwit_digest.
  eapply spec_bind; [apply spec_Transaction_copy|]. intros tmp Htmp.
  eapply spec_bind; [apply spec_load_body|]. intros tmpv _.
  eapply spec_bind; [apply spec_load_body|]. intros this _.
  eapply spec_bind; [apply spec_lift|]. intros b _.
  now apply spec_ret.
Qed.

Lemma spec_get_transaction_taproot_digest (self : loc) (i : Z)
    (spks : list Script.t) (amts : list Z) (ext_flag : Z) (s : Script.t)
    (leaf_ver sighash : Z) :
  spec (HeapTx.get_transaction_taproot_digest self i spks amts ext_flag s
          leaf_ver sighash)
    (fun _ => True).
Proof.
  unfold HeapTx.get_transaction_taproot_digest.
  eapply spec_bind; [apply spec_Transaction_copy|]. intros tmp Htmp.
  eapply spec_bind; [apply spec_load_body|]. intros tmpv _.
  eapply spec_bind; [apply spec_load_body|]. intros this _.
  eapply spec_bind; [apply spec_lift|]. intros b _.
  now apply spec_ret.
Qed.

End FrameRules.

(** Reading the value of a transaction. *)
Section Reads.

Import Heap.

Lemma reads_ret {A} (a : A) : Frame.reads (ret a).
Proof. intros st. split; [reflexivity|]. intros st' b _ H. exact H. Qed.

Lemma reads_bind {A B} (m : M A) (k : A -> M B) :
  Frame.reads m -> (forall a, Frame.reads (k a)) -> Frame.reads (mbind m k).
Proof.
  intros Hm Hk st. destruct (Hm st) as [Hsnd Hfst]. unfold mbind.
  destruct (m st) as [[a|e] st1] eqn:E; cbn [fst snd] in *; subst st1.
  - split; [apply (Hk a)|]. intros st' b Hsub Hb.
    specialize (Hfst st' a Hsub eq_refl).
    destruct (Hm st') as [Hsnd' _].
    destruct (m st') as [r st1']; cbn [fst snd] in *; subst.
    exact (proj2 (Hk a st) st' b Hsub Hb).
  - split; [reflexivity|]. intros st' b _ Hb. discriminate Hb.
Qed.

Lemma reads_get_txinput (l : loc) : Frame.reads (get_txinput l).
Proof.
  intros st. unfold get_txinput. split.
  - destruct (st !! l) as [[]|]; reflexivity.
  - intros st' a Hsub. destruct (st !! l) as [o|] eqn:E; [|discriminate].
    rewrite (lookup_weaken _ _ _ _ E Hsub). destruct o; auto.
Qed.

Lemma reads_get_txoutput (l : loc) : Frame.reads (get_txoutput l).
Proof.
  intros st. unfold get_txoutput. split.
  - destruct (st !! l) as [[]|]; reflexivity.
  - intros st' a Hsub. destruct (st !! l) as [o|] eqn:E; [|discriminate].
    rewrite (lookup_weaken _ _ _ _ E Hsub). destruct o; auto.
Qed.

Lemma reads_get_stack (l : loc) : Frame.reads (get_stack l).
Proof.
  intros st. unfold get_stack. split.
  - destruct (st !! l) as [[]|]; reflexivity.
  - intros st' a Hsub. destruct (st !! l) as [o|] eqn:E; [|discriminate].
    rewrite (lookup_weaken _ _ _ _ E Hsub). destruct o; auto.
Qed.

Lemma reads_get_strlist (l : loc) : Frame.reads (get_strlist l).
Proof.
  intros st. unfold get_strlist. split.
  - destruct (st !! l) as [[]|]; reflexivity.
  - intros st' a Hsub. destruct (st !! l) as [o|] eqn:E; [|discriminate].
    rewrite (lookup_weaken _ _ _ _ E Hsub). destruct o; auto.
Qed.

Lemma reads_get_list (l : loc) : Frame.reads (get_list l).
Proof.
  intros st. unfold get_list. split.
  - destruct (st !! l) as [[]|]; reflexivity.
  - intros st' a Hsub. destruct (st !! l) as [o|] eqn:E; [|discriminate].
    rewrite (lookup_weaken _ _ _ _ E Hsub). destruct o; auto.
Qed.

Lemma reads_get_tx (l : loc) : Frame.reads (get_tx l).
Proof.
  intros st. unfold get_tx. split.
  - destruct (st !! l) as [[]|]; reflexivity.
  - intros st' a Hsub. destruct (st !! l) as [o|] eqn:E; [|discriminate].
    rewrite (lookup_weaken _ _ _ _ E Hsub). destruct o; auto.
Qed.

Lemma reads_map_M {A B} (f : A -> M B) (xs : list A) :
  (forall x, Frame.reads (f x)) -> Frame.reads (HeapTx.map_M f xs).
Proof.
  intros Hf. induction xs as [|x xs IH]; cbn [HeapTx.map_M].
  - apply reads_ret.
  - apply reads_bind; [apply Hf|]. intros y.
    apply reads_bind; [exact IH|]. intros ys. apply reads_ret.
Qed.

Lemma reads_load_witness (l : loc) : Frame.reads (HeapTx.load_witness l).
Proof.
  apply reads_bind; [apply reads_get_stack|]. intros s.
  apply reads_bind; [apply reads_get_strlist|]. intros items.
  apply reads_ret.
Qed.

Lemma reads_load_tx (l : loc) : Frame.reads (HeapTx.load_tx l).
Proof.
  unfold HeapTx.load_tx.
  apply reads_bind; [apply reads_get_tx|]. intros o.
  apply reads_bind; [apply reads_get_list|]. intros items.
  apply reads_bind; [apply reads_map_M, reads_get_txinput|]. intros ins.
  apply reads_bind; [apply reads_get_list|]. intros items'.
  apply reads_bind; [apply reads_map_M, reads_get_txoutput|]. intros outs.
  apply reads_bind; [apply reads_get_list|]. intros items''.
  apply reads_bind; [apply reads_map_M, reads_load_witness|]. intros wits.
  apply reads_ret.
Qed.

(** A computation that keeps the invariant leaves every object of the
    initial store, and the value of the transaction, as they were. *)
Lemma spec_unchanged {A} (st : store) (self : loc) (m : M A)
    (P : A -> Prop) :
  Frame.spec st m P -> Frame.unchanged st self (m st).
Proof.
  intros Hm. specialize (Hm st (inv_init st)).
  assert (Hsub : st ⊆ snd (m st)).
  { destruct (m st) as [[a|e] st']; cbn [snd]; [apply Hm | apply Hm]. }
  split.
  - intros l o Hl. exact (lookup_weaken _ _ _ _ Hl Hsub).
  - intros v Hv. exact (proj2 (reads_load_tx self st) _ v Hsub Hv).
Qed.

End Reads.

(** C9: a call to [get_transaction_digest], [get_transaction_segwit_digest]
    or [get_transaction_taproot_digest] on the transaction object [self],
    whether it returns a digest or raises, leaves every object that existed
    before the call as it was: the transaction, its lists of inputs,
    outputs and witnesses, and each input, output and witness stack; the
    value read from [self] after the call is the value read before it. *)
Theorem digests_leave_transaction_unchanged (st : Heap.store)
    (self : Heap.loc) (i : Z) (s : Script.t) (sighash a ext_flag leaf_ver : Z)
    (spks : list Script.t) (amts : list Z) :
  Frame.unchanged st self (HeapTx.get_transaction_digest self i s sighash st)
  /\ Frame.unchanged st self
       (HeapTx.get_transaction_segwit_digest self i s a sighash st)
  /\ Frame.unchanged st self
       (HeapTx.get_transaction_taproot_digest self i spks amts ext_flag s
          leaf_ver sighash st).
Proof.
  split; [|split].
  - eapply spec_unchanged, spec_get_transaction_digest.
  - eapply spec_unchanged, spec_get_transaction_segwit_digest.
  - eapply spec_unchanged, spec_get_transaction_taproot_digest.
Qed.

(** ** The model evaluated *)

(** [hashlib.sha256] on the FIPS 180-4 test message, on the empty message
    and across a block boundary. *)
Example sha256_abc :
  hex (sha256 (str_encode "abc"))
  = "ba7816bf8f01cfea414140de5dae2223b00361a396177a9cb410ff61f20015ad"%string.
Proof. vm_compute. reflexivity. Qed.

Example sha256_empty :
  hex (sha256 [])
  = "e3b0c44298fc1c149afbf4c8996fb92427ae41e4649b934ca495991b7852b855"%string.
Proof. vm_compute. reflexivity. Qed.

Example sha256_56_bytes :
  hex (sha256 (repeat Byte.x61 56))
  = "b35439a4ac6f0948b6d6f9e3c6af0f5f590ce20f1bde7090ef7970686ec6738a"%string.
Proof. vm_compute. reflexivity. Qed.

Example sha256_119_bytes :
  hex (sha256 (repeat Byte.x61 119))
  = "31eba51c313a5c08226adf18d4a359cfdfd8d2e816b13f4af952f7ea6584dcfb"%string.
Proof. vm_compute. reflexivity. Qed.

(** The serialisation of the example transaction, and the three field
    hashes of its BIP-143 preimage for input 1. *)
Example example_tx_bytes :
  to_bytes Examples.tx false
  = Ok (Examples.unhex
          ("0100000002fff7f7881a8099afa6940d42d1e7f6362bec38171ea3edf433541db4"
           ++ "e4ad969f0000000000eeffffffef51e1b804cc89d182d279655c3aa89e815b1b"
           ++ "309fe287d9b2b55d57b90ec68a0100000000ffffffff02202cb2060000000019"
           ++ "76a9148280b37df378db99f66f85c95a783a76ac7a6d5988ac9093510d000000"
           ++ "001976a9143bde42dbee7e4dbe6a21b2d50ce2f0167faa815988ac11000000")).
Proof. vm_compute. reflexivity. Qed.

Example example_tx_segwit_hashes :
  hex (Bip143.hashPrevouts Examples.tx false)
  = "96b827c8483d4e9b96712b6713a7b68d6e8003a781feba36c31143470b4efd37"%string
  /\ hex (Bip143.hashSequence Examples.tx false true)
     = "52b0a642eea2fb7ae638c36f6252b6750293dbe574a806984b8e4d8548339a3b"%string
  /\ hex (Bip143.hashOutputs Examples.tx 1 1 true)
     = "863ef3e1a92afbfdb97f31ad0fc7683ee943e9abcf2501590ff8f6551f47e5e5"%string.
Proof. vm_compute. repeat split. Qed.

(** The digests computed on the object store are those computed on the
    value, and the transaction reads back unchanged. *)
Example store_digests_on_example :
  forall st self,
    HeapTx.new_tx Examples.tx ∅ = (Ok self, st) ->
    fst (HeapTx.get_transaction_digest self 1 Examples.script_code 3 st)
    = get_transaction_digest Examples.tx 1 Examples.script_code 3
    /\ fst (HeapTx.get_transaction_digest self 0 Examples.script_code 130 st)
       = get_transaction_digest Examples.tx 0 Examples.script_code 130
    /\ fst (HeapTx.get_transaction_segwit_digest self 1 Examples.script_code
              600000000 1 st)
       = get_transaction_segwit_digest Examples.tx 1 Examples.script_code
           600000000 1
    /\ fst (HeapTx.load_tx self
              (snd (HeapTx.get_transaction_digest self 1 Examples.script_code
                      3 st)))
       = Ok Examples.tx.
Proof.
  intros st self H. vm_compute in H. injection H as <- <-.
  vm_compute. repeat split.
Qed.


(** ** The digests on the object store compute the digests on values *)

Section Refinement.

Import Heap.

Lemma mbind_ok {A B} (m : M A) (k : A -> M B) (st st1 : store) (a : A) :
  m st = (Ok a, st1) -> mbind m k st = k a st1.
Proof. intros H. unfold mbind. now rewrite H. Qed.

Lemma mbind_raise {A B} (m : M A) (k : A -> M B) (st st1 : store) (e : exn) :
  m st = (Raise e, st1) -> mbind m k st = (Raise e, st1).
Proof. intros H. unfold mbind. now rewrite H. Qed.

Lemma mbind_fst_ok {A B} (m : M A) (k : A -> M B) (st : store) (b : B) :
  fst (mbind m k st) = Ok b ->
  exists a st1, m st = (Ok a, st1) /\ fst (k a st1) = Ok b.
Proof.
  unfold mbind. destruct (m st) as [[a|e] st1]; [eauto | discriminate].
Qed.

Lemma get_tx_ok (st : store) (l : loc) (o : tx_obj) :
  st !! l = Some (OTransaction o) -> get_tx l st = (Ok o, st).
Proof. intros H. unfold get_tx. now rewrite H. Qed.

Lemma get_list_ok (st : store) (l : loc) (items : list loc) :
  st !! l = Some (OList items) -> get_list l st = (Ok items, st).
Proof. intros H. unfold get_list. now rewrite H. Qed.

Lemma get_txinput_ok (st : store) (l : loc) (x : TxInput.t) :
  st !! l = Some (OTxInput x) -> get_txinput l st = (Ok x, st).
Proof. intros H. unfold get_txinput. now rewrite H. Qed.

Lemma get_txoutput_ok (st : store) (l : loc) (y : TxOutput.t) :
  st !! l = Some (OTxOutput y) -> get_txoutput l st = (Ok y, st).
Proof. intros H. unfold get_txoutput. now rewrite H. Qed.

Lemma get_tx_inv (st st1 : store) (l : loc) (o : tx_obj) :
  get_tx l st = (Ok o, st1) -> st !! l = Some (OTransaction o) /\ st1 = st.
Proof.
  unfold get_tx. destruct (st !! l) as [[]|]; intros [= <- <-] || discriminate.
  auto.
Qed.

Lemma get_list_inv (st st1 : store) (l : loc) (items : list loc) :
  get_list l st = (Ok items, st1) -> st !! l = Some (OList items) /\ st1 = st.
Proof.
  unfold get_list. destruct (st !! l) as [[]|]; intros [= <- <-] || discriminate.
  auto.
Qed.

Lemma get_txinput_inv (st st1 : store) (l : loc) (x : TxInput.t) :
  get_txinput l st = (Ok x, st1) -> st !! l = Some (OTxInput x) /\ st1 = st.
Proof.
  unfold get_txinput.
  destruct (st !! l) as [[]|]; intros [= <- <-] || discriminate. auto.
Qed.

Lemma get_txoutput_inv (st st1 : store) (l : loc) (y : TxOutput.t) :
  get_txoutput l st = (Ok y, st1) -> st !! l = Some (OTxOutput y) /\ st1 = st.
Proof.
  unfold get_txoutput.
  destruct (st !! l) as [[]|]; intros [= <- <-] || discriminate. auto.
Qed.

Lemma get_stack_inv (st st1 : store) (l s : loc) :
  get_stack l st = (Ok s, st1) ->
  st !! l = Some (OTxWitnessInput s) /\ st1 = st.
Proof.
  unfold get_stack.
  destruct (st !! l) as [[]|]; intros [= <- <-] || discriminate. auto.
Qed.

(** Reading a list of objects one by one. *)
Lemma map_M_reads_ok {A} (get : loc -> M A) (P : store -> loc -> A -> Prop)
    (st : store) (ls : list loc) (xs : list A) :
  (forall l x, P st l x -> get l st = (Ok x, st)) ->
  Forall2 (P st) ls xs -> HeapTx.map_M get ls st = (Ok xs, st).
Proof.
  intros Hget. induction 1 as [|l x ls xs Hl _ IH]; [reflexivity|].
  cbn [HeapTx.map_M].
  rewrite (mbind_ok _ _ _ _ _ (Hget l x Hl)).
  rewrite (mbind_ok _ _ _ _ _ IH). reflexivity.
Qed.

Lemma map_M_reads_inv {A} (get : loc -> M A) (P : store -> loc -> A -> Prop)
    (st st1 : store) (ls : list loc) (xs : list A) :
  (forall st st1 l x, get l st = (Ok x, st1) -> P st l x /\ st1 = st) ->
  HeapTx.map_M get ls st = (Ok xs, st1) ->
  Forall2 (P st) ls xs /\ st1 = st.
Proof.
  intros Hget. revert xs st1. induction ls as [|l ls IH]; intros xs st1.
  - cbn. intros [= <- <-]. split; [constructor | reflexivity].
  - cbn [HeapTx.map_M]. unfold mbind at 1.
    destruct (get l st) as [[x|e] st2] eqn:E; [|discriminate].
    apply Hget in E as [Hx ->]. unfold mbind at 1.
    destruct (HeapTx.map_M get ls st) as [[xs'|e] st3] eqn:E'; [|discriminate].
    destruct (IH xs' st3 eq_refl) as [Hxs ->].
    cbn. intros [= <- <-]. split; [now constructor | reflexivity].
Qed.

Lemma alloc_run (o : obj) (st : store) :
  alloc o st = (Ok (fresh (dom st)), <[fresh (dom st) := o]> st)
  /\ st !! fresh (dom st) = None.
Proof. split; [reflexivity|]. apply not_elem_of_dom, is_fresh. Qed.

(** Copying a list of objects: new, pairwise distinct objects with the
    values of the originals. *)
Lemma map_M_copies {A} (get : loc -> M A) (mk : A -> obj)
    (P : store -> loc -> A -> Prop) (ls : list loc) (xs : list A) :
  (forall st l x, P st l x -> get l st = (Ok x, st)) ->
  (forall st st' l x, st ⊆ st' -> P st l x -> P st' l x) ->
  forall st, Forall2 (P st) ls xs ->
  exists ls' st',
    HeapTx.map_M (fun l => let! v := get l in alloc (mk v)) ls st
    = (Ok ls', st')
    /\ st ⊆ st'
    /\ Forall2 (fun l x => st' !! l = Some (mk x)) ls' xs
    /\ NoDup ls'
    /\ Forall (fun l => st !! l = None) ls'.
Proof.
  intros Hget Hmono. revert xs. induction ls as [|l ls IH]; intros xs st H.
  - apply Forall2_nil_inv_l in H as ->. exists [], st. cbn.
    repeat split; try constructor. reflexivity.
  - apply Forall2_cons_inv_l in H as (x & xs' & Hx & Hxs & ->).
    cbn [HeapTx.map_M].
    destruct (alloc_run (mk x) st) as [Ha Hfresh].
    set (l' := fresh (dom st)) in *. set (st1 := <[l' := mk x]> st) in *.
    assert (Hsub1 : st ⊆ st1) by now apply insert_subseteq.
    destruct (IH xs' st1) as (ls'' & st' & Hrun & Hsub & Hall & Hnd & Hnone).
    { eapply Forall2_impl; [exact Hxs|]. intros l0 x0. now apply Hmono. }
    exists (l' :: ls''), st'.
    rewrite (mbind_ok _ _ st st1 l').
    2:{ rewrite (mbind_ok _ _ _ _ _ (Hget _ _ _ Hx)). exact Ha. }
    rewrite (mbind_ok _ _ _ _ _ Hrun). cbn [ret].
    split; [reflexivity|]. split; [now transitivity st1|].
    assert (Hl' : st1 !! l' = Some (mk x)) by apply lookup_insert_eq.
    split; [constructor; [exact (lookup_weaken _ _ _ _ Hl' Hsub) | exact Hall]|].
    split.
    + constructor; [|exact Hnd]. intros Hin.
      rewrite Forall_forall in Hnone. specialize (Hnone _ Hin). congruence.
    + constructor; [exact Hfresh|]. eapply Forall_impl; [exact Hnone|].
      intros l0 Hl0. cbv beta in Hl0.
      destruct (st !! l0) as [o|] eqn:E; [|reflexivity].
      rewrite (lookup_weaken _ _ _ _ E Hsub1) in Hl0. discriminate.
Qed.

Lemma Forall2_exists_r {A B C} (Q : A -> C -> Prop) (R : A -> B -> C -> Prop)
    (ls : list A) (ws : list B) :
  Forall2 (fun l w => exists s, Q l s /\ R l w s) ls ws ->
  exists ss, Forall2 Q ls ss.
Proof.
  induction 1 as [|l w ls ws (s & Hs & _) _ (ss & IH)].
  - exists []. constructor.
  - exists (s :: ss). now constructor.
Qed.

Lemma load_witness_inv (st st1 : store) (l : loc) (w : TxWitnessInput.t) :
  HeapTx.load_witness l st = (Ok w, st1) ->
  (exists s, st !! l = Some (OTxWitnessInput s)
             /\ st !! s = Some (OStrList (TxWitnessInput.stack w)))
  /\ st1 = st.
Proof.
  unfold HeapTx.load_witness, mbind.
  destruct (get_stack l st) as [[s|e] st2] eqn:E; [|discriminate].
  apply get_stack_inv in E as [Hs ->].
  unfold get_strlist. destruct (st !! s) as [[]|] eqn:E'; try discriminate.
  cbn. intros [= <- <-]. split; [|reflexivity]. exists s. auto.
Qed.

(** What a successful [load_tx] says of the store. *)
Lemma load_tx_inv (st : store) (self : loc) (v : Transaction.t) :
  fst (HeapTx.load_tx self st) = Ok v ->
  exists o ils ols wls ss,
    st !! self = Some (OTransaction o)
    /\ o_locktime o = locktime v /\ o_version o = version v
    /\ o_has_segwit o = has_segwit v
    /\ st !! o_inputs o = Some (OList ils)
    /\ Forall2 (fun l x => st !! l = Some (OTxInput x)) ils (inputs v)
    /\ st !! o_outputs o = Some (OList ols)
    /\ Forall2 (fun l y => st !! l = Some (OTxOutput y)) ols (outputs v)
    /\ st !! o_witnesses o = Some (OList wls)
    /\ Forall2 (fun l s => st !! l = Some (OTxWitnessInput s)) wls ss.
Proof.
  unfold HeapTx.load_tx. intros H.
  apply mbind_fst_ok in H as (o & st1 & Ho & H).
  apply get_tx_inv in Ho as [Ho ->].
  apply mbind_fst_ok in H as (ils & st1 & Hils & H).
  apply get_list_inv in Hils as [Hils ->].
  apply mbind_fst_ok in H as (ins & st1 & Hins & H).
  apply (map_M_reads_inv get_txinput
           (fun st l x => st !! l = Some (OTxInput x))) in Hins as [Hins ->];
    [|exact get_txinput_inv].
  apply mbind_fst_ok in H as (ols & st1 & Hols & H).
  apply get_list_inv in Hols as [Hols ->].
  apply mbind_fst_ok in H as (outs & st1 & Houts & H).
  apply (map_M_reads_inv get_txoutput
           (fun st l y => st !! l = Some (OTxOutput y))) in Houts as [Houts ->];
    [|exact get_txoutput_inv].
  apply mbind_fst_ok in H as (wls & st1 & Hwls & H).
  apply get_list_inv in Hwls as [Hwls ->].
  apply mbind_fst_ok in H as (wits & st1 & Hwits & H).
  apply (map_M_reads_inv HeapTx.load_witness
           (fun st l w =>
              exists s, st !! l = Some (OTxWitnessInput s)
                        /\ st !! s = Some (OStrList (TxWitnessInput.stack w))))
    in Hwits as [Hwits ->]; [|exact load_witness_inv].
  cbn in H. injection H as <-. cbn [locktime version has_segwit inputs outputs].
  destruct (Forall2_exists_r _ _ _ _ Hwits) as [ss Hss].
  exists o, ils, ols, wls, ss. repeat split; assumption.
Qed.

Lemma Forall2_weaken {A} (mk : A -> obj) (st st' : store) (ls : list loc)
    (xs : list A) :
  st ⊆ st' ->
  Forall2 (fun l x => st !! l = Some (mk x)) ls xs ->
  Forall2 (fun l x => st' !! l = Some (mk x)) ls xs.
Proof.
  intros Hsub H. eapply Forall2_impl; [exact H|].
  intros l x Hl. exact (lookup_weaken _ _ _ _ Hl Hsub).
Qed.

(** [Transaction.copy] returns a new transaction object of the same value
    whose input objects are pairwise distinct. *)
Lemma Transaction_copy_run (st : store) (self : loc) (v : Transaction.t) :
  fst (HeapTx.load_tx self st) = Ok v ->
  exists tmp sh st',
    HeapTx.Transaction_copy self st = (Ok tmp, st')
    /\ st ⊆ st'
    /\ Clone.unshared st' tmp sh v.
Proof.
  intros H.
  apply load_tx_inv in H
    as (o & ils & ols & wls & ss & Ho & Hlt & Hver & Hsw & Hils & Hins
        & Hols & Houts & Hwls & Hwits).
  unfold HeapTx.Transaction_copy.
  rewrite (mbind_ok _ _ _ _ _ (get_tx_ok _ _ _ Ho)).
  rewrite (mbind_ok _ _ _ _ _ (get_list_ok _ _ _ Hils)).
  destruct (map_M_copies get_txinput (fun x => OTxInput (TxInput.copy x))
              (fun st l x => st !! l = Some (OTxInput x)) ils (inputs v)
              get_txinput_ok
              (fun st st' l x Hsub Hl => lookup_weaken _ _ _ _ Hl Hsub)
              st Hins)
    as (ls1 & st1 & Hrun1 & Hsub1 & Hall1 & Hnd1 & _).
  change (HeapTx.map_M HeapTx.TxInput_copy ils st = (Ok ls1, st1)) in Hrun1.
  rewrite (mbind_ok _ _ _ _ _ Hrun1).
  destruct (alloc_run (OList ls1) st1) as [Ha2 Hf2].
  set (l_in := fresh (dom st1)) in *. set (st2 := <[l_in := OList ls1]> st1) in *.
  rewrite (mbind_ok _ _ _ _ _ Ha2).
  assert (Hsub2 : st ⊆ st2). { transitivity st1; [exact Hsub1 | now apply insert_subseteq]. }
  rewrite (mbind_ok _ _ _ _ _ (get_list_ok _ _ _ (lookup_weaken _ _ _ _ Hols Hsub2))).
  destruct (map_M_copies get_txoutput (fun y => OTxOutput (TxOutput.copy y))
              (fun st l y => st !! l = Some (OTxOutput y)) ols (outputs v)
              get_txoutput_ok
              (fun st st' l x Hsub Hl => lookup_weaken _ _ _ _ Hl Hsub)
              st2 (Forall2_weaken OTxOutput _ _ _ _ Hsub2 Houts))
    as (ls2 & st3 & Hrun3 & Hsub3 & Hall3 & _ & _).
  change (HeapTx.map_M HeapTx.TxOutput_copy ols st2 = (Ok ls2, st3)) in Hrun3.
  rewrite (mbind_ok _ _ _ _ _ Hrun3).
  destruct (alloc_run (OList ls2) st3) as [Ha4 Hf4].
  set (l_out := fresh (dom st3)) in *.
  set (st4 := <[l_out := OList ls2]> st3) in *.
  rewrite (mbind_ok _ _ _ _ _ Ha4).
  assert (Hsub34 : st3 ⊆ st4) by now apply insert_subseteq.
  assert (Hsub4 : st ⊆ st4).
  { transitivity st2; [exact Hsub2|]. now transitivity st3. }
  rewrite (mbind_ok _ _ _ _ _ (get_list_ok _ _ _ (lookup_weaken _ _ _ _ Hwls Hsub4))).
  destruct (map_M_copies get_stack OTxWitnessInput
              (fun st l s => st !! l = Some (OTxWitnessInput s)) wls ss
              (fun st l s Hl => ltac:(unfold get_stack; now rewrite Hl))
              (fun st st' l x Hsub Hl => lookup_weaken _ _ _ _ Hl Hsub)
              st4 (Forall2_weaken OTxWitnessInput _ _ _ _ Hsub4 Hwits))
    as (ls5 & st5 & Hrun5 & Hsub5 & _ & _ & _).
  change (HeapTx.map_M HeapTx.TxWitnessInput_copy wls st4 = (Ok ls5, st5))
    in Hrun5.
  rewrite (mbind_ok _ _ _ _ _ Hrun5).
  destruct (alloc_run (OList ls5) st5) as [Ha6 Hf6].
  set (l_wit := fresh (dom st5)) in *.
  set (st6 := <[l_wit := OList ls5]> st5) in *.
  rewrite (mbind_ok _ _ _ _ _ Ha6).
  assert (Hsub56 : st5 ⊆ st6) by now apply insert_subseteq.
  set (obj7 := OTransaction _).
  destruct (alloc_run obj7 st6) as [Ha7 Hf7].
  set (tmp := fresh (dom st6)) in *. set (st7 := <[tmp := obj7]> st6) in *.
  assert (Hsub67 : st6 ⊆ st7) by now apply insert_subseteq.
  assert (Hsub27 : st2 ⊆ st7).
  { transitivity st3; [exact Hsub3|]. transitivity st4; [exact Hsub34|].
    transitivity st5; [exact Hsub5|]. now transitivity st6. }
  assert (Hsub47 : st4 ⊆ st7).
  { transitivity st5; [exact Hsub5|]. now transitivity st6. }
  exists tmp, (Clone.Shape l_in l_out ls1 ls2), st7.
  split; [exact Ha7|]. split; [now transitivity st2|].
  assert (Hlin : st2 !! l_in = Some (OList ls1)) by apply lookup_insert_eq.
  assert (Hlout : st4 !! l_out = Some (OList ls2)) by apply lookup_insert_eq.
  split; [|exact Hnd1]. unfold Clone.holds. cbn [Clone.li Clone.lo Clone.ils Clone.ols].
  split.
  { exists l_wit. unfold st7. rewrite lookup_insert_eq. unfold obj7.
    now rewrite Hlt, Hver, Hsw. }
  split; [exact (lookup_weaken _ _ _ _ Hlin Hsub27)|].
  split; [exact (lookup_weaken _ _ _ _ Hlout Hsub47)|].
  split.
  { intros Heq. assert (Hc : st3 !! l_in = Some (OList ls1))
      by exact (lookup_weaken _ _ _ _ Hlin Hsub3).
    rewrite Heq in Hc. congruence. }
  split.
  - eapply Forall2_impl; [exact Hall1|]. intros l x Hl. cbv beta in Hl.
    rewrite TxInput_copy_id in Hl.
    refine (lookup_weaken _ _ _ _ Hl _).
    transitivity st2; [now apply insert_subseteq | exact Hsub27].
  - eapply Forall2_impl; [exact Hall3|]. intros l y Hl. cbv beta in Hl.
    rewrite TxOutput_copy_id in Hl.
    refine (lookup_weaken _ _ _ _ Hl _).
    transitivity st4; [exact Hsub34 | exact Hsub47].
Qed.

Lemma load_body_run (st : store) (tx : loc) (o : tx_obj)
    (ils ols : list loc) (xs : list TxInput.t) (ys : list TxOutput.t) :
  st !! tx = Some (OTransaction o) ->
  st !! o_inputs o = Some (OList ils) ->
  Forall2 (fun l x => st !! l = Some (OTxInput x)) ils xs ->
  st !! o_outputs o = Some (OList ols) ->
  Forall2 (fun l y => st !! l = Some (OTxOutput y)) ols ys ->
  HeapTx.load_body tx st
  = (Ok (Transaction.mk xs ys (o_locktime o) (o_version o) (o_has_segwit o)
           []), st).
Proof.
  intros Ho Hils Hxs Hols Hys. unfold HeapTx.load_body.
  rewrite (mbind_ok _ _ _ _ _ (get_tx_ok _ _ _ Ho)).
  rewrite (mbind_ok _ _ _ _ _ (get_list_ok _ _ _ Hils)).
  rewrite (mbind_ok _ _ _ _ _
             (map_M_reads_ok get_txinput
                (fun st l x => st !! l = Some (OTxInput x)) st ils xs
                (get_txinput_ok st) Hxs)).
  rewrite (mbind_ok _ _ _ _ _ (get_list_ok _ _ _ Hols)).
  rewrite (mbind_ok _ _ _ _ _
             (map_M_reads_ok get_txoutput
                (fun st l y => st !! l = Some (OTxOutput y)) st ols ys
                (get_txoutput_ok st) Hys)).
  reflexivity.
Qed.

Lemma holds_load_body (st : store) (tx : loc) (sh : Clone.shape)
    (v : Transaction.t) :
  Clone.holds st tx sh v ->
  HeapTx.load_body tx st = (Ok (Clone.body v), st).
Proof.
  intros ([lw Htx] & Hli & Hlo & _ & Hxs & Hys).
  exact (load_body_run st tx _ _ _ _ _ Htx Hli Hxs Hlo Hys).
Qed.

Lemma load_tx_load_body (st st' : store) (self : loc) (v : Transaction.t) :
  fst (HeapTx.load_tx self st) = Ok v -> st ⊆ st' ->
  HeapTx.load_body self st' = (Ok (Clone.body v), st').
Proof.
  intros H Hsub.
  apply load_tx_inv in H
    as (o & ils & ols & wls & ss & Ho & Hlt & Hver & Hsw & Hils & Hins
        & Hols & Houts & _).
  rewrite (load_body_run st' self o ils ols (inputs v) (outputs v)
             (lookup_weaken _ _ _ _ Ho Hsub)
             (lookup_weaken _ _ _ _ Hils Hsub)
             (Forall2_weaken OTxInput _ _ _ _ Hsub Hins)
             (lookup_weaken _ _ _ _ Hols Hsub)
             (Forall2_weaken OTxOutput _ _ _ _ Hsub Houts)).
  unfold Clone.body. now rewrite Hlt, Hver, Hsw.
Qed.

(** The digests read no witness. *)
Lemma segwit_preimage_on_body (v : Transaction.t) (i : Z) (s : Script.t)
    (a sighash : Z) :
  segwit_preimage_on (Clone.body v) (Clone.body v) i s a sighash
  = segwit_preimage v i s a sighash.
Proof.
  unfold segwit_preimage. rewrite Transaction_copy_id. now destruct v.
Qed.

Lemma taproot_preimage_on_body (v : Transaction.t) (i : Z)
    (spks : list Script.t) (amts : list Z) (ext_flag : Z) (s : Script.t)
    (leaf_ver sighash : Z) :
  taproot_preimage_on (Clone.body v) (Clone.body v) i spks amts ext_flag s
    leaf_ver sighash
  = taproot_preimage v i spks amts ext_flag s leaf_ver sighash.
Proof.
  unfold taproot_preimage. rewrite Transaction_copy_id. now destruct v.
Qed.

(** X2: the segwit v0 digest computed on a transaction object (the clone
    made, then the clone and [self] read) is the digest computed on the
    value of that object. *)
Lemma store_segwit_digest (st : store) (self : loc) (v : Transaction.t)
    (i : Z) (s : Script.t) (a sighash : Z) :
  fst (HeapTx.load_tx self st) = Ok v ->
  fst (HeapTx.get_transaction_segwit_digest self i s a sighash st)
  = get_transaction_segwit_digest v i s a sighash.
Proof.
  intros H.
  destruct (Transaction_copy_run st self v H)
    as (tmp & sh & st' & Hcopy & Hsub & [Hholds _]).
  unfold HeapTx.get_transaction_segwit_digest.
  rewrite (mbind_ok _ _ _ _ _ Hcopy).
  rewrite (mbind_ok _ _ _ _ _ (holds_load_body _ _ _ _ Hholds)).
  rewrite (mbind_ok _ _ _ _ _ (load_tx_load_body _ _ _ _ H Hsub)).
  unfold mbind, lift, get_transaction_segwit_digest.
  rewrite segwit_preimage_on_body.
  now destruct (segwit_preimage v i s a sighash).
Qed.

(** X3: the taproot digest computed on a transaction object is the digest
    computed on the value of that object. *)
Lemma store_taproot_digest (st : store) (self : loc) (v : Transaction.t)
    (i : Z) (spks : list Script.t) (amts : list Z) (ext_flag : Z)
    (s : Script.t) (leaf_ver sighash : Z) :
  fst (HeapTx.load_tx self st) = Ok v ->
  fst (HeapTx.get_transaction_taproot_digest self i spks amts ext_flag s
         leaf_ver sighash st)
  = get_transaction_taproot_digest v i spks amts ext_flag s leaf_ver sighash.
Proof.
  intros H.
  destruct (Transaction_copy_run st self v H)
    as (tmp & sh & st' & Hcopy & Hsub & [Hholds _]).
  unfold HeapTx.get_transaction_taproot_digest.
  rewrite (mbind_ok _ _ _ _ _ Hcopy).
  rewrite (mbind_ok _ _ _ _ _ (holds_load_body _ _ _ _ Hholds)).
  rewrite (mbind_ok _ _ _ _ _ (load_tx_load_body _ _ _ _ H Hsub)).
  unfold mbind, lift, get_transaction_taproot_digest.
  rewrite taproot_preimage_on_body.
  now destruct (taproot_preimage v i spks amts ext_flag s leaf_ver sighash).
Qed.

(** *** The legacy digest: the clone is mutated as the value is rebuilt *)

Lemma set_script_sig_run (st : store) (l : loc) (x : TxInput.t)
    (s : Script.t) :
  st !! l = Some (OTxInput x) ->
  HeapTx.set_script_sig l s st
  = (Ok tt, <[l := OTxInput (TxInput.set_script_sig s x)]> st).
Proof.
  intros H. unfold HeapTx.set_script_sig.
  now rewrite (mbind_ok _ _ _ _ _ (get_txinput_ok _ _ _ H)).
Qed.

Lemma set_sequence_run (st : store) (l : loc) (x : TxInput.t) (q : bytes) :
  st !! l = Some (OTxInput x) ->
  HeapTx.set_sequence l q st
  = (Ok tt, <[l := OTxInput (TxInput.set_sequence q x)]> st).
Proof.
  intros H. unfold HeapTx.set_sequence.
  now rewrite (mbind_ok _ _ _ _ _ (get_txinput_ok _ _ _ H)).
Qed.

Lemma tx_inputs_run (st : store) (tx : loc) (sh : Clone.shape)
    (v : Transaction.t) :
  Clone.holds st tx sh v -> HeapTx.tx_inputs tx st = (Ok (Clone.li sh), st).
Proof.
  intros ([lw Htx] & _). unfold HeapTx.tx_inputs.
  now rewrite (mbind_ok _ _ _ _ _ (get_tx_ok _ _ _ Htx)).
Qed.

Lemma tx_outputs_run (st : store) (tx : loc) (sh : Clone.shape)
    (v : Transaction.t) :
  Clone.holds st tx sh v -> HeapTx.tx_outputs tx st = (Ok (Clone.lo sh), st).
Proof.
  intros ([lw Htx] & _). unfold HeapTx.tx_outputs.
  now rewrite (mbind_ok _ _ _ _ _ (get_tx_ok _ _ _ Htx)).
Qed.

Lemma list_index_run (st : store) (l : loc) (items : list loc) (i : Z) :
  st !! l = Some (OList items) ->
  HeapTx.list_index l i st = (index items i, st).
Proof.
  intros H. unfold HeapTx.list_index.
  now rewrite (mbind_ok _ _ _ _ _ (get_list_ok _ _ _ H)).
Qed.

Lemma list_len_run (st : store) (l : loc) (items : list loc) :
  st !! l = Some (OList items) ->
  HeapTx.list_len l st = (Ok (len items), st).
Proof.
  intros H. unfold HeapTx.list_len.
  now rewrite (mbind_ok _ _ _ _ _ (get_list_ok _ _ _ H)).
Qed.

Lemma norm_index_same_length {A B} (l1 : list A) (l2 : list B) (i : Z) :
  length l1 = length l2 -> norm_index l1 i = norm_index l2 i.
Proof. intros H. unfold norm_index, len. now rewrite H. Qed.

Lemma norm_index_lt {A} (l : list A) (i : Z) (j : nat) :
  norm_index l i = Ok j -> (j < length l)%nat.
Proof.
  unfold norm_index, len.
  destruct (i <? 0) eqn:E1;
    destruct ((_ <? 0) || (_ <=? _)) eqn:E2; try discriminate;
    intros [= <-]; lia.
Qed.

(** Indexing the list of objects and the list of values. *)
Lemma index_related {A} (P : loc -> A -> Prop) (ls : list loc)
    (xs : list A) (i : Z) :
  Forall2 P ls xs ->
  match norm_index xs i with
  | Ok j =>
      exists l x, ls !! j = Some l /\ xs !! j = Some x /\ P l x
                  /\ index ls i = Ok l /\ index xs i = Ok x
  | Raise e => index ls i = Raise e /\ index xs i = Raise e
  end.
Proof.
  intros H. pose proof (Forall2_length _ _ _ H) as Hlen.
  unfold index. rewrite (norm_index_same_length ls xs i Hlen).
  destruct (norm_index xs i) as [j|e] eqn:E; [|split; reflexivity].
  apply norm_index_lt in E.
  destruct (lookup_lt_is_Some_2 xs j E) as [x Hx].
  destruct (Forall2_lookup_r _ _ _ _ _ H Hx) as (l & Hl & HP).
  exists l, x. cbn [Py.bind]. rewrite Hl, Hx. auto.
Qed.

(** Assigning to an attribute of the input object at position [j]. *)
Lemma unshared_update_input (st : store) (tmp : loc) (sh : Clone.shape)
    (v : Transaction.t) (j : nat) (l : loc) (x : TxInput.t)
    (g : TxInput.t -> TxInput.t) :
  Clone.unshared st tmp sh v ->
  Clone.ils sh !! j = Some l -> inputs v !! j = Some x ->
  Clone.unshared (<[l := OTxInput (g x)]> st) tmp sh
    (Clone.with_inputs (alter g j (inputs v)) v).
Proof.
  intros [([lw Htx] & Hli & Hlo & Hne & Hxs & Hys) Hnd] Hl Hx.
  pose proof (Forall2_lookup_lr _ _ _ _ _ _ Hxs Hl Hx) as Hlx.
  cbv beta in Hlx.
  split; [|exact Hnd]. unfold Clone.holds, Clone.with_inputs.
  cbn [inputs outputs locktime version has_segwit].
  split; [exists lw; rewrite lookup_insert_ne; [exact Htx | congruence]|].
  split; [rewrite lookup_insert_ne; [exact Hli | congruence]|].
  split; [rewrite lookup_insert_ne; [exact Hlo | congruence]|].
  split; [exact Hne|]. split.
  - apply Forall2_same_length_lookup_2.
    + rewrite length_alter. exact (Forall2_length _ _ _ Hxs).
    + intros k l' x' Hl' Hx'. destruct (decide (j = k)) as [<-|Hjk].
      * rewrite list_lookup_alter_eq, Hx in Hx'. injection Hx' as <-.
        rewrite Hl in Hl'. injection Hl' as <-. apply lookup_insert_eq.
      * rewrite list_lookup_alter_ne in Hx' by exact Hjk.
        rewrite lookup_insert_ne.
        -- exact (Forall2_lookup_lr _ _ _ _ _ _ Hxs Hl' Hx').
        -- intros ->. apply Hjk. exact (NoDup_lookup _ _ _ _ Hnd Hl Hl').
  - eapply Forall2_impl; [exact Hys|]. intros l' y Hl'. cbv beta in Hl'.
    rewrite lookup_insert_ne; [exact Hl' | congruence].
Qed.

(** A loop that assigns to the inputs at the positions [js] in turn. *)
Lemma for_m_update_inputs (tmp : loc) (sh : Clone.shape)
    (g : TxInput.t -> TxInput.t) (set : loc -> M unit) :
  (forall st l x, st !! l = Some (OTxInput x) ->
                  set l st = (Ok tt, <[l := OTxInput (g x)]> st)) ->
  forall ls js, Forall2 (fun l j => Clone.ils sh !! j = Some l) ls js ->
  forall st v, Clone.unshared st tmp sh v ->
  exists st',
    HeapTx.for_m ls set st = (Ok tt, st')
    /\ Clone.unshared st' tmp sh
         (Clone.with_inputs
            (fold_left (fun xs j => alter g j xs) js (inputs v)) v).
Proof.
  intros Hset ls js Hjs. induction Hjs as [|l j ls js Hl _ IH]; intros st v Hv.
  - exists st. split; [reflexivity|]. now destruct v.
  - destruct Hv as [Hholds Hnd].
    destruct (Forall2_lookup_l _ _ _ _ _
                (proj1 (proj2 (proj2 (proj2 (proj2 Hholds))))) Hl)
      as (x & Hx & Hlx).
    pose proof (unshared_update_input st tmp sh v j l x g
                  (conj Hholds Hnd) Hl Hx) as Hv'.
    destruct (IH _ _ Hv') as (st' & Hrun & Hv'').
    exists st'. cbn [HeapTx.for_m].
    rewrite (mbind_ok _ _ _ _ _ (Hset _ _ _ Hlx)).
    split; [exact Hrun | exact Hv''].
Qed.

Lemma fold_alter_lookup {A} (g : A -> A) (n : nat) (xs : list A) (k : nat) :
  fold_left (fun xs j => alter g j xs) (seq 0 n) xs !! k
  = if decide (k < n)%nat then g <$> xs !! k else xs !! k.
Proof.
  induction n as [|n IH].
  - cbn [seq fold_left]. case_decide; [lia | reflexivity].
  - rewrite seq_S, fold_left_app. cbn [fold_left Nat.add].
    destruct (decide (n = k)) as [->|Hne].
    + rewrite list_lookup_alter_eq, IH.
      repeat case_decide; try reflexivity; lia.
    + rewrite list_lookup_alter_ne by exact Hne. rewrite IH.
      repeat case_decide; try reflexivity; lia.
Qed.

Lemma fold_alter_all {A} (g : A -> A) (xs : list A) :
  fold_left (fun xs j => alter g j xs) (seq 0 (length xs)) xs = map g xs.
Proof.
  apply list_eq. intros k. rewrite fold_alter_lookup, lookup_map.
  case_decide as Hk; [reflexivity|].
  rewrite (lookup_ge_None_2 xs k) by lia. reflexivity.
Qed.

Lemma lookup_seq_self {A} (ls : list A) :
  Forall2 (fun l j => ls !! j = Some l) ls (seq 0 (length ls)).
Proof.
  apply Forall2_same_length_lookup_2; [now rewrite length_seq|].
  intros k l j Hl Hj. apply lookup_seq in Hj as [-> _]. exact Hl.
Qed.

(** Lines 585-586. *)
Lemma clear_script_sigs_run (st : store) (tmp : loc) (sh : Clone.shape)
    (v : Transaction.t) :
  Clone.unshared st tmp sh v ->
  exists st',
    HeapTx.clear_script_sigs tmp st = (Ok tt, st')
    /\ Clone.unshared st' tmp sh
         (Clone.with_inputs
            (map (TxInput.set_script_sig Script.empty) (inputs v)) v).
Proof.
  intros Hv. pose proof Hv as [Hholds _].
  pose proof Hholds as (_ & Hli & _ & _ & Hxs & _).
  destruct (for_m_update_inputs tmp sh (TxInput.set_script_sig Script.empty)
              (fun l => HeapTx.set_script_sig l Script.empty)
              (fun st l x H => set_script_sig_run st l x Script.empty H)
              _ _ (lookup_seq_self (Clone.ils sh)) st v Hv)
    as (st' & Hrun & Hv').
  exists st'. unfold HeapTx.clear_script_sigs.
  rewrite (mbind_ok _ _ _ _ _ (tx_inputs_run _ _ _ _ Hholds)).
  rewrite (mbind_ok _ _ _ _ _ (get_list_ok _ _ _ Hli)).
  split; [exact Hrun|].
  rewrite (Forall2_length _ _ _ Hxs), fold_alter_all in Hv'. exact Hv'.
Qed.

(** Line 599. *)
Lemma set_signed_script_run (st : store) (tmp : loc) (sh : Clone.shape)
    (v : Transaction.t) (i : Z) (s : Script.t) :
  Clone.unshared st tmp sh v ->
  match norm_index (inputs v) i with
  | Ok j =>
      exists st',
        HeapTx.set_signed_script tmp i s st = (Ok tt, st')
        /\ Clone.unshared st' tmp sh
             (Clone.with_inputs
                (alter (TxInput.set_script_sig s) j (inputs v)) v)
  | Raise e => exists st', HeapTx.set_signed_script tmp i s st = (Raise e, st')
  end.
Proof.
  intros Hv. pose proof Hv as [Hholds _].
  pose proof Hholds as (_ & Hli & _ & _ & Hxs & _).
  pose proof (index_related _ _ _ i Hxs) as Hidx.
  unfold HeapTx.set_signed_script.
  rewrite (mbind_ok _ _ _ _ _ (tx_inputs_run _ _ _ _ Hholds)).
  destruct (norm_index (inputs v) i) as [j|e].
  - destruct Hidx as (l & x & Hl & Hx & Hlx & Hil & _).
    eexists. rewrite (mbind_ok _ _ st st l).
    2:{ rewrite (list_index_run _ _ _ _ Hli). now rewrite Hil. }
    split; [apply (set_script_sig_run _ _ _ _ Hlx)|].
    now apply unshared_update_input.
  - destruct Hidx as [Hil _]. exists st. apply mbind_raise.
    rewrite (list_index_run _ _ _ _ Hli). now rewrite Hil.
Qed.

(** Lines 612-614 and 633-635. *)
Lemma zero_loop_run (tmp : loc) (sh : Clone.shape) (i : Z) (js : list Z) :
  Forall (fun j => 0 <= j < len (Clone.ils sh)) js ->
  forall st v, Clone.unshared st tmp sh v ->
  exists st',
    HeapTx.for_m js
      (fun j =>
         if j =? i then ret tt
         else
           let! ins := HeapTx.tx_inputs tmp in
           let! txin := HeapTx.list_index ins j in
           HeapTx.set_sequence txin EMPTY_TX_SEQUENCE) st
    = (Ok tt, st')
    /\ Clone.unshared st' tmp sh
         (Clone.with_inputs
            (fold_left
               (fun ins j =>
                  if j =? i then ins
                  else alter (TxInput.set_sequence EMPTY_TX_SEQUENCE)
                         (Z.to_nat j) ins)
               js (inputs v)) v).
Proof.
  induction 1 as [|j js Hj _ IH]; intros st v Hv.
  - exists st. split; [reflexivity|]. now destruct v.
  - cbn [HeapTx.for_m fold_left]. destruct (j =? i).
    + destruct (IH st v Hv) as (st' & Hrun & Hv'). exists st'.
      split; [exact Hrun | exact Hv'].
    + pose proof Hv as [Hholds _].
      pose proof Hholds as (_ & Hli & _ & _ & Hxs & _).
      destruct (lookup_lt_is_Some_2 (Clone.ils sh) (Z.to_nat j)) as [l Hl].
      { unfold len in Hj. lia. }
      destruct (Forall2_lookup_l _ _ _ _ _ Hxs Hl) as (x & Hx & Hlx).
      pose proof (unshared_update_input st tmp sh v (Z.to_nat j) l x
                    (TxInput.set_sequence EMPTY_TX_SEQUENCE) Hv Hl Hx) as Hv'.
      destruct (IH _ _ Hv') as (st' & Hrun & Hv'').
      exists st'. split; [|exact Hv''].
      erewrite mbind_ok; [exact Hrun|].
      rewrite (mbind_ok _ _ _ _ _ (tx_inputs_run _ _ _ _ Hholds)).
      rewrite (mbind_ok _ _ st st l).
      2:{ rewrite (list_index_run _ _ _ _ Hli).
          now rewrite (index_ok _ _ _ (proj1 Hj) Hl). }
      apply (set_sequence_run _ _ _ _ Hlx).
Qed.

Lemma range_bounds (n : Z) : Forall (fun j => 0 <= j < n) (range n).
Proof.
  unfold range. apply Forall_forall. intros j Hj.
  apply list_elem_of_In, in_map_iff in Hj as (k & <- & Hk).
  apply in_seq in Hk. lia.
Qed.

Lemma zero_other_sequences_run (st : store) (tmp : loc) (sh : Clone.shape)
    (v : Transaction.t) (i : Z) :
  Clone.unshared st tmp sh v ->
  exists st',
    HeapTx.zero_other_sequences tmp i st = (Ok tt, st')
    /\ Clone.unshared st' tmp sh
         (Clone.with_inputs (zero_other_sequences (inputs v) i) v).
Proof.
  intros Hv. pose proof Hv as [Hholds _].
  pose proof Hholds as (_ & Hli & _ & _ & Hxs & _).
  destruct (zero_loop_run tmp sh i _ (range_bounds (len (Clone.ils sh))) st v Hv)
    as (st' & Hrun & Hv').
  exists st'. unfold HeapTx.zero_other_sequences.
  rewrite (mbind_ok _ _ _ _ _ (tx_inputs_run _ _ _ _ Hholds)).
  rewrite (mbind_ok _ _ _ _ _ (list_len_run _ _ _ Hli)).
  split; [exact Hrun|]. unfold zero_other_sequences.
  replace (len (inputs v)) with (len (Clone.ils sh)); [exact Hv'|].
  unfold len. now rewrite (Forall2_length _ _ _ Hxs).
Qed.

Lemma set_tx_outputs_run (st : store) (tx l : loc) (o : tx_obj) :
  st !! tx = Some (OTransaction o) ->
  HeapTx.set_tx_outputs tx l st
  = (Ok tt,
     <[tx := OTransaction
               (TxObj (o_inputs o) l (o_locktime o) (o_version o)
                  (o_has_segwit o) (o_witnesses o))]> st).
Proof.
  intros H. unfold HeapTx.set_tx_outputs.
  now rewrite (mbind_ok _ _ _ _ _ (get_tx_ok _ _ _ H)).
Qed.

Lemma set_tx_inputs_run (st : store) (tx l : loc) (o : tx_obj) :
  st !! tx = Some (OTransaction o) ->
  HeapTx.set_tx_inputs tx l st
  = (Ok tt,
     <[tx := OTransaction
               (TxObj l (o_outputs o) (o_locktime o) (o_version o)
                  (o_has_segwit o) (o_witnesses o))]> st).
Proof.
  intros H. unfold HeapTx.set_tx_inputs.
  now rewrite (mbind_ok _ _ _ _ _ (get_tx_ok _ _ _ H)).
Qed.

Lemma list_append_run (st : store) (l x : loc) (items : list loc) :
  st !! l = Some (OList items) ->
  HeapTx.list_append l x st = (Ok tt, <[l := OList (items ++ [x])]> st).
Proof.
  intros H. unfold HeapTx.list_append.
  now rewrite (mbind_ok _ _ _ _ _ (get_list_ok _ _ _ H)).
Qed.

Lemma unshared_weaken (st st' : store) (tmp : loc) (sh : Clone.shape)
    (v : Transaction.t) :
  st ⊆ st' -> Clone.unshared st tmp sh v -> Clone.unshared st' tmp sh v.
Proof.
  intros Hsub [([lw Htx] & Hli & Hlo & Hne & Hxs & Hys) Hnd].
  split; [|exact Hnd].
  split; [exists lw; exact (lookup_weaken _ _ _ _ Htx Hsub)|].
  split; [exact (lookup_weaken _ _ _ _ Hli Hsub)|].
  split; [exact (lookup_weaken _ _ _ _ Hlo Hsub)|].
  split; [exact Hne|].
  split; [exact (Forall2_weaken OTxInput _ _ _ _ Hsub Hxs)
         | exact (Forall2_weaken OTxOutput _ _ _ _ Hsub Hys)].
Qed.

Lemma kept_refl (st : store) : Clone.kept st st.
Proof. intros l y H. exact H. Qed.

Lemma kept_trans (st1 st2 st3 : store) :
  Clone.kept st1 st2 -> Clone.kept st2 st3 -> Clone.kept st1 st3.
Proof. intros H12 H23 l y H. apply H23, H12, H. Qed.

Lemma kept_subseteq (st st' : store) : st ⊆ st' -> Clone.kept st st'.
Proof. intros Hsub l y H. exact (lookup_weaken _ _ _ _ H Hsub). Qed.

Lemma kept_insert (st : store) (l : loc) (o : obj) :
  (forall y, st !! l <> Some (OTxOutput y)) -> Clone.kept st (<[l := o]> st).
Proof.
  intros Hl l' y H. rewrite lookup_insert_ne; [exact H|].
  intros ->. exact (Hl y H).
Qed.

(** Lines 607 and 626: [tmp_tx.outputs = []]. *)
Lemma new_outputs_run (st : store) (tmp : loc) (sh : Clone.shape)
    (v : Transaction.t) :
  Clone.unshared st tmp sh v ->
  exists new st1 st',
    alloc (OList []) st = (Ok new, st1)
    /\ HeapTx.set_tx_outputs tmp new st1 = (Ok tt, st')
    /\ Clone.unshared st' tmp
         (Clone.Shape (Clone.li sh) new (Clone.ils sh) [])
         (Clone.with_outputs [] v)
    /\ Clone.kept st st'.
Proof.
  intros [([lw Htx] & Hli & Hlo & Hne & Hxs & Hys) Hnd].
  destruct (alloc_run (OList []) st) as [Halloc Hnew].
  set (new := fresh (dom st)) in *.
  assert (Htx1 : <[new := OList []]> st !! tmp = Some
            (OTransaction
               (TxObj (Clone.li sh) (Clone.lo sh) (locktime v) (version v)
                  (has_segwit v) lw))).
  { rewrite lookup_insert_ne; [exact Htx | congruence]. }
  eexists new, _, _. split; [exact Halloc|].
  split; [exact (set_tx_outputs_run _ _ new _ Htx1)|].
  cbn [o_inputs o_outputs o_locktime o_version o_has_segwit o_witnesses].
  split.
  - split; [|exact Hnd]. unfold Clone.holds, Clone.with_outputs.
    cbn [inputs outputs locktime version has_segwit Clone.li Clone.lo
         Clone.ils Clone.ols].
    split; [exists lw; apply lookup_insert_eq|].
    split; [do 2 (rewrite lookup_insert_ne; [|congruence]); exact Hli|].
    split; [rewrite lookup_insert_ne; [apply lookup_insert_eq | congruence]|].
    split; [congruence|]. split; [|constructor].
    eapply Forall2_impl; [exact Hxs|]. intros l x Hl. cbv beta in Hl.
    do 2 (rewrite lookup_insert_ne; [|congruence]). exact Hl.
  - intros l y Hl.
    do 2 (rewrite lookup_insert_ne; [|congruence]). exact Hl.
Qed.

(** [tmp_tx.outputs.append(x)] for an output object [x]. *)
Lemma append_output_run (st : store) (tmp : loc) (sh : Clone.shape)
    (v : Transaction.t) (x : loc) (y : TxOutput.t) :
  Clone.unshared st tmp sh v -> st !! x = Some (OTxOutput y) ->
  exists st',
    HeapTx.list_append (Clone.lo sh) x st = (Ok tt, st')
    /\ Clone.unshared st' tmp
         (Clone.Shape (Clone.li sh) (Clone.lo sh) (Clone.ils sh)
            (Clone.ols sh ++ [x]))
         (Clone.with_outputs (outputs v ++ [y]) v)
    /\ Clone.kept st st'.
Proof.
  intros [([lw Htx] & Hli & Hlo & Hne & Hxs & Hys) Hnd] Hx.
  eexists. split; [exact (list_append_run _ _ x _ Hlo)|]. split.
  - split; [|exact Hnd]. unfold Clone.holds, Clone.with_outputs.
    cbn [inputs outputs locktime version has_segwit Clone.li Clone.lo
         Clone.ils Clone.ols].
    split; [exists lw; rewrite lookup_insert_ne; [exact Htx | congruence]|].
    split; [rewrite lookup_insert_ne; [exact Hli | congruence]|].
    split; [apply lookup_insert_eq|]. split; [exact Hne|]. split.
    + eapply Forall2_impl; [exact Hxs|]. intros l x' Hl. cbv beta in Hl.
      rewrite lookup_insert_ne; [exact Hl | congruence].
    + apply Forall2_app.
      * eapply Forall2_impl; [exact Hys|]. intros l y' Hl. cbv beta in Hl.
        rewrite lookup_insert_ne; [exact Hl | congruence].
      * constructor; [|constructor].
        rewrite lookup_insert_ne; [exact Hx | congruence].
  - apply kept_insert. intros y'. congruence.
Qed.

(** Lines 627-628: the loop that appends the placeholders. *)
Lemma placeholders_run (tmp : loc) (p : TxOutput.t) (js : list Z) :
  forall st sh v, Clone.unshared st tmp sh v ->
  exists st' ols',
    HeapTx.for_m js
      (fun _ =>
         let! outs := HeapTx.tx_outputs tmp in
         let! placeholder := alloc (OTxOutput p) in
         HeapTx.list_append outs placeholder) st
    = (Ok tt, st')
    /\ Clone.unshared st' tmp
         (Clone.Shape (Clone.li sh) (Clone.lo sh) (Clone.ils sh) ols')
         (Clone.with_outputs
            (fold_left (fun outs _ => outs ++ [p]) js (outputs v)) v)
    /\ Clone.kept st st'.
Proof.
  induction js as [|j js IH]; intros st sh v Hv.
  - exists st, (Clone.ols sh). split; [reflexivity|].
    split; [now destruct sh, v | apply kept_refl].
  - pose proof Hv as [Hholds _].
    destruct (alloc_run (OTxOutput p) st) as [Halloc Hnew].
    set (ph := fresh (dom st)) in *.
    assert (Hsub : st ⊆ <[ph := OTxOutput p]> st)
      by (apply insert_subseteq; exact Hnew).
    pose proof (unshared_weaken _ _ _ _ _ Hsub Hv) as Hv1.
    destruct (append_output_run _ _ _ _ ph p Hv1 (lookup_insert_eq _ _ _))
      as (st2 & Happ & Hv2 & Hk2).
    destruct (IH _ _ _ Hv2) as (st' & ols' & Hrun & Hv' & Hk').
    exists st', ols'. cbn [HeapTx.for_m fold_left].
    split; [|split; [exact Hv'|]].
    + erewrite mbind_ok; [exact Hrun|].
      rewrite (mbind_ok _ _ _ _ _ (tx_outputs_run _ _ _ _ Hholds)).
      rewrite (mbind_ok _ _ _ _ _ Halloc). exact Happ.
    + eapply kept_trans; [apply kept_subseteq; exact Hsub|].
      eapply kept_trans; [exact Hk2 | exact Hk'].
Qed.

Lemma append_single_outputs_run (st : store) (tmp : loc) (sh : Clone.shape)
    (v : Transaction.t) (i : Z) (txout : loc) (y : TxOutput.t) :
  Clone.unshared st tmp sh v -> st !! txout = Some (OTxOutput y) ->
  exists st' ols',
    HeapTx.append_single_outputs tmp i txout st = (Ok tt, st')
    /\ Clone.unshared st' tmp
         (Clone.Shape (Clone.li sh) (Clone.lo sh) (Clone.ils sh) ols')
         (Clone.with_outputs
            (fold_left
               (fun outs _ =>
                  outs ++ [TxOutput.mk NEGATIVE_SATOSHI Script.empty])
               (range i) (outputs v) ++ [y]) v).
Proof.
  intros Hv Hy.
  destruct (placeholders_run tmp (TxOutput.mk NEGATIVE_SATOSHI Script.empty)
              (range i) st sh v Hv) as (st1 & ols1 & Hrun & Hv1 & Hk1).
  destruct (append_output_run _ _ _ _ txout y Hv1 (Hk1 _ _ Hy))
    as (st' & Happ & Hv' & _).
  pose proof Hv1 as [Hholds1 _].
  exists st', (ols1 ++ [txout]). unfold HeapTx.append_single_outputs.
  rewrite (mbind_ok _ _ _ _ _ Hrun).
  rewrite (mbind_ok _ _ _ _ _ (tx_outputs_run _ _ _ _ Hholds1)).
  split; [exact Happ | exact Hv'].
Qed.

(** Lines 606-635. *)
Lemma apply_sighash_type_run (st : store) (tmp : loc) (sh : Clone.shape)
    (v : Transaction.t) (i sighash : Z) :
  Clone.unshared st tmp sh v ->
  match apply_sighash_type (inputs v) (outputs v) i sighash with
  | Ok (ins', outs') =>
      exists st' sh',
        HeapTx.apply_sighash_type tmp i sighash st = (Ok tt, st')
        /\ Clone.unshared st' tmp sh'
             (Transaction.mk ins' outs' (locktime v) (version v)
                (has_segwit v) (witnesses v))
  | Raise e =>
      exists st', HeapTx.apply_sighash_type tmp i sighash st = (Raise e, st')
  end.
Proof.
  intros Hv. pose proof Hv as [Hholds _].
  pose proof Hholds as (_ & _ & Hlo & _ & _ & Hys).
  unfold apply_sighash_type, HeapTx.apply_sighash_type.
  destruct (Z.land sighash 31 =? SIGHASH_NONE).
  - destruct (new_outputs_run st tmp sh v Hv)
      as (new & st1 & st2 & Ha & Hs & Hv2 & _).
    destruct (zero_other_sequences_run st2 tmp _ _ i Hv2) as (st' & Hz & Hv').
    exists st'. eexists.
    rewrite (mbind_ok _ _ _ _ _ Ha), (mbind_ok _ _ _ _ _ Hs).
    split; [exact Hz | exact Hv'].
  - destruct (Z.land sighash 31 =? SIGHASH_SINGLE).
    + rewrite (mbind_ok _ _ _ _ _ (tx_outputs_run _ _ _ _ Hholds)).
      rewrite (mbind_ok _ _ _ _ _ (list_len_run _ _ _ Hlo)).
      replace (len (Clone.ols sh)) with (len (outputs v))
        by (unfold len; now rewrite (Forall2_length _ _ _ Hys)).
      destruct (len (outputs v) <=? i); [exists st; reflexivity|].
      rewrite (mbind_ok _ _ _ _ _ (tx_outputs_run _ _ _ _ Hholds)).
      pose proof (index_related _ _ _ i Hys) as Hidx.
      destruct (norm_index (outputs v) i) as [j|e].
      * destruct Hidx as (l & y & _ & _ & Hly & Hil & Hiy).
        rewrite Hiy. cbn [Py.bind].
        destruct (new_outputs_run st tmp sh v Hv)
          as (new & st1 & st2 & Ha & Hs & Hv2 & Hk2).
        destruct (append_single_outputs_run st2 tmp _ _ i l y Hv2
                    (Hk2 _ _ Hly)) as (st3 & ols3 & Happ & Hv3).
        destruct (zero_other_sequences_run st3 tmp _ _ i Hv3)
          as (st' & Hz & Hv').
        exists st'. eexists.
        rewrite (mbind_ok _ _ st st l)
          by (rewrite (list_index_run _ _ _ _ Hlo); now rewrite Hil).
        rewrite (mbind_ok _ _ _ _ _ Ha), (mbind_ok _ _ _ _ _ Hs).
        rewrite (mbind_ok _ _ _ _ _ Happ).
        split; [exact Hz | exact Hv'].
      * destruct Hidx as [Hil Hiy]. rewrite Hiy. cbn [Py.bind].
        exists st. apply mbind_raise.
        rewrite (list_index_run _ _ _ _ Hlo). now rewrite Hil.
    + exists st, sh. split; [reflexivity | now destruct v].
Qed.

(** Lines 638-641. *)
Lemma apply_anyone_can_pay_run (st : store) (tmp : loc) (sh : Clone.shape)
    (v : Transaction.t) (i sighash : Z) :
  Clone.unshared st tmp sh v ->
  match apply_anyone_can_pay (inputs v) i sighash with
  | Ok ins' =>
      exists st' sh',
        HeapTx.apply_anyone_can_pay tmp i sighash st = (Ok tt, st')
        /\ Clone.unshared st' tmp sh' (Clone.with_inputs ins' v)
  | Raise e =>
      exists st', HeapTx.apply_anyone_can_pay tmp i sighash st = (Raise e, st')
  end.
Proof.
  intros Hv. pose proof Hv as [Hholds Hnd].
  pose proof Hholds as ([lw Htx] & Hli & Hlo & Hne & Hxs & Hys).
  unfold apply_anyone_can_pay, HeapTx.apply_anyone_can_pay.
  destruct (negb (Z.land sighash SIGHASH_ANYONECANPAY =? 0)).
  2:{ exists st, sh. split; [reflexivity | now destruct v]. }
  rewrite (mbind_ok _ _ _ _ _ (tx_inputs_run _ _ _ _ Hholds)).
  pose proof (index_related _ _ _ i Hxs) as Hidx.
  destruct (norm_index (inputs v) i) as [j|e].
  - destruct Hidx as (l & x & _ & _ & Hlx & Hil & Hix).
    rewrite Hix. cbn [Py.bind].
    destruct (alloc_run (OList [l]) st) as [Halloc Hnew].
    set (new := fresh (dom st)) in *.
    assert (Htx1 : <[new := OList [l]]> st !! tmp = Some
              (OTransaction
                 (TxObj (Clone.li sh) (Clone.lo sh) (locktime v) (version v)
                    (has_segwit v) lw))).
    { rewrite lookup_insert_ne; [exact Htx | congruence]. }
    eexists. exists (Clone.Shape new (Clone.lo sh) [l] (Clone.ols sh)).
    rewrite (mbind_ok _ _ st st l)
      by (rewrite (list_index_run _ _ _ _ Hli); now rewrite Hil).
    rewrite (mbind_ok _ _ _ _ _ Halloc).
    split; [exact (set_tx_inputs_run _ _ new _ Htx1)|].
    cbn [o_inputs o_outputs o_locktime o_version o_has_segwit o_witnesses].
    split; [|apply NoDup_singleton].
    unfold Clone.holds, Clone.with_inputs.
    cbn [inputs outputs locktime version has_segwit Clone.li Clone.lo
         Clone.ils Clone.ols].
    split; [exists lw; apply lookup_insert_eq|].
    split; [rewrite lookup_insert_ne; [apply lookup_insert_eq | congruence]|].
    split; [do 2 (rewrite lookup_insert_ne; [|congruence]); exact Hlo|].
    split; [congruence|]. split.
    + constructor; [|constructor].
      do 2 (rewrite lookup_insert_ne; [|congruence]). exact Hlx.
    + eapply Forall2_impl; [exact Hys|]. intros l' y Hl'. cbv beta in Hl'.
      do 2 (rewrite lookup_insert_ne; [|congruence]). exact Hl'.
  - destruct Hidx as [Hil Hix]. rewrite Hix. cbn [Py.bind].
    exists st. apply mbind_raise.
    rewrite (list_index_run _ _ _ _ Hli). now rewrite Hil.
Qed.

(** X1: the legacy digest computed on a transaction object is the digest
    computed on the value of that object: the statements of lines 581-641,
    run on the objects of the clone, build the transaction that
    [digest_tmp_tx] computes, and raise where it raises. *)
Lemma store_legacy_digest (st : store) (self : loc) (v : Transaction.t)
    (i : Z) (s : Script.t) (sighash : Z) :
  fst (HeapTx.load_tx self st) = Ok v ->
  fst (HeapTx.get_transaction_digest self i s sighash st)
  = get_transaction_digest v i s sighash.
Proof.
  intros H.
  destruct (Transaction_copy_run st self v H)
    as (tmp & sh & st1 & Hcopy & _ & Hv1).
  unfold HeapTx.get_transaction_digest, get_transaction_digest, digest_tmp_tx.
  rewrite Transaction_copy_id.
  rewrite (mbind_ok _ _ _ _ _ Hcopy).
  destruct (clear_script_sigs_run _ _ _ _ Hv1) as (st2 & Hclear & Hv2).
  rewrite (mbind_ok _ _ _ _ _ Hclear).
  pose proof (set_signed_script_run _ _ _ _ i s Hv2) as Hsigned.
  cbn [Clone.with_inputs inputs] in Hsigned.
  destruct (norm_index (map (TxInput.set_script_sig Script.empty) (inputs v)) i)
    as [j|e]; cbn [Py.bind].
  2:{ destruct Hsigned as [st3 Hsigned].
      now rewrite (mbind_raise _ _ _ _ _ Hsigned). }
  destruct Hsigned as (st3 & Hsigned & Hv3).
  rewrite (mbind_ok _ _ _ _ _ Hsigned).
  pose proof (apply_sighash_type_run _ _ _ _ i sighash Hv3) as Htype.
  cbn [Clone.with_inputs inputs outputs locktime version has_segwit witnesses]
    in Htype.
  destruct (apply_sighash_type _ (outputs v) i sighash) as [[ins outs]|e];
    cbn [Py.bind].
  2:{ destruct Htype as [st4 Htype].
      now rewrite (mbind_raise _ _ _ _ _ Htype). }
  destruct Htype as (st4 & sh4 & Htype & Hv4).
  rewrite (mbind_ok _ _ _ _ _ Htype).
  pose proof (apply_anyone_can_pay_run _ _ _ _ i sighash Hv4) as Hacp.
  cbn [Clone.with_inputs inputs outputs locktime version has_segwit witnesses]
    in Hacp.
  destruct (apply_anyone_can_pay ins i sighash) as [ins'|e]; cbn [Py.bind].
  2:{ destruct Hacp as [st5 Hacp].
      now rewrite (mbind_raise _ _ _ _ _ Hacp). }
  destruct Hacp as (st5 & sh5 & Hacp & [Hholds5 _]).
  rewrite (mbind_ok _ _ _ _ _ Hacp).
  rewrite (mbind_ok _ _ _ _ _ (holds_load_body _ _ _ _ Hholds5)).
  unfold mbind, lift, ret.
  rewrite (to_bytes_false_witnesses (Clone.body _)
             (mk ins' outs (locktime v) (version v) (has_segwit v)
                (witnesses v))) by reflexivity.
  destruct (to_bytes _ false); [|reflexivity]. cbn [Py.bind].
  now destruct (pack_i sighash).
Qed.

End Refinement.

(** [store_legacy_digest] at the example transaction, input 1,
    [SIGHASH_SINGLE]. *)
Lemma store_legacy_digest_witness :
  fst (HeapTx.load_tx StoreExamples.self StoreExamples.store) = Ok Examples.tx
  /\ fst (HeapTx.get_transaction_digest StoreExamples.self 1
            Examples.script_code 3 StoreExamples.store)
     = get_transaction_digest Examples.tx 1 Examples.script_code 3.
Proof.
  split; [by_evaluation|]. apply store_legacy_digest. by_evaluation.
Defined.

(** [store_segwit_digest] at the example transaction, input 1,
    [SIGHASH_ALL]. *)
Lemma store_segwit_digest_witness :
  fst (HeapTx.load_tx StoreExamples.self StoreExamples.store) = Ok Examples.tx
  /\ fst (HeapTx.get_transaction_segwit_digest StoreExamples.self 1
            Examples.script_code 600000000 1 StoreExamples.store)
     = get_transaction_segwit_digest Examples.tx 1 Examples.script_code
         600000000 1.
Proof.
  split; [by_evaluation|]. apply store_segwit_digest. by_evaluation.
Defined.

(** [store_taproot_digest] at the example transaction, input 0, key path. *)
Lemma store_taproot_digest_witness :
  fst (HeapTx.load_tx StoreExamples.self StoreExamples.store) = Ok Examples.tx
  /\ fst (HeapTx.get_transaction_taproot_digest StoreExamples.self 0
            [Examples.prevout_script; Examples.prevout_script] [600; 700]
            0 Script.empty LEAF_VERSION_TAPSCRIPT 0 StoreExamples.store)
     = get_transaction_taproot_digest Examples.tx 0
         [Examples.prevout_script; Examples.prevout_script] [600; 700]
         0 Script.empty LEAF_VERSION_TAPSCRIPT 0.
Proof.
  split; [by_evaluation|]. apply store_taproot_digest. by_evaluation.
Defined.

(** ** Further properties of the digests *)

(** X4: on well-formed arguments (txids of 32 bytes, input indices of 32
    bits, output amounts in the signed 64-bit range that ['<q'] packs,
    scripts and script code shorter than 256 bytes) the segwit v0 digest is
    the double SHA-256 of the BIP-143 preimage: version, hashPrevouts,
    hashSequence, the outpoint, the script code with its length, the
    amount, the sequence, hashOutputs, the locktime and the sighash type. *)
Theorem segwit_digest_bip143 (t : Transaction.t) (i : Z) (s : Script.t)
    (a sighash : Z) (txin : TxInput.t) :
  forallb Wf.txin_ok (inputs t) = true ->
  forallb Wf.txout_ok (outputs t) = true ->
  0 <= i -> inputs t !! Z.to_nat i = Some txin ->
  Wf.short_script s = true -> Wf.i64 a = true -> Wf.i32 sighash = true ->
  get_transaction_segwit_digest t i s a sighash
  = Ok (sha256d (Bip143.preimage t txin i s a sighash)).
Proof.
  intros Hins Houts Hi Htxin Hs Ha Hsh.
  unfold get_transaction_segwit_digest.
  now rewrite (segwit_preimage_spec t i s a sighash txin
                 Hins Houts Hi Htxin Hs Ha Hsh).
Qed.

(** [segwit_digest_bip143] at the example transaction, input 1,
    [SIGHASH_ALL]. *)
Lemma segwit_digest_bip143_witness :
  exists txin,
    inputs Examples.tx !! 1%nat = Some txin
    /\ get_transaction_segwit_digest Examples.tx 1 Examples.script_code
         600000000 1
       = Ok (sha256d (Bip143.preimage Examples.tx txin 1 Examples.script_code
                        600000000 1)).
Proof.
  eexists. split; [reflexivity|].
  apply segwit_digest_bip143; by_evaluation.
Defined.

(** X5: a legacy or segwit v0 digest that is returned is 32 bytes long. *)
Theorem legacy_and_segwit_digests_32_bytes (t : Transaction.t) (i : Z)
    (s : Script.t) (a sighash : Z) (d : bytes) :
  get_transaction_digest t i s sighash = Ok d
  \/ get_transaction_segwit_digest t i s a sighash = Ok d ->
  length d = 32%nat.
Proof.
  intros [H|H].
  - unfold get_transaction_digest in H.
    apply bind_ok in H as (tmp & _ & H).
    apply bind_ok in H as (b & _ & H).
    apply bind_ok in H as (h & _ & H).
    injection H as <-. apply sha256d_length.
  - unfold get_transaction_segwit_digest in H.
    apply bind_ok in H as (p & _ & H).
    injection H as <-. apply sha256d_length.
Qed.

(** [legacy_and_segwit_digests_32_bytes] at the example transaction. *)
Lemma legacy_and_segwit_digests_32_bytes_witness :
  exists d,
    get_transaction_digest Examples.tx 1 Examples.script_code 1 = Ok d
    /\ length d = 32%nat.
Proof.
  eexists. split; [by_evaluation|].
  apply (legacy_and_segwit_digests_32_bytes Examples.tx 1
           Examples.script_code 0 1).
  left. by_evaluation.
Defined.


(** * The rest of [transactions.py] *)

(** ** [Sequence] and [Locktime] *)

Lemma lor_bit22 (v : Z) :
  0 <= v < 4194304 -> Z.lor (Z.shiftl 1 22) v = 4194304 + v.
Proof.
  intros Hv. change (Z.shiftl 1 22) with (2 ^ 22).
  assert (Hland : Z.land (2 ^ 22) v = 0).
  { apply Z.bits_inj'. intros n Hn. rewrite Z.land_spec, Z.bits_0.
    rewrite Z.pow2_bits_eqb by lia.
    destruct (Z.eqb_spec 22 n) as [<-|Hne]; [|reflexivity].
    destruct (Z.eq_dec v 0) as [->|Hv0]; [now rewrite Z.bits_0|].
    rewrite Z.bits_above_log2; [reflexivity | lia |].
    apply Z.log2_lt_pow2; lia. }
  rewrite <- Z.lxor_lor by exact Hland.
  rewrite <- Z.add_nocarry_lxor by exact Hland. reflexivity.
Qed.

(** X7: a relative timelock that the constructor accepts has a value in
    [1, 65535]; its input sequence is four bytes, the little-endian
    encoding of the value with bit 22 set exactly for 512-second units and
    bit 31 clear, and [for_script] returns the integer those bytes
    encode. *)
Theorem relative_sequence_encoding (v : Z) (blk : bool) (s : Sequence.t) :
  Sequence.init TYPE_RELATIVE_TIMELOCK (Some v) blk = Ok s ->
  1 <= v <= 65535
  /\ exists bs,
       Sequence.for_input_sequence s = Ok (Some bs)
       /\ length bs = 4%nat
       /\ from_le_bytes bs = v + (if blk then 0 else 4194304)
       /\ Sequence.for_script s = Ok (Some (from_le_bytes bs))
       /\ Z.testbit (from_le_bytes bs) 22 = negb blk
       /\ Z.testbit (from_le_bytes bs) 31 = false.
Proof.
  unfold Sequence.init. cbn [Sequence.type_eqb Py.bind].
  destruct ((v <? 1) || (65535 <? v)) eqn:E; [discriminate|].
  intros [= <-]. assert (Hv : 1 <= v <= 65535) by lia. split; [exact Hv|].
  unfold Sequence.for_input_sequence, Sequence.for_script.
  cbn [Sequence.type_eqb Sequence.seq_type Sequence.value
       Sequence.is_type_block andb].
  assert (Hhigh : forall x n, 0 <= x < 2 ^ n -> 0 <= n ->
            Z.testbit x n = false).
  { intros x n Hx Hn. destruct (Z.eq_dec x 0) as [->|Hx0];
      [apply Z.bits_0|].
    apply Z.bits_above_log2; [lia|]. apply Z.log2_lt_pow2; lia. }
  destruct blk; cbn [negb].
  - rewrite Z.lor_0_l.
    assert (Hr : 0 <= v < 256 ^ Z.of_nat 4)
      by (change (256 ^ Z.of_nat 4) with 4294967296; lia).
    rewrite (int_to_bytes_ok 4 _ Hr). cbn [Py.bind].
    eexists. split; [reflexivity|].
    rewrite le_bytes_length, (from_le_bytes_le_bytes 4 _ Hr).
    split; [reflexivity|]. split; [lia|]. split; [reflexivity|].
    split; (apply Hhigh; [|lia]);
      [change (2 ^ 22) with 4194304 | change (2 ^ 31) with 2147483648]; lia.
  - rewrite Z.lor_0_l, (Z.lor_comm v), lor_bit22 by lia.
    assert (Hr : 0 <= 4194304 + v < 256 ^ Z.of_nat 4)
      by (change (256 ^ Z.of_nat 4) with 4294967296; lia).
    rewrite (int_to_bytes_ok 4 _ Hr). cbn [Py.bind].
    eexists. split; [reflexivity|].
    rewrite le_bytes_length, (from_le_bytes_le_bytes 4 _ Hr).
    split; [reflexivity|]. split; [lia|]. split; [reflexivity|]. split.
    + rewrite <- lor_bit22 by lia.
      rewrite Z.lor_spec. change (Z.shiftl 1 22) with (2 ^ 22).
      now rewrite Z.pow2_bits_eqb by lia.
    + apply Hhigh; [|lia]. change (2 ^ 31) with 2147483648. lia.
Qed.

(** [relative_sequence_encoding] at 512-second units, value 1: the bytes
    [01 00 40 00]. *)
Lemma relative_sequence_encoding_witness :
  exists bs,
    Sequence.for_input_sequence
      (Sequence.mk TYPE_RELATIVE_TIMELOCK (Some 1) false) = Ok (Some bs)
    /\ from_le_bytes bs = 1 + 4194304.
Proof.
  destruct (relative_sequence_encoding 1 false
              (Sequence.mk TYPE_RELATIVE_TIMELOCK (Some 1) false))
    as (_ & bs & Hb & _ & Hv & _); [reflexivity|].
  exists bs. split; [exact Hb | exact Hv].
Defined.

(** X9: [for_input_sequence] returns four bytes or [None], and [None]
    exactly for a sequence that is none of the three kinds; [for_script]
    raises [ValueError] exactly on replace-by-fee. *)
Theorem sequence_outputs (s : Sequence.t) :
  (forall bs, Sequence.for_input_sequence s = Ok (Some bs) ->
              length bs = 4%nat)
  /\ (Sequence.for_input_sequence s = Ok None
      <-> Sequence.seq_type s = TYPE_OTHER)
  /\ (Sequence.for_script s = Raise ValueError
      <-> Sequence.seq_type s = TYPE_REPLACE_BY_FEE).
Proof.
  destruct s as [ty value blk].
  unfold Sequence.for_input_sequence, Sequence.for_script.
  cbn [Sequence.seq_type Sequence.value Sequence.is_type_block].
  destruct ty; cbn [Sequence.type_eqb andb].
  - split; [intros bs [= <-]; reflexivity|].
    split; [split; discriminate|].
    destruct blk, value; split; discriminate.
  - split; [|split].
    + intros bs. destruct value as [v|]; [|discriminate].
      unfold int_to_bytes. destruct (_ && _); [|discriminate].
      cbn [Py.bind]. intros [= <-]. reflexivity.
    + destruct value as [v|]; [|split; discriminate].
      destruct (int_to_bytes _ 4); cbn [Py.bind]; split; discriminate.
    + destruct blk, value; cbn [negb]; split; discriminate.
  - split; [intros bs [= <-]; reflexivity|].
    split; [split; discriminate | split; reflexivity].
  - split; [discriminate|].
    split; [split; reflexivity|].
    destruct blk, value; split; discriminate.
Qed.

(** ** Slices, and the VarInt that [from_raw] reads at the cursor *)

Section SliceLemmas.

Context {A : Type}.

Lemma slice_from (raw pre rest : list A) (a b : Z) :
  raw = pre ++ rest -> a = len pre -> a <= b ->
  slice raw a b = firstn (Z.to_nat (b - a)) rest.
Proof.
  intros -> -> Hab. unfold slice. rewrite len_app.
  pose proof (len_nonneg pre) as Hp. pose proof (len_nonneg rest) as Hr.
  rewrite (Z.max_l (len pre) 0) by lia.
  rewrite (Z.min_l (len pre)) by lia.
  replace (Z.to_nat (len pre)) with (length pre) by (unfold len; lia).
  rewrite skipn_app, skipn_all, Nat.sub_diag. cbn [app]. rewrite drop_0.
  rewrite (Z.max_l b 0) by lia.
  destruct (Z.le_ge_cases b (len pre + len rest)) as [Hb|Hb].
  - now rewrite Z.min_l by lia.
  - rewrite Z.min_r by lia.
    rewrite !firstn_all2; [reflexivity | unfold len in *; lia ..].
Qed.

Lemma slice_at (raw pre x post : list A) (a b : Z) :
  raw = pre ++ x ++ post -> a = len pre -> b = a + len x ->
  slice raw a b = x.
Proof.
  intros Hraw Ha Hb. pose proof (len_nonneg x) as Hx.
  rewrite (slice_from raw pre (x ++ post) a b Hraw Ha) by lia.
  replace (Z.to_nat (b - a)) with (length x) by (unfold len in *; lia).
  rewrite firstn_app, Nat.sub_diag, firstn_all. cbn [firstn].
  apply app_nil_r.
Qed.

Lemma slice_length (raw : list A) (a b : Z) :
  len (slice raw a b) <= Z.max 0 (b - a).
Proof. unfold slice, len. rewrite length_firstn. lia. Qed.

Lemma slice_nil_iff (raw : list A) (a b : Z) :
  0 <= a -> a < b -> (len (slice raw a b) = 0 <-> len raw <= a).
Proof.
  intros Ha Hab. unfold slice, len. rewrite length_firstn, length_skipn.
  lia.
Qed.

End SliceLemmas.

Lemma Z_of_byte_of_Z (z : Z) : 0 <= z < 256 -> Z_of_byte (byte_of_Z z) = z.
Proof.
  intros Hz. pose proof (from_le_bytes_le_bytes 1 z) as H.
  cbn [le_bytes from_le_bytes] in H. rewrite Z.mul_0_r, Z.add_0_r in H.
  apply H. exact Hz.
Qed.

Lemma from_le_bytes_range (b : bytes) :
  0 <= from_le_bytes b < 256 ^ len b.
Proof.
  unfold len. induction b as [|x b IH]; [cbn; lia|].
  cbn [from_le_bytes length]. rewrite Nat2Z.inj_succ, Z.pow_succ_r by lia.
  pose proof (Z_of_byte_range x). lia.
Qed.

Lemma encode_varint_length (n : Z) :
  1 <= len (encode_varint n) <= 9.
Proof.
  unfold encode_varint, len.
  destruct (n <? 253); [cbn; lia|].
  destruct (n <=? 65535); [cbn [length]; rewrite le_bytes_length; lia|].
  destruct (n <=? 4294967295); cbn [length]; rewrite le_bytes_length; lia.
Qed.

(** The VarInt that was written is the VarInt that is read, with its
    width, whatever follows it. *)
Lemma vi_to_int_encode (n : Z) (rest : bytes) :
  0 <= n < 18446744073709551616 ->
  vi_to_int (firstn 9 (encode_varint n ++ rest))
  = Ok (n, len (encode_varint n)).
Proof.
  intros Hn. unfold encode_varint.
  destruct (Z.ltb_spec n 253) as [H1|H1].
  { cbn [app firstn vi_to_int]. rewrite Z_of_byte_of_Z by lia.
    destruct (Z.ltb_spec n 253); [reflexivity | lia]. }
  assert (Hfirst : forall k (x : bytes), (k <= 8)%nat -> length x = k ->
            firstn k (firstn 8 (x ++ rest)) = x).
  { intros k x Hk Hx. rewrite firstn_firstn, Nat.min_l by exact Hk.
    rewrite firstn_app, Hx, Nat.sub_diag, <- Hx, firstn_all. cbn [firstn].
    apply app_nil_r. }
  assert (Hlen : forall k (x : bytes), (k <= 8)%nat -> length x = k ->
            (length (firstn 8 (x ++ rest)) <? k)%nat = false).
  { intros k x Hk Hx. apply Nat.ltb_ge.
    rewrite length_firstn, length_app. lia. }
  destruct (Z.leb_spec n 65535) as [H2|H2].
  { cbn [app firstn vi_to_int]. change (Z_of_byte Byte.xfd) with 253.
    cbn [Z.ltb Z.eqb Z.compare Pos.compare Pos.compare_cont Pos.eqb].
    rewrite (Hlen 2%nat), (Hfirst 2%nat)
      by (first [lia | apply le_bytes_length]).
    rewrite (from_le_bytes_le_bytes 2)
      by (change (256 ^ Z.of_nat 2) with 65536; lia).
    unfold len. cbn [length]. now rewrite le_bytes_length. }
  destruct (Z.leb_spec n 4294967295) as [H3|H3].
  { cbn [app firstn vi_to_int]. change (Z_of_byte Byte.xfe) with 254.
    cbn [Z.ltb Z.eqb Z.compare Pos.compare Pos.compare_cont Pos.eqb].
    rewrite (Hlen 4%nat), (Hfirst 4%nat)
      by (first [lia | apply le_bytes_length]).
    rewrite (from_le_bytes_le_bytes 4)
      by (change (256 ^ Z.of_nat 4) with 4294967296; lia).
    unfold len. cbn [length]. now rewrite le_bytes_length. }
  cbn [app firstn vi_to_int]. change (Z_of_byte Byte.xff) with 255.
  cbn [Z.ltb Z.eqb Z.compare Pos.compare Pos.compare_cont Pos.eqb].
  rewrite (Hlen 8%nat), (Hfirst 8%nat)
    by (first [lia | apply le_bytes_length]).
  rewrite (from_le_bytes_le_bytes 8)
    by (change (256 ^ Z.of_nat 8) with 18446744073709551616; lia).
  unfold len. cbn [length]. now rewrite le_bytes_length.
Qed.

(** The VarInt of a positive count does not start with a zero byte. *)
Lemma encode_varint_nonzero (n : Z) :
  1 <= n ->
  exists b0 tl, encode_varint n = b0 :: tl /\ Byte.eqb b0 Byte.x00 = false.
Proof.
  intros Hn. unfold encode_varint.
  destruct (Z.ltb_spec n 253) as [H1|H1].
  - eexists _, _. split; [reflexivity|].
    destruct (Byte.eqb (byte_of_Z n) Byte.x00) eqn:E; [|reflexivity].
    apply Byte.byte_dec_bl in E.
    pose proof (Z_of_byte_of_Z n ltac:(lia)) as H. rewrite E in H.
    change (Z_of_byte Byte.x00) with 0 in H. lia.
  - destruct (n <=? 65535); [|destruct (n <=? 4294967295)];
      eexists _, _; split; reflexivity.
Qed.

(** ** The layout of [to_bytes], and sizes *)

Lemma for_each_ext {A S} (f g : S -> A -> result S) (xs : list A) (acc : S) :
  (forall a x, f a x = g a x) -> for_each xs f acc = for_each xs g acc.
Proof.
  intros H. revert acc. induction xs as [|x xs IH]; intros acc;
    [reflexivity|].
  cbn [for_each]. rewrite H. destruct (g acc x); cbn [Py.bind];
    [apply IH | reflexivity].
Qed.

(** The loop of lines 955-959 (and of lines 1014-1018) appends the
    witness section. *)
Lemma witness_loop (wits : list TxWitnessInput.t) (data : bytes) :
  for_each wits
    (fun data witness =>
       let* witnesses_count_bytes :=
         chr_encode (len (TxWitnessInput.stack witness)) in
       let data := data ++ witnesses_count_bytes in
       let* b := TxWitnessInput.to_bytes witness in
       Ok (data ++ b)) data
  = let* w := Wire.witness_section wits in Ok (data ++ w).
Proof.
  rewrite (for_each_ext _
             (fun data w => let* b := Wire.witness_entry w in Ok (data ++ b))).
  - rewrite for_each_append. unfold Wire.witness_section.
    now destruct (map_m Wire.witness_entry wits).
  - intros a w. unfold Wire.witness_entry.
    destruct (chr_encode _) as [c|e]; cbn [Py.bind]; [|reflexivity].
    destruct (TxWitnessInput.to_bytes w) as [b|e]; cbn [Py.bind];
      [now rewrite app_assoc | reflexivity].
Qed.

Lemma to_bytes_layout (t : Transaction.t) (hs : bool) :
  to_bytes t hs
  = let* ins := map_m TxInput.to_bytes (inputs t) in
    let* outs := map_m TxOutput.to_bytes (outputs t) in
    let* wit := if hs then Wire.witness_section (witnesses t) else Ok [] in
    Ok (version t ++ (if hs then [Byte.x00; Byte.x01] else [])
        ++ encode_varint (len (inputs t)) ++ concat ins
        ++ encode_varint (len (outputs t)) ++ concat outs
        ++ wit ++ locktime t).
Proof.
  unfold to_bytes. rewrite for_each_append.
  destruct (map_m TxInput.to_bytes (inputs t)) as [ins|e]; cbn [Py.bind];
    [|reflexivity].
  rewrite for_each_append.
  destruct (map_m TxOutput.to_bytes (outputs t)) as [outs|e]; cbn [Py.bind];
    [|reflexivity].
  destruct hs.
  - rewrite witness_loop.
    destruct (Wire.witness_section (witnesses t)) as [wit|e]; cbn [Py.bind];
      [|reflexivity].
    now rewrite <- !app_assoc.
  - cbn [Py.bind app]. now rewrite <- !app_assoc.
Qed.

(** The two forms of [to_bytes], side by side. *)
Lemma to_bytes_true_false (t : Transaction.t) (b : bytes) :
  to_bytes t true = Ok b ->
  exists body wit,
    Wire.witness_section (witnesses t) = Ok wit
    /\ to_bytes t false = Ok (version t ++ body ++ locktime t)
    /\ b = version t ++ [Byte.x00; Byte.x01] ++ body ++ wit ++ locktime t.
Proof.
  rewrite !to_bytes_layout.
  destruct (map_m TxInput.to_bytes (inputs t)) as [ins|e]; cbn [Py.bind];
    [|discriminate].
  destruct (map_m TxOutput.to_bytes (outputs t)) as [outs|e]; cbn [Py.bind];
    [|discriminate].
  destruct (Wire.witness_section (witnesses t)) as [wit|e]; cbn [Py.bind];
    [|discriminate].
  intros [= <-].
  exists (encode_varint (len (inputs t)) ++ concat ins
          ++ encode_varint (len (outputs t)) ++ concat outs), wit.
  split; [reflexivity|]. cbn [app]. rewrite <- !app_assoc.
  split; reflexivity.
Qed.

(** X11: the segwit serialisation is the legacy one with the marker and
    the flag after the version and the witness section before the
    locktime; a transaction that serialises with witnesses serialises
    without. *)
Theorem segwit_bytes_extend_legacy (t : Transaction.t) (b : bytes) :
  to_bytes t true = Ok b ->
  exists body wit,
    Wire.witness_section (witnesses t) = Ok wit
    /\ to_bytes t false = Ok (version t ++ body ++ locktime t)
    /\ b = version t ++ [Byte.x00; Byte.x01] ++ body ++ wit ++ locktime t
    /\ len b = len (version t ++ body ++ locktime t) + 2 + len wit.
Proof.
  intros Hb.
  destruct (to_bytes_true_false t b Hb) as (body & wit & H1 & H2 & ->).
  exists body, wit. split; [exact H1|]. split; [exact H2|].
  split; [reflexivity|].
  rewrite !len_app. change (len [Byte.x00; Byte.x01]) with 2. lia.
Qed.

(** [segwit_bytes_extend_legacy] at the example transaction with two
    witnesses. *)
Lemma segwit_bytes_extend_legacy_witness :
  exists b body wit,
    to_bytes (Examples.tx_with
                [TxWitnessInput.mk ["00"%string]; TxWitnessInput.mk []]) true
    = Ok b
    /\ b = Examples.unhex "01000000" ++ [Byte.x00; Byte.x01] ++ body ++ wit
           ++ Examples.unhex "11000000".
Proof.
  destruct (to_bytes (Examples.tx_with
                        [TxWitnessInput.mk ["00"%string];
                         TxWitnessInput.mk []]) true) as [b|e] eqn:E;
    [|vm_compute in E; discriminate E].
  destruct (segwit_bytes_extend_legacy _ b E)
    as (body & wit & _ & _ & Hb & _).
  exists b, body, wit. split; [reflexivity | exact Hb].
Defined.

Lemma round53_small (q : Z) : Z.abs q < 2 ^ 53 -> PyFloat.round53 q = q.
Proof.
  intros Hq. unfold PyFloat.round53.
  destruct (Z.leb_spec (Z.log2 (Z.abs q) - 52) 0) as [H|H]; [reflexivity|].
  exfalso. destruct (Z.eq_dec (Z.abs q) 0) as [E|E].
  - rewrite E in H. cbn in H. lia.
  - assert (Z.log2 (Z.abs q) < 53) by (apply Z.log2_lt_pow2; lia). lia.
Qed.

Lemma to_float_small (q : Z) : Z.abs q < 2 ^ 53 -> PyFloat.to_float q = Ok q.
Proof.
  intros Hq. unfold PyFloat.to_float. rewrite round53_small by exact Hq.
  assert (2 ^ 53 < 2 ^ 1026) by (apply Z.pow_lt_mono_r; lia).
  destruct (Z.leb_spec (2 ^ 1026) (Z.abs q)); [lia | reflexivity].
Qed.

(** The virtual size of a segwit transaction, below [2 ^ 50] bytes. *)
Lemma get_vsize_segwit (t : Transaction.t) (b : bytes) :
  has_segwit t = true -> to_bytes t true = Ok b -> len b < 2 ^ 50 ->
  exists b0 wit,
    to_bytes t false = Ok b0
    /\ Wire.witness_section (witnesses t) = Ok wit
    /\ len b = len b0 + 2 + len wit
    /\ get_vsize t = Ok ((3 * len b0 + len b + 3) / 4).
Proof.
  intros Hs Hb Hlen.
  destruct (to_bytes_true_false t b Hb) as (body & wit & Hw & Hb0 & ->).
  exists (version t ++ body ++ locktime t), wit.
  split; [exact Hb0|]. split; [exact Hw|].
  assert (Hl : len (version t ++ [Byte.x00; Byte.x01] ++ body ++ wit
                    ++ locktime t)
               = len (version t ++ body ++ locktime t) + 2 + len wit).
  { rewrite !len_app. change (len [Byte.x00; Byte.x01]) with 2. lia. }
  split; [exact Hl|].
  unfold get_vsize, get_size. rewrite Hs. cbn [negb].
  rewrite witness_loop, Hw, Hb. cbn [Py.bind]. rewrite app_nil_l.
  set (n := len (version t ++ [Byte.x00; Byte.x01] ++ body ++ wit
                 ++ locktime t)) in *.
  set (n0 := len (version t ++ body ++ locktime t)) in *.
  pose proof (len_nonneg wit) as Hwit.
  assert (Hn0 : 0 <= n0) by apply len_nonneg.
  change (2 ^ 50) with 1125899906842624 in Hlen.
  assert (H53 : 2 ^ 53 = 9007199254740992) by reflexivity.
  unfold PyFloat.int_div_4, PyFloat.int_add_float.
  rewrite (to_float_small (2 + len wit)) by lia. cbn [Py.bind].
  rewrite (to_float_small (4 * (n - (2 + len wit)))) by lia.
  cbn [Py.bind].
  rewrite (to_float_small (4 * (n - (2 + len wit)) + (2 + len wit))) by lia.
  cbn [Py.bind]. unfold PyFloat.ceil. f_equal.
  rewrite Hl.
  pose proof (Z.div_mod (- (4 * (n0 + 2 + len wit - (2 + len wit))
                            + (2 + len wit))) 4 ltac:(lia)).
  pose proof (Z.mod_pos_bound (- (4 * (n0 + 2 + len wit - (2 + len wit))
                                  + (2 + len wit))) 4 ltac:(lia)).
  pose proof (Z.div_mod (3 * n0 + (n0 + 2 + len wit) + 3) 4 ltac:(lia)).
  pose proof (Z.mod_pos_bound (3 * n0 + (n0 + 2 + len wit) + 3) 4
                ltac:(lia)).
  lia.
Qed.

(** X12: the virtual size is the size for a transaction without segwit
    and, for a segwit transaction of fewer than [2 ^ 50] bytes, the weight
    (three times the size without witnesses plus the size with them)
    divided by four and rounded up. *)
Theorem get_vsize_is_weight_over_4 (t : Transaction.t) (b : bytes) :
  to_bytes t (has_segwit t) = Ok b -> len b < 2 ^ 50 ->
  exists b0,
    to_bytes t false = Ok b0
    /\ get_vsize t
       = Ok (if has_segwit t then (3 * len b0 + len b + 3) / 4 else len b).
Proof.
  intros Hb Hlen. destruct (has_segwit t) eqn:Hs.
  - destruct (get_vsize_segwit t b Hs Hb Hlen) as (b0 & wit & H0 & _ & _ & Hv).
    exists b0. split; [exact H0 | exact Hv].
  - exists b. split; [exact Hb|].
    unfold get_vsize, get_size. rewrite Hs. cbn [negb]. now rewrite Hb.
Qed.

(** [get_vsize_is_weight_over_4] at a segwit transaction with a witness of
    two items: 85 bytes without witnesses, 92 with, virtual size 87. *)
Lemma get_vsize_is_weight_over_4_witness :
  get_vsize (Examples.tx_stack 2) = Ok 87.
Proof.
  destruct (to_bytes (Examples.tx_stack 2) true) as [b|e] eqn:E;
    [|vm_compute in E; discriminate E].
  destruct (get_vsize_is_weight_over_4 (Examples.tx_stack 2) b)
    as (b0 & H0 & Hv); [exact E | |].
  - vm_compute in E. injection E as <-. reflexivity.
  - rewrite Hv. vm_compute in E, H0. injection E as <-. injection H0 as <-.
    reflexivity.
Defined.

(** X13: the virtual size of a segwit transaction (of fewer than [2 ^ 50]
    bytes) is more than its size without witnesses and less than its
    size; without segwit the two are equal. *)
Theorem get_vsize_bounds (t : Transaction.t) (size vsize : Z) :
  get_size t = Ok size -> size < 2 ^ 50 -> get_vsize t = Ok vsize ->
  if has_segwit t then
    exists b0, to_bytes t false = Ok b0 /\ len b0 < vsize < size
  else vsize = size.
Proof.
  unfold get_size. intros Hsize Hlt Hv.
  destruct (to_bytes t (has_segwit t)) as [b|e] eqn:Hb; [|discriminate].
  cbn [Py.bind] in Hsize. injection Hsize as <-.
  destruct (has_segwit t) eqn:Hs.
  - destruct (get_vsize_segwit t b Hs Hb Hlt)
      as (b0 & wit & H0 & _ & Hl & Hv').
    rewrite Hv' in Hv. injection Hv as <-.
    exists b0. split; [exact H0|].
    pose proof (len_nonneg wit). pose proof (len_nonneg b0).
    pose proof (Z.div_mod (3 * len b0 + len b + 3) 4 ltac:(lia)).
    pose proof (Z.mod_pos_bound (3 * len b0 + len b + 3) 4 ltac:(lia)).
    lia.
  - unfold get_vsize, get_size in Hv. rewrite Hs in Hv. cbn [negb] in Hv.
    rewrite Hb in Hv. now injection Hv as <-.
Qed.

(** [get_vsize_bounds] at the same transaction. *)
Lemma get_vsize_bounds_witness :
  exists b0, to_bytes (Examples.tx_stack 2) false = Ok b0 /\ len b0 < 87 < 92.
Proof.
  apply (get_vsize_bounds (Examples.tx_stack 2) 92 87);
    [by_evaluation | reflexivity | by_evaluation].
Defined.

(** ** Reading back what [to_bytes] wrote *)

(** The side conditions of a slice: where the field lies in the raw
    bytes, and the bounds. *)
Ltac wire_side Hraw :=
  first [ exact Hraw
        | rewrite Hraw, <- ?app_assoc; reflexivity
        | rewrite ?len_app; lia ].

Lemma read_varint (raw pre rest : bytes) (n c : Z) :
  raw = pre ++ encode_varint n ++ rest ->
  0 <= n < 18446744073709551616 -> c = len pre ->
  vi_to_int (slice raw c (c + 9)) = Ok (n, len (encode_varint n)).
Proof.
  intros Hraw Hn Hc.
  rewrite (slice_from raw pre (encode_varint n ++ rest) c (c + 9) Hraw Hc)
    by lia.
  replace (Z.to_nat (c + 9 - c)) with 9%nat by lia.
  apply vi_to_int_encode, Hn.
Qed.

Lemma canonical_hex_inv (s : string) :
  Wire.canonical_hex s = true -> exists b, unhexlify s = Ok b /\ hex b = s.
Proof.
  unfold Wire.canonical_hex. destruct (unhexlify s) as [b|e]; [|discriminate].
  intros H. exists b. split; [reflexivity | now apply String.eqb_eq].
Qed.

Lemma script_from_raw_to_bytes (s : Script.t) (hs : bool) :
  Script.from_raw (Script.to_bytes s) hs = s.
Proof. now destruct s. Qed.

Lemma txin_ok_inv (x : TxInput.t) :
  Wire.txin_ok x = true ->
  exists tb,
    unhexlify (TxInput.txid x) = Ok tb
    /\ length tb = 32%nat
    /\ 0 <= TxInput.txout_index x < 256 ^ Z.of_nat 4
    /\ length (TxInput.sequence x) = 4%nat
    /\ 0 <= len (Script.to_bytes (TxInput.script_sig x))
       < 18446744073709551616.
Proof.
  unfold Wire.txin_ok, Wf.txin_ok. intros H.
  apply andb_true_l_r in H as [H Hs].
  apply andb_true_l_r in H as [H Hq].
  apply andb_true_l_r in H as [Ht Hi].
  apply txid_ok_inv in Ht as (tb & Htb & Hlen).
  exists tb. split; [exact Htb|].
  split; [exact Hlen|]. split; [now apply u32_inv|].
  split; [now apply Nat.eqb_eq|].
  apply u64_inv in Hs.
  change (256 ^ Z.of_nat 8) with 18446744073709551616 in Hs. exact Hs.
Qed.

Lemma txin_to_bytes_ok (x : TxInput.t) :
  Wire.txin_ok x = true -> TxInput.to_bytes x = Ok (Wire.txin x).
Proof.
  intros H. apply txin_ok_inv in H as (tb & Htb & _ & Hi & _).
  unfold TxInput.to_bytes, Wire.txin, Wf.txid_wire, pack_L.
  rewrite Htb, (pack_unsigned_ok 4 _ Hi). reflexivity.
Qed.

(** An input that [to_bytes] wrote at the cursor is read back, its txid
    in lower case, and the cursor is left after it. *)
Lemma txin_from_raw (raw pre post : bytes) (x : TxInput.t) (hs : bool) :
  raw = pre ++ Wire.txin x ++ post -> Wire.txin_ok x = true ->
  TxInput.from_raw raw (len pre) hs
  = Ok (Wire.read_txin x, len pre + len (Wire.txin x)).
Proof.
  intros Hraw H.
  apply txin_ok_inv in H as (tb & Htb & Htl & Hi & Hq & Hs).
  unfold Wire.read_txin, Wire.txin, Wf.txid_wire in *. rewrite Htb in *.
  set (s := Script.to_bytes (TxInput.script_sig x)) in *.
  set (vi := encode_varint (len s)) in *.
  set (ix := le_bytes 4 (TxInput.txout_index x)) in *.
  assert (Hraw' : raw = pre ++ rev tb ++ ix ++ vi ++ s ++ TxInput.sequence x
                        ++ post)
    by (rewrite Hraw, <- !app_assoc; reflexivity).
  assert (Ltb : len (rev tb) = 32) by (unfold len; rewrite length_rev; lia).
  assert (Lix : len ix = 4)
    by (unfold len, ix; rewrite le_bytes_length; reflexivity).
  assert (Lq : len (TxInput.sequence x) = 4) by (unfold len; lia).
  pose proof (len_nonneg pre) as Hpre.
  unfold TxInput.from_raw.
  rewrite (slice_at raw pre (rev tb) (ix ++ vi ++ s ++ TxInput.sequence x
                                      ++ post) (len pre) (len pre + 32))
    by wire_side Hraw'.
  rewrite rev_involutive.
  destruct (Z.eqb_spec (len tb) 0) as [E|_];
    [unfold len in E; lia|].
  rewrite (slice_at raw (pre ++ rev tb) ix (vi ++ s ++ TxInput.sequence x
                                            ++ post)
             (len pre + 32) (len pre + 36))
    by wire_side Hraw'.
  rewrite (read_varint raw (pre ++ rev tb ++ ix) (s ++ TxInput.sequence x ++ post)
             (len s) (len pre + 36))
    by first [exact Hs | wire_side Hraw'].
  cbn [Py.bind]. fold vi.
  rewrite (slice_at raw (pre ++ rev tb ++ ix ++ vi) s
             (TxInput.sequence x ++ post)
             (len pre + 36 + len vi) (len pre + 36 + len vi + len s))
    by wire_side Hraw'.
  rewrite (slice_at raw (pre ++ rev tb ++ ix ++ vi ++ s) (TxInput.sequence x)
             post (len pre + 36 + len vi + len s)
             (len pre + 36 + len vi + len s + 4))
    by wire_side Hraw'.
  rewrite rev_involutive.
  destruct (Z.eqb_spec (len (rev ix)) 0) as [E|_];
    [unfold len in E; rewrite length_rev in E; unfold len in Lix; lia|].
  unfold ix. rewrite (from_le_bytes_le_bytes 4 _ Hi).
  unfold s. rewrite script_from_raw_to_bytes.
  f_equal. f_equal.
  rewrite !len_app. fold s vi ix. lia.
Qed.

Lemma Z_of_byte_of_Z_mod (z : Z) : Z_of_byte (byte_of_Z z) = z mod 256.
Proof.
  assert (H : byte_of_Z z = byte_of_Z (z mod 256))
    by (unfold byte_of_Z; now rewrite Z.mod_mod).
  rewrite H. apply Z_of_byte_of_Z, Z.mod_pos_bound. lia.
Qed.

(** The [n] low-order bytes of an integer decode to it modulo
    [256 ^ n]. *)
Lemma from_le_bytes_le_bytes_mod (n : nat) (z : Z) :
  from_le_bytes (le_bytes n z) = z mod 256 ^ Z.of_nat n.
Proof.
  revert z. induction n as [|n IH]; intros z.
  - cbn. now rewrite Z.mod_1_r.
  - cbn [le_bytes from_le_bytes].
    rewrite IH, Z_of_byte_of_Z_mod, Nat2Z.inj_succ, Z.pow_succ_r by lia.
    rewrite Z.rem_mul_r by lia. reflexivity.
Qed.

Lemma txout_ok_inv (y : TxOutput.t) :
  Wire.txout_ok y = true ->
  - (256 ^ Z.of_nat 8 / 2) <= TxOutput.amount y < 256 ^ Z.of_nat 8 / 2
  /\ 0 <= len (Script.to_bytes (TxOutput.script_pubkey y))
     < 18446744073709551616.
Proof.
  unfold Wire.txout_ok. intros H.
  apply andb_true_l_r in H as [Ha Hs].
  apply u64_inv in Hs.
  change (256 ^ Z.of_nat 8) with 18446744073709551616 in Hs.
  split; [now apply i64_inv | exact Hs].
Qed.

Lemma txout_to_bytes_ok (y : TxOutput.t) :
  Wire.txout_ok y = true -> TxOutput.to_bytes y = Ok (Wire.txout y).
Proof.
  intros H. apply txout_ok_inv in H as [Ha _].
  unfold TxOutput.to_bytes, Wire.txout, pack_q.
  now rewrite (pack_signed_ok 8 _ Ha).
Qed.

(** An output that [to_bytes] wrote at the cursor is read back, its
    amount as an unsigned integer. *)
Lemma txout_from_raw (raw pre post : bytes) (y : TxOutput.t) (hs : bool) :
  raw = pre ++ Wire.txout y ++ post -> Wire.txout_ok y = true ->
  TxOutput.from_raw raw (len pre) hs
  = Ok (Wire.read_txout y, len pre + len (Wire.txout y)).
Proof.
  intros Hraw H. apply txout_ok_inv in H as [Ha Hs].
  unfold Wire.read_txout, Wire.txout in *.
  set (s := Script.to_bytes (TxOutput.script_pubkey y)) in *.
  set (vi := encode_varint (len s)) in *.
  set (am := le_bytes 8 (TxOutput.amount y)) in *.
  assert (Hraw' : raw = pre ++ am ++ vi ++ s ++ post)
    by (rewrite Hraw, <- !app_assoc; reflexivity).
  assert (Lam : len am = 8)
    by (unfold len, am; rewrite le_bytes_length; reflexivity).
  unfold TxOutput.from_raw.
  rewrite (slice_at raw pre am (vi ++ s ++ post) (len pre) (len pre + 8))
    by wire_side Hraw'.
  rewrite (read_varint raw (pre ++ am) (s ++ post) (len s) (len pre + 8))
    by first [exact Hs | wire_side Hraw'].
  cbn [Py.bind]. fold vi.
  rewrite (slice_at raw (pre ++ am ++ vi) s post
             (len pre + 8 + len vi) (len pre + 8 + len vi + len s))
    by wire_side Hraw'.
  unfold am. rewrite (from_le_bytes_le_bytes_mod 8).
  unfold s. rewrite script_from_raw_to_bytes.
  f_equal. f_equal.
  rewrite !len_app. fold s vi am. lia.
Qed.

Lemma read_inputs_ok (hs : bool) (xs : list TxInput.t) :
  Forall (fun x => Wire.txin_ok x = true) xs ->
  forall raw pre post acc,
    raw = pre ++ flat_map Wire.txin xs ++ post ->
    read_inputs (length xs) raw (len pre) hs acc
    = Ok (acc ++ map Wire.read_txin xs,
          len pre + len (flat_map Wire.txin xs)).
Proof.
  induction 1 as [|x xs Hx _ IH]; intros raw pre post acc Hraw.
  - cbn. now rewrite app_nil_r, Z.add_0_r.
  - cbn [length read_inputs flat_map map] in *.
    rewrite (txin_from_raw raw pre (flat_map Wire.txin xs ++ post) x hs)
      by first [exact Hx | rewrite Hraw, <- ?app_assoc; reflexivity].
    cbn [Py.bind]. rewrite <- len_app.
    rewrite (IH raw (pre ++ Wire.txin x) post)
      by (rewrite Hraw, <- ?app_assoc; reflexivity).
    rewrite <- app_assoc, !len_app. cbn [app]. f_equal. f_equal. lia.
Qed.

Lemma read_outputs_ok (hs : bool) (ys : list TxOutput.t) :
  Forall (fun y => Wire.txout_ok y = true) ys ->
  forall raw pre post acc,
    raw = pre ++ flat_map Wire.txout ys ++ post ->
    read_outputs (length ys) raw (len pre) hs acc
    = Ok (acc ++ map Wire.read_txout ys,
          len pre + len (flat_map Wire.txout ys)).
Proof.
  induction 1 as [|y ys Hy _ IH]; intros raw pre post acc Hraw.
  - cbn. now rewrite app_nil_r, Z.add_0_r.
  - cbn [length read_outputs flat_map map] in *.
    rewrite (txout_from_raw raw pre (flat_map Wire.txout ys ++ post) y hs)
      by first [exact Hy | rewrite Hraw, <- ?app_assoc; reflexivity].
    cbn [Py.bind]. rewrite <- len_app.
    rewrite (IH raw (pre ++ Wire.txout y) post)
      by (rewrite Hraw, <- ?app_assoc; reflexivity).
    rewrite <- app_assoc, !len_app. cbn [app]. f_equal. f_equal. lia.
Qed.

Lemma item_ok_inv (item : string) :
  Wire.item_ok item = true ->
  exists b,
    unhexlify item = Ok b
    /\ 0 <= len b < 18446744073709551616
    /\ Wire.item item = encode_varint (len b) ++ b
    /\ Wire.read_item item = (if len b =? 0 then "00"%string else hex b).
Proof.
  unfold Wire.item_ok, Wire.item, Wire.read_item, prepend_varint.
  destruct (unhexlify item) as [b|e]; [|discriminate].
  intros Hu. apply u64_inv in Hu.
  change (256 ^ Z.of_nat 8) with 18446744073709551616 in Hu.
  exists b. split; [reflexivity|]. split; [exact Hu|].
  split; [reflexivity|]. now destruct b.
Qed.

Lemma read_witness_items_ok (items : list string) :
  Forall (fun i => Wire.item_ok i = true) items ->
  forall raw pre post acc,
    raw = pre ++ flat_map Wire.item items ++ post ->
    read_witness_items (length items) raw (len pre) acc
    = Ok (acc ++ map Wire.read_item items,
          len pre + len (flat_map Wire.item items)).
Proof.
  induction 1 as [|i items Hi _ IH]; intros raw pre post acc Hraw.
  - cbn. now rewrite app_nil_r, Z.add_0_r.
  - cbn [length read_witness_items flat_map map] in *.
    apply item_ok_inv in Hi as (b & _ & Hb & Hitem & Hread).
    rewrite Hitem in *. rewrite Hread.
    set (vi := encode_varint (len b)) in *.
    assert (Hraw' : raw = pre ++ vi ++ b ++ flat_map Wire.item items ++ post)
      by (rewrite Hraw, <- ?app_assoc; reflexivity).
    rewrite (read_varint raw pre (b ++ flat_map Wire.item items ++ post)
               (len b) (len pre))
      by first [exact Hraw' | lia | reflexivity].
    cbn [Py.bind]. fold vi.
    assert (Hw : hex (if len b =? 0 then [Byte.x00]
                      else slice raw (len pre + len vi)
                             (len pre + len b + len vi))
                 = (if len b =? 0 then "00"%string else hex b)).
    { destruct (len b =? 0); [reflexivity|].
      now rewrite (slice_at raw (pre ++ vi) b
                     (flat_map Wire.item items ++ post)
                     (len pre + len vi) (len pre + len b + len vi))
        by wire_side Hraw'. }
    rewrite Hw.
    replace (len pre + (len b + len vi)) with (len (pre ++ vi ++ b))
      by (rewrite !len_app; lia).
    rewrite (IH raw (pre ++ vi ++ b) post)
      by (rewrite Hraw', <- ?app_assoc; reflexivity).
    rewrite <- app_assoc, !len_app. cbn [app]. f_equal. f_equal. lia.
Qed.

Lemma witness_to_bytes_ok (w : TxWitnessInput.t) :
  Forall (fun i => Wire.item_ok i = true) (TxWitnessInput.stack w) ->
  TxWitnessInput.to_bytes w = Ok (flat_map Wire.item (TxWitnessInput.stack w)).
Proof.
  intros H. unfold TxWitnessInput.to_bytes.
  rewrite (for_each_ext _
             (fun acc item =>
                let* b := (let* r := unhexlify item in Ok (prepend_varint r))
                in Ok (acc ++ b)))
    by (intros a x; now destruct (unhexlify x)).
  apply map_m_total. eapply Forall_impl; [exact H|].
  intros i Hi. cbv beta in Hi. unfold Wire.item.
  apply item_ok_inv in Hi as (b & Hb & _). now rewrite Hb.
Qed.

Lemma witness_ok_inv (w : TxWitnessInput.t) :
  Wire.witness_ok w = true ->
  0 <= len (TxWitnessInput.stack w) < 128
  /\ Forall (fun i => Wire.item_ok i = true) (TxWitnessInput.stack w).
Proof.
  unfold Wire.witness_ok. intros H. apply andb_true_l_r in H as [Hn Hi].
  pose proof (len_nonneg (TxWitnessInput.stack w)).
  split; [lia | now apply forallb_Forall].
Qed.

Lemma witness_entry_ok (w : TxWitnessInput.t) :
  Wire.witness_ok w = true -> Wire.witness_entry w = Ok (Wire.witness w).
Proof.
  intros H. apply witness_ok_inv in H as [Hn Hi].
  unfold Wire.witness_entry, Wire.witness.
  rewrite (chr_encode_below_128 _ Hn), (witness_to_bytes_ok w Hi).
  reflexivity.
Qed.

Lemma read_witnesses_ok (ws : list TxWitnessInput.t) :
  Forall (fun w => Wire.witness_ok w = true) ws ->
  forall raw pre post acc,
    raw = pre ++ flat_map Wire.witness ws ++ post ->
    read_witnesses (length ws) raw (len pre) acc
    = Ok (acc ++ map Wire.read_witness ws,
          len pre + len (flat_map Wire.witness ws)).
Proof.
  induction 1 as [|w ws Hw _ IH]; intros raw pre post acc Hraw.
  - cbn. now rewrite app_nil_r, Z.add_0_r.
  - cbn [length read_witnesses flat_map map] in *.
    apply witness_ok_inv in Hw as [Hn Hi].
    unfold Wire.witness in Hraw at 1. unfold Wire.witness at 1.
    set (n := len (TxWitnessInput.stack w)) in *.
    set (its := flat_map Wire.item (TxWitnessInput.stack w)) in *.
    assert (Hvi : encode_varint n = [byte_of_Z n]).
    { unfold encode_varint. destruct (Z.ltb_spec n 253); [reflexivity | lia]. }
    assert (Hraw' : raw = pre ++ encode_varint n ++ its
                          ++ flat_map Wire.witness ws ++ post)
      by (rewrite Hraw, Hvi, <- ?app_assoc; reflexivity).
    rewrite (read_varint raw pre (its ++ flat_map Wire.witness ws ++ post)
               n (len pre))
      by first [exact Hraw' | lia | reflexivity].
    cbn [Py.bind]. rewrite <- len_app.
    replace (Z.to_nat n) with (length (TxWitnessInput.stack w))
      by (unfold n, len; lia).
    unfold Wire.read_witness at 1.
    rewrite (read_witness_items_ok _ Hi raw (pre ++ encode_varint n)
               (flat_map Wire.witness ws ++ post))
      by (rewrite Hraw', <- ?app_assoc; reflexivity).
    cbn [Py.bind app]. fold its. rewrite <- len_app.
    rewrite (IH raw ((pre ++ encode_varint n) ++ its) post)
      by (rewrite Hraw', <- ?app_assoc; reflexivity).
    rewrite <- app_assoc, Hvi. cbn [app]. f_equal.
    f_equal.
    unfold len. rewrite ?length_app. cbn [length]. rewrite ?length_app. lia.
Qed.

Lemma tx_ok_inv (t : Transaction.t) (hs : bool) :
  Wire.tx_ok t hs = true ->
  length (version t) = 4%nat
  /\ 1 <= len (inputs t) < 18446744073709551616
  /\ 0 <= len (outputs t) < 18446744073709551616
  /\ Forall (fun x => Wire.txin_ok x = true) (inputs t)
  /\ Forall (fun y => Wire.txout_ok y = true) (outputs t)
  /\ (hs = true ->
      length (witnesses t) = length (inputs t)
      /\ Forall (fun w => Wire.witness_ok w = true) (witnesses t)).
Proof.
  unfold Wire.tx_ok. intros H.
  apply andb_true_l_r in H as [H Hw].
  apply andb_true_l_r in H as [H Ho].
  apply andb_true_l_r in H as [H Hi].
  apply andb_true_l_r in H as [H Hno].
  apply andb_true_l_r in H as [H Hni].
  apply andb_true_l_r in H as [Hv H1].
  apply u64_inv in Hni, Hno.
  change (256 ^ Z.of_nat 8) with 18446744073709551616 in Hni, Hno.
  split; [now apply Nat.eqb_eq|]. split; [lia|]. split; [exact Hno|].
  split; [now apply forallb_Forall|]. split; [now apply forallb_Forall|].
  intros ->. apply andb_true_l_r in Hw as [Hl Hw].
  split; [now apply Nat.eqb_eq | now apply forallb_Forall].
Qed.

(** The bytes of a transaction that is read back. *)
Lemma to_bytes_wire (t : Transaction.t) (hs : bool) :
  Wire.tx_ok t hs = true ->
  to_bytes t hs
  = Ok (version t ++ (if hs then [Byte.x00; Byte.x01] else [])
        ++ encode_varint (len (inputs t)) ++ flat_map Wire.txin (inputs t)
        ++ encode_varint (len (outputs t)) ++ flat_map Wire.txout (outputs t)
        ++ (if hs then flat_map Wire.witness (witnesses t) else [])
        ++ locktime t).
Proof.
  intros H. apply tx_ok_inv in H as (_ & _ & _ & Hi & Ho & Hw).
  rewrite to_bytes_layout.
  rewrite (map_m_ok TxInput.to_bytes Wire.txin (inputs t))
    by (eapply Forall_impl; [exact Hi|]; intros x; apply txin_to_bytes_ok).
  rewrite (map_m_ok TxOutput.to_bytes Wire.txout (outputs t))
    by (eapply Forall_impl; [exact Ho|]; intros y; apply txout_to_bytes_ok).
  cbn [Py.bind]. rewrite <- !flat_map_concat_map.
  destruct hs; [|reflexivity].
  destruct (Hw eq_refl) as [_ Hws]. unfold Wire.witness_section.
  rewrite (map_m_ok Wire.witness_entry Wire.witness (witnesses t))
    by (eapply Forall_impl; [exact Hws|]; intros w; apply witness_entry_ok).
  cbn [Py.bind]. now rewrite <- flat_map_concat_map.
Qed.

(** [from_raw] reads back the inputs, the outputs, the segwit flag and, in
    the segwit form, the witnesses that [to_bytes] wrote. *)
Lemma from_raw_to_bytes (t : Transaction.t) (hs : bool) :
  Wire.tx_ok t hs = true ->
  exists b, to_bytes t hs = Ok b /\ from_raw b = Ok (Wire.parsed t hs).
Proof.
  intros Hok. rewrite (to_bytes_wire t hs Hok). eexists. split; [reflexivity|].
  apply tx_ok_inv in Hok as (Hv & Hni & Hno & Hi & Ho & Hw).
  set (marker := if hs then [Byte.x00; Byte.x01] else []).
  set (vin := encode_varint (len (inputs t))).
  set (ins := flat_map Wire.txin (inputs t)).
  set (vout := encode_varint (len (outputs t))).
  set (outs := flat_map Wire.txout (outputs t)).
  set (wit := if hs then flat_map Wire.witness (witnesses t) else []).
  set (raw := version t ++ marker ++ vin ++ ins ++ vout ++ outs ++ wit
              ++ locktime t).
  assert (Hraw : raw = version t ++ marker ++ vin ++ ins ++ vout ++ outs
                       ++ wit ++ locktime t) by reflexivity.
  clearbody raw.
  assert (Lv : len (version t) = 4) by (unfold len; lia).
  assert (Hhead :
            (if bytes_eqb (slice raw 4 5) [Byte.x00]
             then (if bytes_eqb (slice raw 5 6) [Byte.x01] then true else false,
                   4 + 2)
             else (false, 4))
            = (hs, len (version t ++ marker))).
  { destruct hs; unfold marker in *.
    - rewrite (slice_at raw (version t) [Byte.x00]
                 ([Byte.x01] ++ vin ++ ins ++ vout ++ outs ++ wit
                  ++ locktime t) 4 5)
        by first [exact Hraw | lia | reflexivity].
      rewrite (slice_at raw (version t ++ [Byte.x00]) [Byte.x01]
                 (vin ++ ins ++ vout ++ outs ++ wit ++ locktime t) 5 6)
        by first [rewrite Hraw, <- ?app_assoc; reflexivity
                 | rewrite len_app, Lv; reflexivity | reflexivity].
      cbn [bytes_eqb Byte.eqb andb]. rewrite len_app, Lv. reflexivity.
    - destruct (encode_varint_nonzero (len (inputs t)) ltac:(lia))
        as (b0 & tl & Hb0 & Hne).
      fold vin in Hb0.
      rewrite (slice_at raw (version t) [b0]
                 (tl ++ ins ++ vout ++ outs ++ wit ++ locktime t) 4 5)
        by first [rewrite Hraw, Hb0; reflexivity | lia | reflexivity].
      cbn [bytes_eqb]. rewrite Hne. cbn [andb].
      now rewrite app_nil_r, Lv. }
  unfold from_raw. cbv zeta. rewrite Hhead.
  rewrite (read_varint raw (version t ++ marker)
             (ins ++ vout ++ outs ++ wit ++ locktime t) (len (inputs t)))
    by first [rewrite Hraw, <- ?app_assoc; reflexivity | lia | reflexivity].
  cbn [Py.bind]. fold vin. rewrite <- len_app.
  replace (Z.to_nat (len (inputs t))) with (length (inputs t))
    by (unfold len; lia).
  rewrite (read_inputs_ok hs _ Hi raw ((version t ++ marker) ++ vin)
             (vout ++ outs ++ wit ++ locktime t))
    by (rewrite Hraw, <- ?app_assoc; reflexivity).
  cbn [Py.bind app]. fold ins. rewrite <- len_app.
  rewrite (read_varint raw (((version t ++ marker) ++ vin) ++ ins)
             (outs ++ wit ++ locktime t) (len (outputs t)))
    by first [rewrite Hraw, <- ?app_assoc; reflexivity | lia | reflexivity].
  cbn [Py.bind]. fold vout. rewrite <- len_app.
  replace (Z.to_nat (len (outputs t))) with (length (outputs t))
    by (unfold len; lia).
  rewrite (read_outputs_ok hs _ Ho raw
             ((((version t ++ marker) ++ vin) ++ ins) ++ vout)
             (wit ++ locktime t))
    by (rewrite Hraw, <- ?app_assoc; reflexivity).
  cbn [Py.bind app]. fold outs. rewrite <- len_app.
  unfold Wire.parsed. destruct hs; [|reflexivity].
  destruct (Hw eq_refl) as [Hl Hws]. rewrite length_map, <- Hl.
  unfold wit in Hraw.
  rewrite (read_witnesses_ok _ Hws raw
             (((((version t ++ marker) ++ vin) ++ ins) ++ vout) ++ outs)
             (locktime t))
    by (rewrite Hraw, <- ?app_assoc; reflexivity).
  reflexivity.
Qed.

(** X14: [from_raw] reads back what [to_bytes] wrote: the inputs with
    their txids in lower case, the outputs with their amounts as unsigned
    64-bit integers, the segwit flag and, in the segwit form, the
    witnesses with their items in lower case and [00] for an empty item;
    [version] and [locktime] are the defaults. *)
Theorem from_raw_reads_to_bytes (t : Transaction.t) (hs : bool) :
  Wire.tx_ok t hs = true ->
  exists b, to_bytes t hs = Ok b /\ from_raw b = Ok (Wire.parsed t hs).
Proof. apply from_raw_to_bytes. Qed.

(** [from_raw_reads_to_bytes] at a segwit transaction with a witness of
    two items. *)
Lemma from_raw_reads_to_bytes_witness :
  exists b,
    to_bytes (Examples.tx_stack 2) true = Ok b
    /\ from_raw b = Ok (Wire.parsed (Examples.tx_stack 2) true).
Proof. apply from_raw_reads_to_bytes. by_evaluation. Defined.

Lemma hex_nil_inv (b : bytes) : hex b = EmptyString -> b = [].
Proof. destruct b; [reflexivity | discriminate]. Qed.

Lemma map_id_iff {A} (f : A -> A) (l : list A) :
  map f l = l <-> Forall (fun x => f x = x) l.
Proof.
  induction l as [|x l IH]; cbn [map]; split; intros H.
  - constructor.
  - reflexivity.
  - injection H as Hx Hl. constructor; [exact Hx | now apply IH].
  - inversion H as [|? ? Hx Hl]; subst. rewrite Hx. f_equal. now apply IH.
Qed.

Lemma forallb_true_iff {A} (p : A -> bool) (l : list A) :
  forallb p l = true <-> Forall (fun x => p x = true) l.
Proof.
  rewrite forallb_forall, Forall_forall. split; intros H x Hx;
    apply H; [now apply list_elem_of_In | now apply list_elem_of_In].
Qed.

Lemma Forall_iff_under {A} (P Q R : A -> Prop) (l : list A) :
  Forall R l -> (forall x, R x -> (P x <-> Q x)) ->
  (Forall P l <-> Forall Q l).
Proof.
  intros HR H. induction HR as [|x l Hx _ IH]; [split; constructor|].
  split; intros HF; inversion HF; subst; constructor;
    first [now apply (H x Hx) | now apply IH].
Qed.

Lemma read_txin_id_iff (x : TxInput.t) :
  Wire.txin_ok x = true ->
  (Wire.read_txin x = x <-> Wire.canonical_hex (TxInput.txid x) = true).
Proof.
  intros H. apply txin_ok_inv in H as (tb & Htb & _).
  unfold Wire.read_txin, Wire.canonical_hex, Wf.txid_wire.
  rewrite Htb, rev_involutive. destruct x as [txid ix s q].
  cbn [TxInput.txid TxInput.txout_index TxInput.script_sig TxInput.sequence]
    in *.
  rewrite String.eqb_eq. split; [now intros [= ->] | now intros ->].
Qed.

Lemma read_txout_id_iff (y : TxOutput.t) :
  Wire.txout_ok y = true ->
  (Wire.read_txout y = y <-> (0 <=? TxOutput.amount y) = true).
Proof.
  intros H. apply txout_ok_inv in H as [Ha _].
  change (256 ^ Z.of_nat 8 / 2) with 9223372036854775808 in Ha.
  unfold Wire.read_txout. destruct y as [a s]. cbn [TxOutput.amount
    TxOutput.script_pubkey] in *.
  rewrite Z.leb_le. split.
  - intros [= H].
    pose proof (Z.mod_pos_bound a 18446744073709551616 ltac:(lia)). lia.
  - intros H. now rewrite Z.mod_small by lia.
Qed.

Lemma read_item_id_iff (i : string) :
  Wire.item_ok i = true ->
  (Wire.read_item i = i <-> Wire.canonical_item i = true).
Proof.
  unfold Wire.item_ok, Wire.read_item, Wire.canonical_item,
    Wire.canonical_hex.
  destruct (unhexlify i) as [b|e] eqn:Hb; [|discriminate]. intros _.
  destruct b as [|x b].
  - split.
    + intros <-. discriminate Hb.
    + intros H. apply andb_true_l_r in H as [H1 H2].
      apply String.eqb_eq in H1. cbn in H1. subst i. discriminate H2.
  - rewrite andb_true_iff, String.eqb_eq, negb_true_iff, String.eqb_neq.
    split; [|now intros [H _]].
    intros H. split; [exact H|]. rewrite <- H. discriminate.
Qed.

Lemma read_witness_id_iff (w : TxWitnessInput.t) :
  Wire.witness_ok w = true ->
  (Wire.read_witness w = w
   <-> forallb Wire.canonical_item (TxWitnessInput.stack w) = true).
Proof.
  intros H. apply witness_ok_inv in H as [_ Hi].
  unfold Wire.read_witness. destruct w as [stack].
  cbn [TxWitnessInput.stack] in *.
  rewrite forallb_true_iff.
  rewrite <- (Forall_iff_under _ _ _ stack Hi read_item_id_iff).
  rewrite <- map_id_iff. split; [now intros [= H] | now intros ->].
Qed.

(** The fields that are read back are those that were written exactly for
    a canonical transaction. *)
Lemma parsed_id_iff (t : Transaction.t) (hs : bool) :
  Wire.tx_ok t hs = true ->
  (map Wire.read_txin (inputs t) = inputs t
   /\ map Wire.read_txout (outputs t) = outputs t
   /\ (hs = true -> map Wire.read_witness (witnesses t) = witnesses t))
  <-> Wire.canonical t hs = true.
Proof.
  intros H. apply tx_ok_inv in H as (_ & _ & _ & Hi & Ho & Hw).
  assert (A1 : map Wire.read_txin (inputs t) = inputs t
               <-> forallb (fun x => Wire.canonical_hex (TxInput.txid x))
                     (inputs t) = true).
  { rewrite map_id_iff, forallb_true_iff.
    exact (Forall_iff_under _ _ _ _ Hi read_txin_id_iff). }
  assert (A2 : map Wire.read_txout (outputs t) = outputs t
               <-> forallb (fun y => 0 <=? TxOutput.amount y) (outputs t)
                   = true).
  { rewrite map_id_iff, forallb_true_iff.
    exact (Forall_iff_under _ _ _ _ Ho read_txout_id_iff). }
  unfold Wire.canonical. rewrite !andb_true_iff, <- A1, <- A2.
  destruct hs.
  - destruct (Hw eq_refl) as [_ Hws].
    assert (A3 : map Wire.read_witness (witnesses t) = witnesses t
                 <-> forallb
                       (fun w => forallb Wire.canonical_item
                                   (TxWitnessInput.stack w))
                       (witnesses t) = true).
    { rewrite map_id_iff, forallb_true_iff.
      exact (Forall_iff_under _ _ _ _ Hws read_witness_id_iff). }
    rewrite <- A3. tauto.
  - split; [intros (H1 & H2 & _); tauto|].
    intros [[H1 H2] _]. split; [exact H1|]. split; [exact H2|]. discriminate.
Qed.

(** X15: the bytes of a transaction are read back as the same transaction
    exactly when it is canonical (txids in lower case, no negative amount,
    witness items in lower case and not empty), its version and locktime
    are the defaults and, without segwit, it carries no witness. *)
Theorem from_raw_round_trip_iff (t : Transaction.t) :
  Wire.tx_ok t (has_segwit t) = true ->
  exists b,
    to_bytes t (has_segwit t) = Ok b
    /\ (from_raw b = Ok t
        <-> Wire.canonical t (has_segwit t) = true
            /\ version t = DEFAULT_TX_VERSION
            /\ locktime t = DEFAULT_TX_LOCKTIME
            /\ (has_segwit t = false -> witnesses t = [])).
Proof.
  intros Hok. destruct (from_raw_to_bytes t _ Hok) as (b & Hb & Hp).
  exists b. split; [exact Hb|]. rewrite Hp, <- (parsed_id_iff t _ Hok).
  unfold Wire.parsed, init. destruct t as [ins outs lt ver hs wits].
  cbn [inputs outputs locktime version has_segwit witnesses].
  split.
  - intros [= H1 H2 H3 H4 H5]. destruct hs.
    + repeat split; congruence.
    + repeat split; congruence.
  - intros ((H1 & H2 & H3) & H4 & H5 & H6). destruct hs.
    + rewrite H1, H2, H3, H4, H5; reflexivity.
    + rewrite H1, H2, H4, H5, H6; reflexivity.
Qed.

(** [from_raw_round_trip_iff] at a segwit transaction with the default
    version and locktime. *)
Lemma from_raw_round_trip_iff_witness :
  exists b,
    to_bytes (Examples.tx_stack 2) true = Ok b
    /\ from_raw b = Ok (Examples.tx_stack 2).
Proof.
  destruct (from_raw_round_trip_iff (Examples.tx_stack 2))
    as (b & Hb & Hiff); [by_evaluation|].
  exists b. split; [exact Hb|]. apply Hiff.
  repeat split; first [by_evaluation | discriminate].
Defined.

(** X16: [serialize] and [to_hex] return the same hex text, of twice as
    many characters as [get_size] counts bytes; it decodes to the bytes of
    [to_bytes], which [from_raw] reads back. *)
Theorem serialize_reads_back (t : Transaction.t) :
  Wire.tx_ok t (has_segwit t) = true ->
  exists s b,
    serialize t = Ok s /\ to_hex t = Ok s
    /\ unhexlify s = Ok b
    /\ get_size t = Ok (len b)
    /\ Z.of_nat (String.length s) = 2 * len b
    /\ from_raw b = Ok (Wire.parsed t (has_segwit t)).
Proof.
  intros Hok. destruct (from_raw_to_bytes t _ Hok) as (b & Hb & Hp).
  exists (hex b), b. unfold serialize, to_hex, get_size. rewrite Hb.
  cbn [Py.bind]. rewrite unhexlify_hex, hex_length. unfold len.
  repeat split; [lia | exact Hp].
Qed.

(** [serialize_reads_back] at the example transaction. *)
Lemma serialize_reads_back_witness :
  exists s b,
    serialize Examples.tx = Ok s /\ unhexlify s = Ok b
    /\ from_raw b = Ok (Wire.parsed Examples.tx false).
Proof.
  destruct (serialize_reads_back Examples.tx)
    as (s & b & Hs & _ & Hu & _ & _ & Hp); [by_evaluation|].
  exists s, b. repeat split; assumption.
Defined.

(** ** What [from_raw] returns, whatever the bytes *)

Lemma from_le_bytes_bound (b : bytes) (n : Z) :
  len b <= n -> 0 <= from_le_bytes b < 256 ^ n.
Proof.
  intros Hn. pose proof (from_le_bytes_range b) as H.
  pose proof (len_nonneg b).
  assert (256 ^ len b <= 256 ^ n) by (apply Z.pow_le_mono_r; lia). lia.
Qed.

Lemma txin_from_raw_inv (raw : bytes) (c : Z) (hs : bool) (x : TxInput.t)
    (c' : Z) :
  TxInput.from_raw raw c hs = Ok (x, c') ->
  0 <= TxInput.txout_index x < 4294967296
  /\ (length (TxInput.sequence x) <= 4)%nat
  /\ (0 < String.length (TxInput.txid x) <= 64)%nat.
Proof.
  unfold TxInput.from_raw.
  destruct (Z.eqb_spec (len (rev (slice raw c (c + 32)))) 0) as [|Hne];
    [discriminate|].
  destruct (vi_to_int _) as [[n size]|e]; cbn [Py.bind]; [|discriminate].
  destruct (len (rev (slice raw (c + 32) (c + 36))) =? 0); [discriminate|].
  intros [= <- _].
  cbn [TxInput.txout_index TxInput.sequence TxInput.txid].
  rewrite rev_involutive, hex_length, length_rev.
  unfold len in Hne. rewrite length_rev in Hne.
  pose proof (slice_length raw c (c + 32)) as H32.
  pose proof (slice_length raw (c + 32) (c + 36)) as H4.
  pose proof (slice_length raw (c + 36 + size + n) (c + 36 + size + n + 4))
    as Hq.
  unfold len in H32, Hq.
  split; [|split; lia].
  change 4294967296 with (256 ^ 4). apply from_le_bytes_bound. lia.
Qed.

Lemma txout_from_raw_inv (raw : bytes) (c : Z) (hs : bool) (y : TxOutput.t)
    (c' : Z) :
  TxOutput.from_raw raw c hs = Ok (y, c') ->
  0 <= TxOutput.amount y < 18446744073709551616.
Proof.
  unfold TxOutput.from_raw.
  destruct (vi_to_int _) as [[n size]|e]; cbn [Py.bind]; [|discriminate].
  intros [= <- _]. cbn [TxOutput.amount].
  change 18446744073709551616 with (256 ^ 8). apply from_le_bytes_bound.
  pose proof (slice_length raw c (c + 8)). lia.
Qed.

Lemma read_inputs_inv (P : TxInput.t -> Prop) (raw : bytes) (hs : bool) :
  (forall c x c', TxInput.from_raw raw c hs = Ok (x, c') -> P x) ->
  forall n c acc xs c',
    read_inputs n raw c hs acc = Ok (xs, c') ->
    Forall P acc -> Forall P xs /\ length xs = (length acc + n)%nat.
Proof.
  intros HP. induction n as [|n IH]; intros c acc xs c' H Hacc.
  - injection H as <- _. split; [exact Hacc | lia].
  - cbn [read_inputs] in H.
    destruct (TxInput.from_raw raw c hs) as [[x c1]|e] eqn:E;
      cbn [Py.bind] in H; [|discriminate].
    apply IH in H as [H1 H2].
    + split; [exact H1|]. rewrite H2, length_app. cbn [length]. lia.
    + apply Forall_app. split; [exact Hacc|].
      constructor; [exact (HP _ _ _ E) | constructor].
Qed.

Lemma read_outputs_inv (P : TxOutput.t -> Prop) (raw : bytes) (hs : bool) :
  (forall c y c', TxOutput.from_raw raw c hs = Ok (y, c') -> P y) ->
  forall n c acc ys c',
    read_outputs n raw c hs acc = Ok (ys, c') ->
    Forall P acc -> Forall P ys /\ length ys = (length acc + n)%nat.
Proof.
  intros HP. induction n as [|n IH]; intros c acc ys c' H Hacc.
  - injection H as <- _. split; [exact Hacc | lia].
  - cbn [read_outputs] in H.
    destruct (TxOutput.from_raw raw c hs) as [[y c1]|e] eqn:E;
      cbn [Py.bind] in H; [|discriminate].
    apply IH in H as [H1 H2].
    + split; [exact H1|]. rewrite H2, length_app. cbn [length]. lia.
    + apply Forall_app. split; [exact Hacc|].
      constructor; [exact (HP _ _ _ E) | constructor].
Qed.

Lemma read_witnesses_length (raw : bytes) :
  forall n c acc ws c',
    read_witnesses n raw c acc = Ok (ws, c') ->
    length ws = (length acc + n)%nat.
Proof.
  induction n as [|n IH]; intros c acc ws c' H.
  - injection H as <- _. lia.
  - cbn [read_witnesses] in H.
    destruct (vi_to_int _) as [[k size]|e]; cbn [Py.bind] in H;
      [|discriminate].
    destruct (read_witness_items _ _ _ _) as [[items c1]|e];
      cbn [Py.bind] in H; [|discriminate].
    apply IH in H. rewrite H, length_app. cbn [length]. lia.
Qed.

(** X17: whatever the bytes, a transaction that [from_raw] returns has one
    witness for each input when it is segwit and none otherwise; no
    amount is negative or has more than 64 bits, every input index has at
    most 32 bits, every sequence at most 4 bytes and every txid is a
    non-empty text of at most 64 characters. *)
Theorem from_raw_invariants (raw : bytes) (t : Transaction.t) :
  from_raw raw = Ok t ->
  length (witnesses t) = (if has_segwit t then length (inputs t) else 0%nat)
  /\ Forall (fun x => 0 <= TxInput.txout_index x < 4294967296
                      /\ (length (TxInput.sequence x) <= 4)%nat
                      /\ (0 < String.length (TxInput.txid x) <= 64)%nat)
       (inputs t)
  /\ Forall (fun y => 0 <= TxOutput.amount y < 18446744073709551616)
       (outputs t).
Proof.
  unfold from_raw.
  destruct (if bytes_eqb (slice raw 4 5) [Byte.x00] then _ else _)
    as [segwit cursor].
  destruct (vi_to_int _) as [[n_in size]|e]; cbn [Py.bind]; [|discriminate].
  destruct (read_inputs _ _ _ _ _) as [[ins c1]|e] eqn:Ei; cbn [Py.bind];
    [|discriminate].
  destruct (vi_to_int _) as [[n_out size']|e]; cbn [Py.bind]; [|discriminate].
  destruct (read_outputs _ _ _ _ _) as [[outs c2]|e] eqn:Eo; cbn [Py.bind];
    [|discriminate].
  apply (read_inputs_inv _ raw segwit (fun c x c' => txin_from_raw_inv raw c
                                                        segwit x c'))
    in Ei as [Hi _]; [|constructor].
  apply (read_outputs_inv _ raw segwit (fun c y c' => txout_from_raw_inv raw c
                                                         segwit y c'))
    in Eo as [Ho _]; [|constructor].
  destruct segwit.
  - destruct (read_witnesses _ _ _ _) as [[ws c3]|e] eqn:Ew; cbn [Py.bind];
      [|discriminate].
    intros [= <-]. unfold init.
    cbn [witnesses has_segwit inputs outputs].
    apply read_witnesses_length in Ew. cbn [length] in Ew.
    split; [lia|]. split; [exact Hi | exact Ho].
  - cbn [Py.bind]. intros [= <-]. unfold init.
    cbn [witnesses has_segwit inputs outputs].
    split; [reflexivity|]. split; [exact Hi | exact Ho].
Qed.

(** [from_raw_invariants] at the bytes of the example transaction. *)
Lemma from_raw_invariants_witness :
  exists b t,
    to_bytes Examples.tx false = Ok b /\ from_raw b = Ok t
    /\ Forall (fun y => 0 <= TxOutput.amount y < 18446744073709551616)
         (outputs t).
Proof.
  destruct (to_bytes Examples.tx false) as [b|e] eqn:Eb;
    [|vm_compute in Eb; discriminate Eb].
  destruct (from_raw b) as [t|e] eqn:Et.
  - exists b, t. split; [reflexivity|]. split; [exact Et|].
    exact (proj2 (proj2 (from_raw_invariants b t Et))).
  - exfalso. vm_compute in Eb. injection Eb as <-.
    vm_compute in Et. discriminate Et.
Defined.

(** ** What the legacy digest depends on, and where it raises *)

(** X18: the legacy digest does not depend on the [script_sig] of any
    input, on the witnesses or on [has_segwit]: two transactions with the
    same outpoints and sequences, outputs, version and locktime have the
    same digests, so that inputs can be signed in any order. *)
Theorem legacy_digest_ignores_script_sigs (t t' : Transaction.t) (i : Z)
    (s : Script.t) (sighash : Z) :
  map (TxInput.set_script_sig Script.empty) (inputs t)
  = map (TxInput.set_script_sig Script.empty) (inputs t') ->
  outputs t = outputs t' -> locktime t = locktime t' ->
  version t = version t' ->
  get_transaction_digest t i s sighash = get_transaction_digest t' i s sighash.
Proof.
  intros Hi Ho Hl Hv. unfold get_transaction_digest, digest_tmp_tx.
  rewrite !Transaction_copy_id, Hi, Ho.
  destruct (norm_index _ i) as [j|e]; cbn [Py.bind]; [|reflexivity].
  destruct (apply_sighash_type _ _ i sighash) as [[ins outs]|e];
    cbn [Py.bind]; [|reflexivity].
  destruct (apply_anyone_can_pay ins i sighash) as [ins'|e]; cbn [Py.bind];
    [|reflexivity].
  now rewrite (to_bytes_false_witnesses
                 (mk ins' outs (locktime t) (version t) (has_segwit t)
                    (witnesses t))
                 (mk ins' outs (locktime t') (version t') (has_segwit t')
                    (witnesses t'))).
Qed.

(** [legacy_digest_ignores_script_sigs] at the example transaction and the
    same transaction with its first input signed. *)
Lemma legacy_digest_ignores_script_sigs_witness :
  get_transaction_digest Examples.tx 1 Examples.script_code 1
  = get_transaction_digest
      (Transaction.mk
         (alter (TxInput.set_script_sig Examples.script_code) 0%nat
            (inputs Examples.tx))
         (outputs Examples.tx) (locktime Examples.tx) (version Examples.tx)
         true [TxWitnessInput.mk ["00"%string]])
      1 Examples.script_code 1.
Proof. apply legacy_digest_ignores_script_sigs; reflexivity. Defined.

(** X19: with [SIGHASH_NONE] the legacy digest does not depend on the
    outputs. *)
Theorem legacy_none_ignores_outputs (t : Transaction.t)
    (outs : list TxOutput.t) (i : Z) (s : Script.t) (sighash : Z) :
  Z.land sighash 31 = SIGHASH_NONE ->
  get_transaction_digest t i s sighash
  = get_transaction_digest
      (mk (inputs t) outs (locktime t) (version t) (has_segwit t)
         (witnesses t)) i s sighash.
Proof.
  intros Hs. unfold get_transaction_digest, digest_tmp_tx, apply_sighash_type.
  rewrite !Transaction_copy_id, Hs.
  cbn [inputs outputs locktime version has_segwit witnesses].
  change (SIGHASH_NONE =? SIGHASH_NONE) with true. cbv iota. reflexivity.
Qed.

(** [legacy_none_ignores_outputs] at the example transaction, emptied of
    its outputs. *)
Lemma legacy_none_ignores_outputs_witness :
  get_transaction_digest Examples.tx 0 Examples.script_code 2
  = get_transaction_digest
      (mk (inputs Examples.tx) [] (locktime Examples.tx)
         (version Examples.tx) false []) 0 Examples.script_code 2.
Proof.
  apply (legacy_none_ignores_outputs Examples.tx []). reflexivity.
Defined.

(** X20: the legacy digest raises [IndexError] for an input index that is
    not a position of the inputs, counted from the start or, when
    negative, from the end; and with [SIGHASH_SINGLE] it raises
    [ValueError] for a valid position that has no output. *)
Theorem legacy_digest_errors (t : Transaction.t) (i : Z) (s : Script.t)
    (sighash : Z) :
  (i < - len (inputs t) \/ len (inputs t) <= i ->
   get_transaction_digest t i s sighash = Raise IndexError)
  /\ (0 <= i < len (inputs t) -> len (outputs t) <= i ->
      Z.land sighash 31 = SIGHASH_SINGLE ->
      get_transaction_digest t i s sighash = Raise ValueError).
Proof.
  unfold get_transaction_digest, digest_tmp_tx. rewrite Transaction_copy_id.
  assert (Hlen : len (map (TxInput.set_script_sig Script.empty) (inputs t))
                 = len (inputs t)) by (unfold len; now rewrite length_map).
  split.
  - intros Hi. unfold norm_index. rewrite Hlen.
    pose proof (len_nonneg (inputs t)).
    destruct (Z.ltb_spec i 0).
    + destruct (Z.ltb_spec (i + len (inputs t)) 0); [reflexivity | lia].
    + destruct (Z.ltb_spec i 0); [lia|].
      destruct (Z.leb_spec (len (inputs t)) i); [reflexivity | lia].
  - intros Hi Ho Hs. rewrite norm_index_ok by (rewrite Hlen; exact Hi).
    cbn [Py.bind]. unfold apply_sighash_type. rewrite Hs.
    change (SIGHASH_SINGLE =? SIGHASH_NONE) with false.
    change (SIGHASH_SINGLE =? SIGHASH_SINGLE) with true. cbv iota.
    destruct (Z.leb_spec (len (outputs t)) i); [reflexivity | lia].
Qed.

(** X21: with [SIGHASH_ANYONECANPAY], and a basic type other than
    [SIGHASH_SINGLE], the legacy digest depends on the signed input only
    among the inputs: it is the digest of the transaction that has this
    one input, at position 0. *)
Theorem legacy_anyonecanpay_signed_input_only (t : Transaction.t) (i : Z)
    (x : TxInput.t) (s : Script.t) (sighash : Z) :
  0 <= i -> inputs t !! Z.to_nat i = Some x ->
  Z.land sighash SIGHASH_ANYONECANPAY <> 0 ->
  Z.land sighash 31 <> SIGHASH_SINGLE ->
  get_transaction_digest t i s sighash
  = get_transaction_digest
      (mk [x] (outputs t) (locktime t) (version t) (has_segwit t)
         (witnesses t)) 0 s sighash.
Proof.
  intros Hi Hx Hacp Hns.
  unfold get_transaction_digest, digest_tmp_tx. rewrite !Transaction_copy_id.
  cbn [inputs outputs locktime version has_segwit witnesses map].
  pose proof (lookup_lt_Some _ _ _ Hx) as Hlt.
  rewrite norm_index_ok by (unfold len; rewrite length_map; lia).
  rewrite (norm_index_ok [_] 0) by (unfold len; cbn [length]; lia).
  cbn [Py.bind]. change (Z.to_nat 0) with 0%nat. cbn [alter list_alter].
  set (ins := alter (TxInput.set_script_sig s) (Z.to_nat i)
                (map (TxInput.set_script_sig Script.empty) (inputs t))).
  set (y := TxInput.set_script_sig s (TxInput.set_script_sig Script.empty x)).
  assert (Hy : ins !! Z.to_nat i = Some y).
  { unfold ins. rewrite list_lookup_alter_eq, lookup_map, Hx. reflexivity. }
  assert (Hz : zero_other_sequences ins i !! Z.to_nat i = Some y).
  { rewrite zero_other_sequences_lookup. case_decide; [exact Hy | lia]. }
  assert (Hz0 : zero_other_sequences [y] 0 = [y]).
  { apply list_eq. intros k. rewrite zero_other_sequences_lookup.
    destruct k as [|k]; [reflexivity|]. case_decide; reflexivity. }
  unfold apply_sighash_type, apply_anyone_can_pay.
  destruct (Z.eqb_spec (Z.land sighash SIGHASH_ANYONECANPAY) 0) as [E|_];
    [contradiction|]. cbn [negb].
  destruct (Z.land sighash 31 =? SIGHASH_NONE).
  - cbn [Py.bind]. rewrite Hz0.
    rewrite (index_ok _ _ _ Hi Hz), (index_ok [y] 0 y) by (cbn; easy).
    reflexivity.
  - destruct (Z.eqb_spec (Z.land sighash 31) SIGHASH_SINGLE) as [E|_];
      [contradiction|].
    cbn [Py.bind].
    rewrite (index_ok _ _ _ Hi Hy), (index_ok [y] 0 y) by (cbn; easy).
    reflexivity.
Qed.

(** [legacy_anyonecanpay_signed_input_only] at the second input of the
    example transaction, [SIGHASH_ALL | SIGHASH_ANYONECANPAY]. *)
Lemma legacy_anyonecanpay_signed_input_only_witness :
  get_transaction_digest Examples.tx 1 Examples.script_code 129
  = get_transaction_digest
      (mk [TxInput.mk
             "8ac60eb9575db5b2d987e29f301b5b819ea83a5c6579d282d189cc04b8e151ef"
             1 Script.empty (Examples.unhex "ffffffff")]
         (outputs Examples.tx) (locktime Examples.tx) (version Examples.tx)
         false []) 0 Examples.script_code 129.
Proof.
  apply (legacy_anyonecanpay_signed_input_only Examples.tx 1);
    first [reflexivity | lia | by_evaluation].
Defined.

(** ** What the segwit and taproot digests depend on, and where they
    raise *)

Lemma for_each_map {A B S} (g : A -> B) (f : S -> B -> result S)
    (xs : list A) (acc : S) :
  for_each (map g xs) f acc = for_each xs (fun a x => f a (g x)) acc.
Proof.
  revert acc. induction xs as [|x xs IH]; intros acc; [reflexivity|].
  cbn [map for_each]. destruct (f acc (g x)); cbn [Py.bind];
    [apply IH | reflexivity].
Qed.

Lemma index_map {A B} (g : A -> B) (l : list A) (i : Z) :
  index (map g l) i = let* x := index l i in Ok (g x).
Proof.
  unfold index, norm_index, len. rewrite length_map.
  destruct (_ || _); [reflexivity|]. cbn [Py.bind].
  rewrite lookup_map. now destruct (l !! _).
Qed.

(** The segwit preimage reads the outpoints and the sequences of the
    inputs only. *)
Lemma segwit_preimage_on_unsigned (tmp self : Transaction.t) (i : Z)
    (s : Script.t) (a sighash : Z) :
  segwit_preimage_on (Wire.unsigned tmp) (Wire.unsigned self) i s a sighash
  = segwit_preimage_on tmp self i s a sighash.
Proof.
  unfold segwit_preimage_on, segwit_hash_prevouts, segwit_hash_sequence,
    segwit_hash_outputs, Wire.unsigned.
  cbn [inputs outputs locktime version].
  rewrite !for_each_map, index_map.
  destruct (index (inputs self) i) as [x|e]; cbn [Py.bind]; reflexivity.
Qed.

Lemma taproot_preimage_on_unsigned (tmp self : Transaction.t) (i : Z)
    (spks : list Script.t) (amts : list Z) (ext_flag : Z) (s : Script.t)
    (leaf_ver sighash : Z) :
  taproot_preimage_on (Wire.unsigned tmp) (Wire.unsigned self) i spks amts
    ext_flag s leaf_ver sighash
  = taproot_preimage_on tmp self i spks amts ext_flag s leaf_ver sighash.
Proof.
  unfold taproot_preimage_on, taproot_head_on, taproot_tx_data,
    taproot_all_outputs, taproot_input_data, taproot_single_output,
    Wire.unsigned.
  cbn [inputs outputs locktime version].
  rewrite !for_each_map, index_map.
  destruct (index (inputs tmp) i) as [x|e]; cbn [Py.bind]; reflexivity.
Qed.

Lemma unsigned_eq (t t' : Transaction.t) :
  map (TxInput.set_script_sig Script.empty) (inputs t)
  = map (TxInput.set_script_sig Script.empty) (inputs t') ->
  outputs t = outputs t' -> locktime t = locktime t' ->
  version t = version t' -> Wire.unsigned t = Wire.unsigned t'.
Proof. intros Hi Ho Hl Hv. unfold Wire.unsigned. now rewrite Hi, Ho, Hl, Hv. Qed.

(** X22: the segwit v0 and the taproot digests do not depend on the
    [script_sig] of any input, on the witnesses or on [has_segwit]. *)
Theorem witness_digests_ignore_script_sigs (t t' : Transaction.t) (i : Z)
    (s : Script.t) (a sighash : Z) (spks : list Script.t) (amts : list Z)
    (ext_flag leaf_ver : Z) :
  map (TxInput.set_script_sig Script.empty) (inputs t)
  = map (TxInput.set_script_sig Script.empty) (inputs t') ->
  outputs t = outputs t' -> locktime t = locktime t' ->
  version t = version t' ->
  get_transaction_segwit_digest t i s a sighash
  = get_transaction_segwit_digest t' i s a sighash
  /\ get_transaction_taproot_digest t i spks amts ext_flag s leaf_ver sighash
     = get_transaction_taproot_digest t' i spks amts ext_flag s leaf_ver
         sighash.
Proof.
  intros Hi Ho Hl Hv. pose proof (unsigned_eq t t' Hi Ho Hl Hv) as Hu.
  unfold get_transaction_segwit_digest, segwit_preimage,
    get_transaction_taproot_digest, taproot_preimage.
  rewrite !Transaction_copy_id.
  rewrite <- (segwit_preimage_on_unsigned t t),
    <- (segwit_preimage_on_unsigned t' t').
  rewrite <- (taproot_preimage_on_unsigned t t),
    <- (taproot_preimage_on_unsigned t' t').
  rewrite Hu. split; reflexivity.
Qed.

(** [witness_digests_ignore_script_sigs] at the example transaction and
    the same transaction with its first input signed. *)
Lemma witness_digests_ignore_script_sigs_witness :
  get_transaction_segwit_digest Examples.tx 1 Examples.script_code
    600000000 1
  = get_transaction_segwit_digest
      (Transaction.mk
         (alter (TxInput.set_script_sig Examples.script_code) 0%nat
            (inputs Examples.tx))
         (outputs Examples.tx) (locktime Examples.tx) (version Examples.tx)
         true [TxWitnessInput.mk ["00"%string]])
      1 Examples.script_code 600000000 1.
Proof.
  refine (proj1 (witness_digests_ignore_script_sigs Examples.tx
                  (Transaction.mk
                     (alter (TxInput.set_script_sig Examples.script_code)
                        0%nat (inputs Examples.tx))
                     (outputs Examples.tx) (locktime Examples.tx)
                     (version Examples.tx) true
                     [TxWitnessInput.mk ["00"%string]])
                  1 Examples.script_code 600000000 1 [] [] 0 0
                  _ _ _ _)); reflexivity.
Defined.

(** X23: the segwit v0 digest writes the length of the script code in one
    byte: for a script code of 256 bytes or more (and a transaction that
    is otherwise well formed) it raises [struct.error]. *)
Theorem segwit_long_script_code_raises (t : Transaction.t) (i : Z)
    (s : Script.t) (a sighash : Z) :
  forallb Wf.txin_ok (inputs t) = true ->
  forallb Wf.txout_ok (outputs t) = true ->
  0 <= i < len (inputs t) ->
  256 <= len (Script.to_bytes s) ->
  get_transaction_segwit_digest t i s a sighash = Raise StructError.
Proof.
  intros Hins Houts Hi Hs.
  unfold get_transaction_segwit_digest, segwit_preimage, segwit_preimage_on.
  rewrite Transaction_copy_id.
  rewrite (segwit_hash_prevouts_ok _ _ Hins), segwit_hash_sequence_ok,
    (segwit_hash_outputs_ok _ _ _ _ Houts (proj1 Hi)). cbn [Py.bind].
  destruct (index_in_range (inputs t) i Hi) as (x & Hx & Hx').
  rewrite Hx'. cbn [Py.bind].
  assert (Hok : Wf.txin_ok x = true).
  { apply forallb_Forall in Hins. exact (Forall_lookup_1 _ _ _ _ Hins Hx). }
  destruct (segwit_outpoint_ok _ Hok) as [-> _]. cbn [Py.bind].
  unfold pack_B, pack_unsigned. change (256 ^ Z.of_nat 1) with 256.
  destruct (Z.ltb_spec (len (Script.to_bytes s)) 256); [lia|].
  now rewrite andb_false_r.
Qed.

(** [segwit_long_script_code_raises] at the example transaction and a
    script code of 256 bytes. *)
Lemma segwit_long_script_code_raises_witness :
  get_transaction_segwit_digest Examples.tx 0
    (Script.mk (repeat Byte.x51 256)) 600000000 1
  = Raise StructError.
Proof.
  apply segwit_long_script_code_raises;
    first [by_evaluation | vm_compute; split; congruence].
Defined.

(** X24: the taproot digest looks the input up only with
    [SIGHASH_ANYONECANPAY]: for an input index that is past the inputs
    (and otherwise well-formed arguments, the hash type not
    [SIGHASH_SINGLE]) it raises [IndexError] with ANYONECANPAY and returns
    a digest without. *)
Theorem taproot_input_index_unchecked (t : Transaction.t) (i : Z)
    (spks : list Script.t) (amts : list Z) (ext_flag : Z) (s : Script.t)
    (leaf_ver sighash : Z) :
  forallb Wf.txin_ok (inputs t) = true ->
  forallb Wf.txout_unsigned_ok (outputs t) = true ->
  forallb Wf.short_script spks = true ->
  forallb Wf.u64 amts = true ->
  Wf.u8 sighash = true -> Wf.u8 (2 * ext_flag) = true ->
  len (inputs t) <= i < 4294967296 ->
  Z.land sighash 3 <> SIGHASH_SINGLE ->
  if Z.land sighash 128 =? 128 then
    get_transaction_taproot_digest t i spks amts ext_flag s leaf_ver sighash
    = Raise IndexError
  else
    exists d,
      get_transaction_taproot_digest t i spks amts ext_flag s leaf_ver sighash
      = Ok d.
Proof.
  intros Hins Houts Hspks Hamts Hsh Hext Hi Hns.
  pose proof (len_nonneg (inputs t)) as Hlen.
  unfold get_transaction_taproot_digest. rewrite taproot_preimage_unfold.
  destruct (Z.eqb_spec (Z.land sighash 3) SIGHASH_SINGLE) as [E|_];
    [contradiction|].
  destruct (Z.eqb_spec (Z.land sighash 128) 128) as [Hacp|Hacp].
  - unfold taproot_head, taproot_head_on. rewrite Transaction_copy_id.
    apply u8_inv in Hsh, Hext.
    change (bytes_of_int 0) with (Ok [Byte.x00]).
    rewrite (bytes_of_int_ok _ Hsh). cbn [Py.bind].
    change SIGHASH_ANYONECANPAY with 128. rewrite Hacp, Z.eqb_refl.
    cbn [negb Py.bind].
    replace (ext_flag * 2 + 0) with (2 * ext_flag) by lia.
    rewrite (bytes_of_int_ok _ Hext).
    unfold taproot_input_data. rewrite (index_oob (inputs t) i) by lia.
    destruct (negb _); cbn [Py.bind];
      [rewrite (taproot_all_outputs_ok _ _ Houts) | ]; reflexivity.
  - rewrite (taproot_head_ok _ _ _ _ _ _ Hins Houts Hspks Hamts Hsh Hacp Hext)
      by (unfold Wf.u32; lia).
    cbn [Py.bind].
    destruct (ext_flag =? 1); [rewrite taproot_extension_ok|];
      cbn [Py.bind]; eexists; reflexivity.
Qed.

(** [taproot_input_index_unchecked] at the example transaction (two
    inputs) and input index 7. *)
Lemma taproot_input_index_unchecked_witness :
  exists d,
    get_transaction_taproot_digest Examples.tx 7
      [Examples.prevout_script; Examples.prevout_script] [600; 700]
      0 Script.empty LEAF_VERSION_TAPSCRIPT 0 = Ok d.
Proof.
  apply (taproot_input_index_unchecked Examples.tx 7
           [Examples.prevout_script; Examples.prevout_script] [600; 700]
           0 Script.empty LEAF_VERSION_TAPSCRIPT 0);
    first [by_evaluation | vm_compute; split; congruence
          | vm_compute; congruence].
Defined.

(** ** Locktime, identifiers, and the end of the bytes *)

(** X10: [Locktime.for_transaction] returns four bytes that decode, as a
    little-endian integer, to the value when the value is in [0, 2^32),
    and a transaction with this locktime serialises with these four bytes
    last; for any other value it raises [OverflowError]. *)
Theorem locktime_for_transaction (v : Z) :
  (0 <= v < 4294967296 ->
   exists l,
     Locktime.for_transaction (Locktime.mk v) = Ok l
     /\ length l = 4%nat /\ from_le_bytes l = v
     /\ forall ins outs ver segwit wits hs b,
          to_bytes (Transaction.mk ins outs l ver segwit wits) hs = Ok b ->
          exists pre, b = pre ++ l)
  /\ (v < 0 \/ 4294967296 <= v ->
      Locktime.for_transaction (Locktime.mk v) = Raise OverflowError).
Proof.
  unfold Locktime.for_transaction. cbn [Locktime.value]. split.
  - intros Hv. rewrite (int_to_bytes_ok 4 v Hv). cbn [Py.bind].
    eexists. split; [reflexivity|].
    rewrite le_bytes_length, (from_le_bytes_le_bytes 4 v Hv).
    split; [reflexivity|]. split; [reflexivity|].
    intros ins outs ver segwit wits hs b. rewrite to_bytes_layout.
    cbn [inputs outputs version locktime witnesses].
    destruct (map_m TxInput.to_bytes ins) as [bi|e]; cbn [Py.bind];
      [|discriminate].
    destruct (map_m TxOutput.to_bytes outs) as [bo|e]; cbn [Py.bind];
      [|discriminate].
    destruct (if hs then _ else _) as [w|e]; cbn [Py.bind]; [|discriminate].
    intros [= <-]. eexists. rewrite !app_assoc. reflexivity.
  - intros Hv. unfold int_to_bytes.
    change (256 ^ Z.of_nat 4) with 4294967296.
    destruct (Z.leb_spec 0 v), (Z.ltb_spec v 4294967296); cbn [andb Py.bind];
      try reflexivity; lia.
Qed.

(** X25: a txid that [get_txid] returns is 64 characters of lower-case
    hex text, and as the txid of an input it is written on the wire as the
    double SHA-256 of the serialisation without witnesses; without segwit
    [get_hash] and [get_wtxid] return the same text. *)
Theorem txid_is_an_input_txid (t : Transaction.t) (s : string) :
  get_txid t = Ok s ->
  exists data,
    to_bytes t false = Ok data
    /\ String.length s = 64%nat
    /\ Wire.canonical_hex s = true
    /\ (forall n sc q, Wf.txid_wire (TxInput.mk s n sc q) = sha256d data)
    /\ (has_segwit t = false -> get_hash t = Ok s /\ get_wtxid t = Ok s).
Proof.
  unfold get_txid, get_wtxid, get_hash.
  destruct (to_bytes t false) as [data|e] eqn:Hd; cbn [Py.bind];
    [|discriminate].
  intros [= <-]. exists data. split; [reflexivity|].
  rewrite hex_length, length_rev, sha256d_length. split; [reflexivity|].
  unfold Wire.canonical_hex, Wf.txid_wire. cbn [TxInput.txid].
  rewrite unhexlify_hex, String.eqb_refl, rev_involutive.
  split; [reflexivity|]. split; [reflexivity|].
  intros ->. now rewrite Hd.
Qed.

(** [txid_is_an_input_txid] at the example transaction. *)
Lemma txid_is_an_input_txid_witness :
  exists s, get_txid Examples.tx = Ok s /\ String.length s = 64%nat.
Proof.
  destruct (get_txid Examples.tx) as [s|e] eqn:E;
    [|vm_compute in E; discriminate E].
  destruct (txid_is_an_input_txid Examples.tx s E) as (_ & _ & Hl & _).
  exists s. split; [reflexivity | exact Hl].
Defined.

Lemma vi_to_int_raises (b : bytes) (e : exn) :
  vi_to_int b = Raise e -> e = MalformedVarInt.
Proof.
  unfold vi_to_int. destruct b as [|b0 rest]; [now intros [= <-]|].
  destruct (_ <? 253); [discriminate|].
  destruct (_ <? _)%nat; [now intros [= <-] | discriminate].
Qed.

(** X26: [TxInput.from_raw] raises [Exception] exactly when the cursor is
    at or past the end of the bytes. *)
Theorem txin_from_raw_past_end (raw : bytes) (c : Z) (hs : bool) :
  0 <= c ->
  (TxInput.from_raw raw c hs = Raise Exception <-> len raw <= c).
Proof.
  intros Hc. unfold TxInput.from_raw.
  assert (Hl : len (rev (slice raw c (c + 32))) = len (slice raw c (c + 32)))
    by (unfold len; now rewrite length_rev).
  rewrite Hl. pose proof (slice_nil_iff raw c (c + 32) Hc ltac:(lia)) as Hn.
  destruct (Z.eqb_spec (len (slice raw c (c + 32))) 0) as [E|E].
  - split; [intros _; now apply Hn | reflexivity].
  - split; [|intros H; apply Hn in H; contradiction].
    destruct (vi_to_int _) as [[n size]|e] eqn:Ev; cbn [Py.bind].
    + destruct (_ =? 0); discriminate.
    + apply vi_to_int_raises in Ev. subst e. discriminate.
Qed.

(** [txin_from_raw_past_end] at the empty bytes. *)
Lemma txin_from_raw_past_end_witness :
  TxInput.from_raw [] 0 false = Raise Exception.
Proof. apply txin_from_raw_past_end; [lia | reflexivity]. Defined.
